(** * cartoframes.datasets: a shallow embedding of the Dataset pipeline

    The development follows [cartoframes/datasets.py] (Python 3 reading):
    geometry decoding, the bulk row serializer, table DDL, the upload and
    download façade, column introspection and the rate-limit retry wrapper.

    Conventions.
    - A Python [str] is held as the sequence of its UTF-8 bytes (a Rocq
      [string]); [str.encode()] is then the identity on that sequence.
    - A call that may raise returns a [result]; code that talks to the remote
      service threads a [State]: the service's own state plus the trace of
      every external call, warning and sleep the code performs.
    - External collaborators (the SQL, batch and bulk-copy clients, shapely)
      are fields of records the code is parameterised by. *)

From Stdlib Require Import ZArith String Ascii List Bool Lia DecimalString.
From stdpp Require Import base option list strings gmap.
From Equations Require Import Equations.

Local Open Scope Z_scope.

(** ** Characters and text *)

Definition nl : string := String "010"%char EmptyString.
Definition dquote : string := String "034"%char EmptyString.

(** [str(int)] *)
Definition str_of_Z (z : Z) : string := NilZero.string_of_int (Z.to_int z).
Definition str_of_N (n : N) : string := str_of_Z (Z.of_N n).

(** [sep.join(parts)] *)
Definition join (sep : string) (parts : list string) : string :=
  String.concat sep parts.

Definition lower_ascii (c : ascii) : ascii :=
  let n := N_of_ascii c in
  if ((65 <=? n) && (n <=? 90))%N then ascii_of_N (n + 32) else c.

(** [str.lower()], on ASCII letters. *)
Fixpoint lower (s : string) : string :=
  match s with
  | EmptyString => EmptyString
  | String c rest => String (lower_ascii c) (lower rest)
  end.

Fixpoint contains_char (c : ascii) (s : string) : bool :=
  match s with
  | EmptyString => false
  | String d rest => Ascii.eqb c d || contains_char c rest
  end.

(** [needle in haystack] for text. *)
Fixpoint substring_of (needle hay : string) : bool :=
  String.prefix needle hay ||
  match hay with
  | EmptyString => false
  | String _ rest => substring_of needle rest
  end.

Definition hex_char (n : N) : ascii :=
  if (n <? 10)%N then ascii_of_N (48 + n) else ascii_of_N (87 + n).

(** One byte of [repr(bytes)] under the quote [q]. *)
Definition repr_byte (q c : ascii) : string :=
  let n := N_of_ascii c in
  if Ascii.eqb c q || Ascii.eqb c "\"%char then String "\"%char (String c EmptyString)
  else if Ascii.eqb c "009"%char then "\t"
  else if Ascii.eqb c "010"%char then "\n"
  else if Ascii.eqb c "013"%char then "\r"
  else if ((n <? 32) || (127 <=? n))%N then
    String "\"%char (String "x"%char
      (String (hex_char (n / 16)) (String (hex_char (n mod 16)) EmptyString)))
  else String c EmptyString.

Fixpoint repr_bytes_body (q : ascii) (b : string) : string :=
  match b with
  | EmptyString => EmptyString
  | String c rest => repr_byte q c +:+ repr_bytes_body q rest
  end.

(** [repr(b)] of a bytes object: single quotes unless the payload holds a
    single quote and no double quote. *)
Definition repr_bytes (b : string) : string :=
  let q := if contains_char "'"%char b && negb (contains_char "034"%char b)
           then "034"%char else "'"%char in
  "b" +:+ String q (repr_bytes_body q b) +:+ String q EmptyString.

(** ** Python values that reach this module *)

(** What the code reads off a shapely geometry: [geom.geom_type], [geom.wkt]
    and its truth value ([bool(geom)] is [not geom.is_empty]). *)
Record geometry := Geometry {
  geom_type : string;
  wkt : string;
  is_empty : bool
}.

(** A cell of a dataframe, a parameter such as [limit], or a JSON value of a
    service reply.  [VFloat] is a finite float, known by the text formatting
    gives for it and by whether it is non-zero; [VNaN] is the float NaN. *)
Inductive value :=
| VNone
| VNaN
| VBool (b : bool)
| VInt (z : Z)
| VFloat (text : string) (nonzero : bool)
| VStr (s : string)
| VBytes (b : string)
| VGeom (g : geometry).

#[global] Instance geometry_eq_dec : EqDecision geometry.
Proof. solve_decision. Defined.
#[global] Instance value_eq_dec : EqDecision value.
Proof. solve_decision. Defined.

(** [val is None] *)
Definition is_None (v : value) : bool :=
  match v with VNone => true | _ => false end.

(** [pd.isnull(val)] on a scalar *)
Definition pd_isnull (v : value) : bool :=
  match v with VNone | VNaN => true | _ => false end.

(** [bool(val)], as [if val:] tests it *)
Definition truthy (v : value) : bool :=
  match v with
  | VNone => false
  | VNaN => true
  | VBool b => b
  | VInt z => negb (z =? 0)
  | VFloat _ nz => nz
  | VStr s => negb (String.eqb s EmptyString)
  | VBytes b => negb (String.eqb b EmptyString)
  | VGeom g => negb (is_empty g)
  end.

(** ['{}'.format(val)] *)
Definition py_format (v : value) : string :=
  match v with
  | VNone => "None"
  | VNaN => "nan"
  | VBool true => "True"
  | VBool false => "False"
  | VInt z => str_of_Z z
  | VFloat text _ => text
  | VStr s => s
  | VBytes b => repr_bytes b
  | VGeom g => wkt g
  end.

(** [hasattr(val, 'geom_type')] *)
Definition hasattr_geom_type (v : value) : bool :=
  match v with VGeom _ => true | _ => false end.

(** [isinstance(val, int)]: [bool] is a subclass of [int]. *)
Definition isinstance_int (v : value) : bool :=
  match v with VInt _ | VBool _ => true | _ => false end.

(** The integer an [int] instance stands for in a comparison. *)
Definition int_value (v : value) : Z :=
  match v with
  | VInt z => z
  | VBool true => 1
  | _ => 0
  end.

(** [str.encode()] *)
Definition encode (s : string) : list Byte.byte := list_byte_of_string s.

(** ** Exceptions and results *)

Inductive exn :=
| ValueError (msg : string)
| NameError (msg : string)
| TypeError (msg : string)
| KeyError (key : string)
| IndexError (msg : string)
| AttributeError (msg : string)
| ImportError (msg : string)
| BinasciiError (msg : string)
| GeometryReadError (msg : string)
| CartoException (msg : string)
| CartoRateLimitException (msg : string) (retry_after : N).

Inductive result (A : Type) :=
| Return (a : A)
| Raise (e : exn).
Arguments Return {A} a.
Arguments Raise {A} e.

#[global] Instance result_ret : MRet result := @Return.
#[global] Instance result_bind : MBind result := fun A B f r =>
  match r with
  | Return a => f a
  | Raise e => Raise e
  end.

(** [isinstance(e, CartoException)]: the rate-limit error is a subclass. *)
Definition isinstance_CartoException (e : exn) : bool :=
  match e with
  | CartoException _ | CartoRateLimitException _ _ => true
  | _ => false
  end.

(** [str(e)] *)
Definition str_exn (e : exn) : string :=
  match e with
  | ValueError m | NameError m | TypeError m | IndexError m | AttributeError m
  | ImportError m | BinasciiError m | GeometryReadError m
  | CartoException m | CartoRateLimitException m _ => m
  | KeyError k => "'" +:+ k +:+ "'"
  end.

(** ** binascii.unhexlify *)

Definition hex_value (c : ascii) : option N :=
  let n := N_of_ascii c in
  if ((48 <=? n) && (n <=? 57))%N then Some (n - 48)%N
  else if ((97 <=? n) && (n <=? 102))%N then Some (n - 87)%N
  else if ((65 <=? n) && (n <=? 70))%N then Some (n - 55)%N
  else None.

Fixpoint unhex_pairs (s : string) : result string :=
  match s with
  | EmptyString => Return EmptyString
  | String _ EmptyString => Raise (BinasciiError "Odd-length string")
  | String a (String b rest) =>
      match hex_value a, hex_value b with
      | Some x, Some y =>
          tl ← unhex_pairs rest; Return (String (ascii_of_N (16 * x + y)) tl)
      | _, _ => Raise (BinasciiError "Non-hexadecimal digit found")
      end
  end.

(** [ba.unhexlify(data)]: hex text or bytes to the bytes they spell. *)
Definition unhexlify (data : value) : result value :=
  match data with
  | VStr s | VBytes s =>
      if Nat.even (String.length s)
      then b ← unhex_pairs s; Return (VBytes b)
      else Raise (BinasciiError "Odd-length string")
  | _ => Raise (TypeError "argument should be bytes, buffer or ASCII string")
  end.

(** ** Geometry codec *)

(** The two shapely entry points the decoder calls: [wkb.loads(data, hex)]
    and [wkt.loads(data)].  Either returns a geometry or raises. *)
Record Shapely := {
  wkb_loads : value → bool → result geometry;
  wkt_loads : value → result geometry
}.

(** Outcome of [from shapely import wkb, wkt]. *)
Inductive import :=
| Installed (lib : Shapely)
| Missing (err : string).

(** The library calls of [_decode_geom], in source order. *)
Inductive attempt :=
| WkbOfUnhex      (* wkb.loads(ba.unhexlify(ewkb)) *)
| WkbHexOfUnhex   (* wkb.loads(ba.unhexlify(ewkb), hex=True) *)
| WkbHex          (* wkb.loads(ewkb, hex=True) *)
| WkbRaw          (* wkb.loads(ewkb) *)
| WktText.        (* wkt.loads(ewkb) *)

#[global] Instance attempt_eq_dec : EqDecision attempt.
Proof. solve_decision. Defined.

(** A decode outcome: the library calls made, then what was returned or raised. *)
Definition decoded : Type := list attempt * result value.

(** [try: return <call> except Exception: <rest>], recording the call. *)
Definition try_return (a : attempt) (call : result geometry)
    (rest : decoded) : decoded :=
  match call with
  | Return g => ([a], Return (VGeom g))
  | Raise _ => (a :: rest.1, rest.2)
  end.

Definition shapely_missing_message (err : string) : string :=
  "The Python package `shapely` needs to be installed to encode or decode geometries. ("
  +:+ err +:+ ")".

(** [_encode_decode_decorator(func)]: only an [ImportError] is rewrapped. *)
Definition _encode_decode_decorator {A} (func : A → decoded) (args : A) : decoded :=
  let processed_geom := func args in
  match processed_geom.2 with
  | Raise (ImportError err) =>
      (processed_geom.1, Raise (ImportError (shapely_missing_message err)))
  | _ => processed_geom
  end.

Section GeometryCodec.
Variable shapely : import.

(** The undecorated body of [_decode_geom]. *)
Definition _decode_geom_func (ewkb : value) : decoded :=
  if hasattr_geom_type ewkb then ([], Return ewkb)
  else
    match shapely with
    | Missing err => ([], Raise (ImportError err))
    | Installed lib =>
        if truthy ewkb then
          try_return WkbOfUnhex (b ← unhexlify ewkb; wkb_loads lib b false)
         (try_return WkbHexOfUnhex (b ← unhexlify ewkb; wkb_loads lib b true)
         (try_return WkbHex (wkb_loads lib ewkb true)
         (try_return WkbRaw (wkb_loads lib ewkb false)
         (try_return WktText (wkt_loads lib ewkb)
         ([], Return VNone)))))
        else ([], Return VNone)
    end.

Definition _decode_geom : value → decoded :=
  _encode_decode_decorator _decode_geom_func.

End GeometryCodec.

(** ** Dataframes *)

(** A pandas dataframe as this module reads it: the column labels in order,
    [df.dtypes] (each dtype by its [str]), the [_geometry_column_name]
    attribute when the frame carries one, and the rows [df.iterrows()] yields,
    each a Series indexed by column label. *)
Record DataFrame := {
  columns : list string;
  dtypes : gmap string string;
  _geometry_column_name : option string;
  iterrows : list (gmap string value)
}.

(** [row[col]] *)
Definition row_getitem (row : gmap string value) (col : string) : result value :=
  match row !! col with
  | Some v => Return v
  | None => Raise (KeyError col)
  end.

(** [df[col]] *)
Definition df_getitem (df : DataFrame) (col : string) : result (list value) :=
  if bool_decide (col ∈ columns df)
  then mapM (λ row, row_getitem row col) (iterrows df)
  else Raise (KeyError col).

(** [df.dtypes[col]] *)
Definition dtypes_getitem (df : DataFrame) (col : string) : result string :=
  match dtypes df !! col with
  | Some d => Return d
  | None => Raise (KeyError col)
  end.

(** [geom.wkt] *)
Definition getattr_wkt (v : value) : result string :=
  match v with
  | VGeom g => Return (wkt g)
  | _ => Raise (AttributeError "wkt")
  end.

(** ** The remote context *)

(** Modelled from the spec: class [Column] (cartoframes/columns.py is not among
    the sources): a column descriptor is a (name, database type) pair. *)
Record Column := { name : string; pgtype : string }.

(** Modelled from the spec: [Column.from_sql_api_fields], the descriptors of a
    reply's field metadata, in order. *)
Definition from_sql_api_fields (fields : list (string * string)) : list Column :=
  map (λ f, {| name := f.1; pgtype := f.2 |}) fields.

(** A reply of the SQL API: [{fields, rows}]. *)
Record sql_result := {
  fields : list (string * string);
  rows : list (gmap string string)
}.

(** The typed errors of the carto client: [CartoException] and its subclass
    [CartoRateLimitException], which carries [retry_after] (the Retry-After
    header: a non-negative number of seconds). *)
Inductive carto_error :=
| CartoError (msg : string)
| CartoRateLimit (msg : string) (retry_after : N).

Definition exn_of_carto (e : carto_error) : exn :=
  match e with
  | CartoError msg => CartoException msg
  | CartoRateLimit msg retry_after => CartoRateLimitException msg retry_after
  end.

Inductive reply (A : Type) :=
| Ok (a : A)
| Failed (e : carto_error).
Arguments Ok {A} a.
Arguments Failed {A} e.

Definition result_of_reply {A} (r : reply A) : result A :=
  match r with
  | Ok a => Return a
  | Failed e => Raise (exn_of_carto e)
  end.

(** What the code does to the outside, in the order it does it. *)
Inductive event :=
| SqlSend (query : string) (do_post : bool)
| BatchSql (sql : string)
| CopyFrom (sql : string) (lines : list (list Byte.byte))
| CopyToStream (query : string)
| Fetch (query : string) (decode_geom : bool)
| Warn (msg : string)
| Sleep (seconds : N)
| DebugPrint (err : exn).

(** The remote-context handle [cc], over the service's state [W]: each client
    call maps the service state to a reply and a new state. *)
Record CartoContext (W : Type) := {
  sql_client_send : string → bool → W → reply sql_result * W;
  batch_sql_client_create_and_wait_for_completion :
    string → W → reply (gmap string value) * W;
  copy_client_copyfrom : string → list (list Byte.byte) → W → reply unit * W;
  copy_client_copyto_stream : string → W → reply (list Byte.byte) * W;
  fetch : string → bool → W → result DataFrame * W;
  creds_username : string;
  is_org : bool
}.
Arguments sql_client_send {W}.
Arguments batch_sql_client_create_and_wait_for_completion {W}.
Arguments copy_client_copyfrom {W}.
Arguments copy_client_copyto_stream {W}.
Arguments fetch {W}.
Arguments creds_username {W}.
Arguments is_org {W}.

Record State (W : Type) := {
  world : W;
  trace : list event
}.
Arguments Build_State {W}.
Arguments world {W}.
Arguments trace {W}.

Definition log {W} (s : State W) (evs : list event) : State W :=
  {| world := world s; trace := trace s ++ evs |}.

(** Computations that may raise and that act on the service. *)
Record M (W A : Type) := MkM { run : State W → result A * State W }.
Arguments MkM {W A}.
Arguments run {W A}.

#[global] Instance M_ret W : MRet (M W) := λ A a, MkM (λ s, (Return a, s)).
#[global] Instance M_bind W : MBind (M W) := λ A B f m,
  MkM (λ s, match run m s with
            | (Return a, s') => run (f a) s'
            | (Raise e, s') => (Raise e, s')
            end).

Definition raise {W A} (e : exn) : M W A := MkM (λ s, (Raise e, s)).
Definition lift {W A} (r : result A) : M W A := MkM (λ s, (r, s)).
Definition emit {W} (ev : event) : M W unit := MkM (λ s, (Return (), log s [ev])).

(** [warn(msg)] and [time.sleep(seconds)] *)
Definition warn {W} (msg : string) : M W unit := emit (Warn msg).
Definition time_sleep {W} (seconds : N) : M W unit := emit (Sleep seconds).

(** A client call: recorded in the trace, then answered by the service. *)
Definition call {W A} (ev : event) (f : W → reply A * W) : M W A :=
  MkM (λ s, let '(r, w) := f (world s) in
            (result_of_reply r, {| world := w; trace := trace s ++ [ev] |})).

(** [try: body except <class> as e: handler(e)], for the exceptions [catches] accepts. *)
Definition try_catch {W A} (body : M W A) (catches : exn → bool)
    (handler : exn → M W A) : M W A :=
  MkM (λ s, match run body s with
            | (Raise e, s') => if catches e then run (handler e) s' else (Raise e, s')
            | ok => ok
            end).

(** The lines a generator yields before the first one whose production raises. *)
Fixpoint yielded {A} (gen : list (result A)) : list A :=
  match gen with
  | Return a :: rest => a :: yielded rest
  | _ => []
  end.

Fixpoint first_raise {A} (gen : list (result A)) : option exn :=
  match gen with
  | [] => None
  | Return _ :: rest => first_raise rest
  | Raise e :: _ => Some e
  end.

(** [cc.copy_client.copyfrom(sql, rows)] with [rows] a generator: the transport
    pulls the lines; one whose production raises ends the call with that
    exception, else the service's reply decides. *)
Definition copyfrom {W} (cc : CartoContext W) (sql : string)
    (gen : list (result (list Byte.byte))) : M W unit :=
  MkM (λ s,
    let '(r, w) := copy_client_copyfrom cc sql (yielded gen) (world s) in
    let s' := {| world := w; trace := trace s ++ [CopyFrom sql (yielded gen)] |} in
    match first_raise gen with
    | Some e => (Raise e, s')
    | None => (result_of_reply r, s')
    end).

(** ** class Dataset *)

Record Dataset (W : Type) := {
  cc : CartoContext W;
  table_name : string;
  schema : string;
  df : option DataFrame;
  normalized_column_names : option (list (string * string))
}.
Arguments cc {W}.
Arguments table_name {W}.
Arguments schema {W}.
Arguments df {W}.
Arguments normalized_column_names {W}.

Definition FAIL : string := "fail".
Definition REPLACE : string := "replace".
Definition APPEND : string := "append".
Definition DEFAULT_RETRY_TIMES : Z := 3.

(** [_dtypes2pg(dtype)]: the PostgreSQL type for [str(dtype)]. *)
Definition _dtypes2pg_mapping : gmap string string :=
  list_to_map [
    ("float64", "numeric");
    ("int64", "integer");
    ("float32", "numeric");
    ("int32", "integer");
    ("object", "text");
    ("bool", "boolean");
    ("datetime64[ns]", "timestamp");
    ("datetime64[ns, UTC]", "timestamp")
  ].

Definition _dtypes2pg (dtype : string) : string :=
  default "text" (_dtypes2pg_mapping !! dtype).

Section Datasets.
(** Module-level environment: whether shapely can be imported, and the
    constant [Column.SUPPORTED_GEOM_COL_NAMES] (cartoframes/columns.py is
    not among the sources). *)
Variable shapely : import.
Variable SUPPORTED_GEOM_COL_NAMES : list string.
Context {W : Type}.

Definition _get_geom_col_name (df : DataFrame) : option string :=
  match _geometry_column_name df with
  | Some geom_col => Some geom_col
  | None =>
      head (filter (λ x, lower x ∈ SUPPORTED_GEOM_COL_NAMES) (columns df))
  end.

Definition _first_not_null_value (df : DataFrame) (col : string) : result value :=
  series ← df_getitem df col;
  match filter (λ v, pd_isnull v = false) series with
  | v :: _ => Return v
  | [] => Raise (IndexError "single positional indexer is out-of-bounds")
  end.

Definition _get_geom_col_type (df : DataFrame) : M W (option string) :=
  match _get_geom_col_name df with
  | None => mret None
  | Some geom_col =>
      geom ← try_catch
               (v ← lift (_first_not_null_value df geom_col);
                lift (_decode_geom shapely v).2)
               (λ e, match e with IndexError _ => true | _ => false end)
               (λ _, warn "Dataset with null geometries";; mret VNone);
      match geom with
      | VNone => mret None
      | VGeom g => mret (Some (geom_type g))
      | _ => raise (AttributeError "geom_type")
      end
  end.

(** One pass of the loop over [cols] in [_rows]: the text so far and the
    three values picked up on the way. *)
Record row_acc := {
  csv_row : string;
  the_geom_val : value;
  lng_val : value;
  lat_val : value
}.

Definition _rows_col (row : gmap string value) (with_lonlat : option (string * string))
    (geom_col : option string) (acc : row_acc) (col : string) : result row_acc :=
  if bool_decide (is_Some with_lonlat) && bool_decide (col ∈ SUPPORTED_GEOM_COL_NAMES)
  then Return acc
  else
    val ← row_getitem row col;
    let val' := if pd_isnull val || is_None val then VStr EmptyString else val in
    let lng := match with_lonlat with
               | Some (lng_col, _) =>
                   if bool_decide (col = lng_col) then val else lng_val acc
               | None => lng_val acc
               end in
    let lat := match with_lonlat with
               | Some (_, lat_col) =>
                   if bool_decide (col = lat_col) then val else lat_val acc
               | None => lat_val acc
               end in
    if bool_decide (Some col = geom_col)
    then Return {| csv_row := csv_row acc; the_geom_val := val;
                   lng_val := lng; lat_val := lat |}
    else Return {| csv_row := csv_row acc +:+ py_format val' +:+ "|";
                   the_geom_val := the_geom_val acc;
                   lng_val := lng; lat_val := lat |}.

Fixpoint _rows_cols (row : gmap string value) (with_lonlat : option (string * string))
    (geom_col : option string) (acc : row_acc) (cols : list string) : result row_acc :=
  match cols with
  | [] => Return acc
  | col :: rest =>
      acc' ← _rows_col row with_lonlat geom_col acc col;
      _rows_cols row with_lonlat geom_col acc' rest
  end.

(** The body of the [for i, row in df.iterrows()] loop of [_rows]: the line
    yielded for one row. *)
Definition _rows_line (row : gmap string value) (cols : list string)
    (with_lonlat : option (string * string)) (geom_col : option string)
    : result (list Byte.byte) :=
  acc ← _rows_cols row with_lonlat geom_col
          {| csv_row := EmptyString; the_geom_val := VNone;
             lng_val := VNone; lat_val := VNone |} cols;
  csv1 ← (if negb (is_None (the_geom_val acc)) then
            geom ← (_decode_geom shapely (the_geom_val acc)).2;
            if truthy geom then
              w ← getattr_wkt geom;
              Return (csv_row acc +:+ "SRID=4326;" +:+ w)
            else Return (csv_row acc)
          else Return (csv_row acc));
  let csv2 :=
    if bool_decide (is_Some with_lonlat) && negb (is_None (lng_val acc))
       && negb (is_None (lat_val acc))
    then csv1 +:+ "SRID=4326;POINT(" +:+ py_format (lng_val acc) +:+ " "
              +:+ py_format (lat_val acc) +:+ ")"
    else csv1 in
  Return (encode (csv2 +:+ nl)).

(** [_rows(df, cols, with_lonlat, geom_col)]: the generator, one line per row. *)
Definition _rows (df : DataFrame) (cols : list string)
    (with_lonlat : option (string * string)) (geom_col : option string)
    : list (result (list Byte.byte)) :=
  map (λ row, _rows_line row cols with_lonlat geom_col) (iterrows df).

Definition _drop_table_query (self : Dataset W) (if_exists : bool) : string :=
  "DROP TABLE " +:+ (if if_exists then "IF EXISTS" else EmptyString)
  +:+ " " +:+ table_name self.

Definition _create_table_from_query (self : Dataset W) (query : string) : string :=
  "CREATE TABLE " +:+ table_name self +:+ " AS (" +:+ query +:+ ")".

Definition _cartodbfy_query (self : Dataset W) : string :=
  "SELECT CDB_CartodbfyTable('"
  +:+ (if is_org (cc self) then creds_username (cc self) else "public")
  +:+ "', '" +:+ table_name self +:+ "')".

(** [self.df.<...>] when [self.df] may be [None] *)
Definition self_df (self : Dataset W) : result DataFrame :=
  match df self with
  | Some d => Return d
  | None => Raise (AttributeError "'NoneType' object has no attribute")
  end.

(** [for norm, orig in self.normalized_column_names] *)
Definition self_normalized_column_names (self : Dataset W)
    : result (list (string * string)) :=
  match normalized_column_names self with
  | Some l => Return l
  | None => Raise (TypeError "'NoneType' object is not iterable")
  end.

Definition _create_table_query (self : Dataset W)
    (with_lonlat : option (string * string)) : M W string :=
  geom_type ← match with_lonlat with
              | None => d ← lift (self_df self); _get_geom_col_type d
              | Some _ => mret (Some "Point")
              end;
  names ← lift (self_normalized_column_names self);
  defs ← lift (mapM (λ p : string * string,
                       d ← self_df self;
                       dtype ← dtypes_getitem d p.2;
                       Return (p.1 +:+ " " +:+ _dtypes2pg dtype)) names);
  let cols := join ", " defs in
  let cols' :=
    match geom_type with
    | Some t =>
        if negb (String.eqb t EmptyString)
        then cols +:+ ", the_geom geometry(" +:+ t +:+ ", 4326)"
        else cols
    | None => cols
    end in
  mret ("CREATE TABLE " +:+ table_name self +:+ " (" +:+ cols' +:+ ")").

(** [job[key]] *)
Definition job_getitem (job : gmap string value) (key : string) : result value :=
  match job !! key with
  | Some v => Return v
  | None => Raise (KeyError key)
  end.

Definition _create_table (self : Dataset W)
    (with_lonlat : option (string * string)) : M W unit :=
  create ← _create_table_query self with_lonlat;
  let sql := "BEGIN; " +:+ _drop_table_query self true +:+ "; " +:+ create
             +:+ "; " +:+ _cartodbfy_query self +:+ "; COMMIT;" in
  job ← call (BatchSql sql)
          (batch_sql_client_create_and_wait_for_completion (cc self) sql);
  status ← lift (job_getitem job "status");
  if bool_decide (status ≠ VStr "done") then
    reason ← lift (job_getitem job "failed_reason");
    raise (CartoException ("Cannot create table: " +:+ py_format reason +:+ "."))
  else mret ().

(** [Dataset.exists] ([exists] is a keyword here): any [CartoException] of the
    probe reads as absence. *)
Definition exists_ (self : Dataset W) : M W bool :=
  let query := "EXPLAIN SELECT * FROM " +:+ dquote +:+ table_name self +:+ dquote in
  try_catch
    (call (SqlSend query false) (sql_client_send (cc self) query false);;
     mret true)
    isinstance_CartoException
    (λ err, emit (DebugPrint err);; mret false).

Definition _copyfrom (self : Dataset W)
    (with_lonlat : option (string * string)) : M W unit :=
  d ← lift (self_df self);
  let geom_col := _get_geom_col_name d in
  names ← lift (self_normalized_column_names self);
  let columns_ := join "," (map fst names) in
  let sql := "COPY " +:+ table_name self +:+ "(" +:+ columns_ +:+ ",the_geom)" +:+ nl
             +:+ "               FROM stdin WITH (FORMAT csv, DELIMITER '|');" in
  copyfrom (cc self) sql
    (_rows d (filter (λ c, c ≠ "cartodb_id") (columns d)) with_lonlat geom_col).

Definition already_exists_message (table : string) : string :=
  "Table with name " +:+ table +:+ " already exists in CARTO."
  +:+ " Please choose a different `table_name` or use"
  +:+ " if_exists=" +:+ dquote +:+ "replace" +:+ dquote +:+ " to overwrite it".

Definition upload (self : Dataset W) (with_lonlat : option (string * string))
    (if_exists : string) : M W (Dataset W) :=
  match df self with
  | None =>
      raise (ValueError
        "You have to create a `Dataset` with a pandas DataFrame in order to upload it to CARTO")
  | Some _ =>
      present ← exists_ self;
      (if negb present then _create_table self with_lonlat
       else if String.eqb if_exists FAIL then
         raise (NameError (already_exists_message (table_name self)))
       else if String.eqb if_exists REPLACE then _create_table self with_lonlat
       else mret ());;
      _copyfrom self with_lonlat;;
      mret self
  end.

Definition delete (self : Dataset W) : M W bool :=
  present ← exists_ self;
  if (present : bool) then
    let query := _drop_table_query self false in
    call (SqlSend query true) (sql_client_send (cc self) query true);;
    mret true
  else mret false.

Definition get_columns (context : CartoContext W) (query : string)
    : M W (list Column) :=
  let col_query := "SELECT * FROM (" +:+ query +:+ ") _q LIMIT 0" in
  table_info ← call (SqlSend col_query true) (sql_client_send context col_query true);
  mret (from_sql_api_fields (fields table_info)).

Definition catalog_query (self : Dataset W) : string :=
  nl +:+ "            SELECT column_name, data_type" +:+ nl
  +:+ "            FROM information_schema.columns" +:+ nl
  +:+ "            WHERE table_name = '" +:+ table_name self
  +:+ "' AND table_schema = '" +:+ schema self +:+ "'" +:+ nl
  +:+ "        ".

Definition zero_row_query (self : Dataset W) : string :=
  nl +:+ "                    SELECT *" +:+ nl
  +:+ "                    FROM " +:+ dquote +:+ schema self +:+ dquote +:+ "."
  +:+ dquote +:+ table_name self +:+ dquote +:+ " LIMIT 0" +:+ nl
  +:+ "                ".

(** [Column(c['column_name'], pgtype=c['data_type'])] *)
Definition column_of_row (c : gmap string string) : result Column :=
  match c !! "column_name", c !! "data_type" with
  | Some n, Some t => Return {| name := n; pgtype := t |}
  | None, _ => Raise (KeyError "column_name")
  | _, None => Raise (KeyError "data_type")
  end.

(** [Dataset.get_table_columns]: [None] is Python's implicit return value when
    the handler's [if] does not fire. *)
Definition get_table_columns (self : Dataset W) : M W (option (list Column)) :=
  let query := catalog_query self in
  try_catch
    (table_info ← call (SqlSend query true) (sql_client_send (cc self) query true);
     cols ← lift (mapM column_of_row (rows table_info));
     mret (Some cols))
    isinstance_CartoException
    (λ e, if String.eqb (str_exn e) "Access denied"
          then cols ← get_columns (cc self) (zero_row_query self); mret (Some cols)
          else mret None).

Definition _get_read_query (self : Dataset W) (table_columns : option (list Column))
    (limit : value) : result string :=
  cols ← match table_columns with
         | Some l => Return l
         | None => Raise (TypeError "'NoneType' object is not iterable")
         end;
  let query_columns :=
    map name (filter (λ column, name column ≠ "the_geom_webmercator") cols) in
  let query := "SELECT " +:+ join ", " query_columns +:+ " FROM "
               +:+ dquote +:+ schema self +:+ dquote +:+ "."
               +:+ dquote +:+ table_name self +:+ dquote in
  if negb (is_None limit) then
    if isinstance_int limit && (0 <=? int_value limit)
    then Return (query +:+ " LIMIT " +:+ py_format limit)
    else Raise (ValueError "`limit` parameter must an integer >= 0")
  else Return query.

(** [Dataset.download]; its [retry_times] parameter is not used by the body. *)
Definition download (self : Dataset W) (limit : value) (decode_geom : bool)
    : M W DataFrame :=
  table_columns ← get_table_columns self;
  query ← lift (_get_read_query self table_columns limit);
  MkM (λ s, let '(r, w) := fetch (cc self) query decode_geom (world s) in
            (r, {| world := w; trace := trace s ++ [Fetch query decode_geom] |})).

End Datasets.

(** ** The read retry wrapper *)

Definition isinstance_CartoRateLimitException (e : exn) : bool :=
  match e with
  | CartoRateLimitException _ _ => true
  | _ => false
  end.

(** [err.retry_after] *)
Definition retry_after_of (e : exn) : N :=
  match e with
  | CartoRateLimitException _ retry_after => retry_after
  | _ => 0%N
  end.

Equations? recursive_read {W} (context : CartoContext W) (query : string)
    (retry_times : Z) : M W (list Byte.byte) by wf (Z.to_nat retry_times) lt :=
  recursive_read context query retry_times :=
    try_catch
      (call (CopyToStream query) (copy_client_copyto_stream context query))
      isinstance_CartoRateLimitException
      (λ err,
         match Z_lt_dec 0 retry_times with
         | left _ =>
             let retry_times' := retry_times - 1 in
             warn ("Read call rate limited. Waiting "
                   +:+ str_of_N (retry_after_of err) +:+ " seconds");;
             time_sleep (retry_after_of err);;
             warn "Retrying...";;
             recursive_read context query retry_times'
         | right _ =>
             warn ("Read call was rate-limited. "
                   +:+ "This usually happens when there are multiple queries being read at the same time.");;
             raise err
         end).
Proof. lia. Qed.

(** ** Construction and the remaining methods *)

(** The index of a dataframe: its name when it has one, its dtype and its
    labels, one per row. *)
Record Index := {
  index_name : option string;
  index_dtype : string;
  index_labels : list value
}.

(** A dataframe with its index, as [_save_index_as_column] reads it. *)
Record IndexedFrame := {
  frame : DataFrame;
  index : Index
}.

(** [df.reset_index(inplace=True)] on an index named [label]: the index becomes
    the first column, under its name, and a fresh range index replaces it.
    pandas refuses when a column of that name exists. *)
Definition reset_index (label : string) (f : IndexedFrame) : result IndexedFrame :=
  if bool_decide (label ∈ columns (frame f))
  then Raise (ValueError ("cannot insert " +:+ label +:+ ", already exists"))
  else Return
    {| frame :=
         {| columns := label :: columns (frame f);
            dtypes := <[label := index_dtype (index f)]> (dtypes (frame f));
            _geometry_column_name := _geometry_column_name (frame f);
            iterrows := zip_with (λ l row, <[label := l]> row)
                          (index_labels (index f)) (iterrows (frame f)) |};
       index :=
         {| index_name := None;
            index_dtype := "int64";
            index_labels := (λ i, VInt (Z.of_nat i))
                            <$> seq 0 (length (iterrows (frame f))) |} |}.

(** [df.set_index(key, drop=False, inplace=True)]: the column [key] becomes the
    index, and stays a column. *)
Definition set_index (key : string) (f : IndexedFrame) : result IndexedFrame :=
  labels ← df_getitem (frame f) key;
  dtype ← dtypes_getitem (frame f) key;
  Return {| frame := frame f;
            index := {| index_name := Some key; index_dtype := dtype;
                        index_labels := labels |} |}.

(** [_save_index_as_column(df)]: the frame after the call. *)
Definition _save_index_as_column (f : IndexedFrame) : result IndexedFrame :=
  match index_name (index f) with
  | Some name_ =>
      if bool_decide (name_ ∉ columns (frame f)) then
        f' ← reset_index name_ f;
        set_index name_ f'
      else Return f
  | None => Return f
  end.

Definition esc : string := String "027"%char EmptyString.

(** One line of the renaming report: the two names in bold. *)
Definition changed_col (p : string * string) : string :=
  esc +:+ "[1m" +:+ p.2 +:+ esc +:+ "[0m -> " +:+ esc +:+ "[1m" +:+ p.1 +:+ esc +:+ "[0m".

Section Construction.
(** [normalize_name], [normalize_names] and [Column.RESERVED_COLUMN_NAMES] come
    from cartoframes/columns.py, which is not among the sources. *)
Variable normalize_name : string → string.
Variable normalize_names : list string → list string.
Variable RESERVED_COLUMN_NAMES : list string.
Context {W : Type}.

(** [_normalize_column_names(df)]: the (normalized, original) pairs, and the
    text [tqdm.write] prints, if it prints. *)
Definition _normalize_column_names (df : DataFrame)
    : list (string * string) * option string :=
  let column_names := filter (λ c, c ∉ RESERVED_COLUMN_NAMES) (columns df) in
  let normalized_columns := normalize_names column_names in
  let column_tuples :=
    zip_with (λ orig norm, (norm, orig)) column_names normalized_columns in
  let changed_cols :=
    join nl (changed_col <$> filter (λ p : string * string, p.1 ≠ p.2) column_tuples) in
  (column_tuples,
   if negb (String.eqb changed_cols EmptyString)
   then Some ("The following columns were changed in the CARTO "
              +:+ "copy of this dataframe:" +:+ nl +:+ changed_cols)
   else None).

(** [Dataset.__init__]: the object built, and the text written by [tqdm.write],
    if any.  The frame the Dataset keeps is the one [_save_index_as_column]
    has updated. *)
Definition __init__ (carto_context : CartoContext W) (table_name_ schema_ : string)
    (df_ : option IndexedFrame) : M W (Dataset W * option string) :=
  let self_table_name := normalize_name table_name_ in
  prepared ← match df_ with
              | Some f =>
                  f' ← lift (_save_index_as_column f);
                  mret (Some (frame f'),
                        Some (_normalize_column_names (frame f')).1,
                        (_normalize_column_names (frame f')).2)
              | None => mret (None, None, None)
              end;
  (if bool_decide (self_table_name ≠ table_name_)
   then warn ("Table will be named `" +:+ table_name_ +:+ "`")
   else mret ());;
  mret ({| cc := carto_context; table_name := self_table_name; schema := schema_;
           df := prepared.1.1; normalized_column_names := prepared.1.2 |},
        prepared.2).

(** [Dataset.create_from_query]: the job's status is not looked at here. *)
Definition create_from_query (cart_context : CartoContext W) (query table_name_ : string)
    : M W (Dataset W) :=
  built ← __init__ cart_context table_name_ "public" None;
  let dataset := built.1 in
  let sql := "BEGIN; " +:+ _drop_table_query dataset true +:+ "; "
             +:+ _create_table_from_query dataset query
             +:+ "; " +:+ _cartodbfy_query dataset +:+ "; COMMIT;" in
  call (BatchSql sql)
    (batch_sql_client_create_and_wait_for_completion cart_context sql);;
  mret dataset.

End Construction.

(** [Dataset.get_table_column_names(exclude)], with [exclude] a list or [None].
    With a non-empty list the names go through a set difference: the order
    Python gives the result is not specified, and [elements] stands for it. *)
Definition get_table_column_names {W} (self : Dataset W) (exclude : option (list string))
    : M W (list string) :=
  table_columns ← get_table_columns self;
  columns_ ← lift (match table_columns : option (list Column) with
                   | Some l => Return (name <$> l)
                   | None => Raise (TypeError "'NoneType' object is not iterable")
                   end);
  match exclude return M W (list string) with
  | Some (x :: l) =>
      mret (elements ((list_to_set columns_ : gset string) ∖ list_to_set (x :: l)))
  | _ => mret columns_
  end.

(** ** Vocabulary of the statements: traces *)

(** The probe [Dataset.exists] sends. *)
Definition probe_query {W} (self : Dataset W) : string :=
  "EXPLAIN SELECT * FROM " +:+ dquote +:+ table_name self +:+ dquote.

(** The state after one client call answered with the service state [w]. *)
Definition after_call {W} (s : State W) (ev : event) (w : W) : State W :=
  {| world := w; trace := trace s ++ [ev] |}.

Definition rate_limited_warning (retry_after : N) : string :=
  "Read call rate limited. Waiting " +:+ str_of_N retry_after +:+ " seconds".

Definition exhausted_warning : string :=
  "Read call was rate-limited. "
  +:+ "This usually happens when there are multiple queries being read at the same time.".

Definition is_Sleep (ev : event) : bool :=
  match ev with Sleep _ => true | _ => false end.

Definition is_BatchSql (ev : event) : bool :=
  match ev with BatchSql _ => true | _ => false end.

Definition is_CopyFrom (ev : event) : bool :=
  match ev with CopyFrom _ _ => true | _ => false end.

Definition is_Fetch (ev : event) : bool :=
  match ev with Fetch _ _ => true | _ => false end.

Definition is_SqlSend (ev : event) : bool :=
  match ev with SqlSend _ _ => true | _ => false end.

(** How many events of a kind a trace holds. *)
Definition count_events (kind : event → bool) (t : list event) : nat :=
  length (filter (λ ev, kind ev = true) t).
Arguments count_events : simpl never.

(** ** Vocabulary of the statements: queries, decoding order, rows, examples *)

(** [<normalized name> <db type>], one per normalized column, in order. *)
Definition column_definitions (d : DataFrame) (names : list (string * string))
    : list string :=
  map (λ p, p.1 +:+ " " +:+ _dtypes2pg (default EmptyString (dtypes d !! p.2))) names.

(** The column list with the geometry column appended when a geometry type
    (a non-empty type tag) is determined. *)
Definition with_geometry_column (cols : string) (geom_type : option string) : string :=
  match geom_type with
  | Some t =>
      if negb (String.eqb t EmptyString)
      then cols +:+ ", the_geom geometry(" +:+ t +:+ ", 4326)"
      else cols
  | None => cols
  end.

Definition create_table_sql {W} (self : Dataset W) (create : string) : string :=
  "BEGIN; " +:+ _drop_table_query self true +:+ "; " +:+ create
  +:+ "; " +:+ _cartodbfy_query self +:+ "; COMMIT;".

(** The read query without a limit. *)
Definition select_query {W} (self : Dataset W) (cols : list Column) : string :=
  "SELECT "
  +:+ join ", " (map name (filter (λ column, name column ≠ "the_geom_webmercator") cols))
  +:+ " FROM " +:+ dquote +:+ schema self +:+ dquote +:+ "."
  +:+ dquote +:+ table_name self +:+ dquote.

Definition limit_error : exn := ValueError "`limit` parameter must an integer >= 0".

(** What each library call of the decoder computes. *)
Definition run_attempt (lib : Shapely) (a : attempt) (ewkb : value) : result geometry :=
  match a with
  | WkbOfUnhex => b ← unhexlify ewkb; wkb_loads lib b false
  | WkbHexOfUnhex => b ← unhexlify ewkb; wkb_loads lib b true
  | WkbHex => wkb_loads lib ewkb true
  | WkbRaw => wkb_loads lib ewkb false
  | WktText => wkt_loads lib ewkb
  end.

(** The order the source nests its [try] blocks in. *)
Definition decode_order : list attempt :=
  [WkbOfUnhex; WkbHexOfUnhex; WkbHex; WkbRaw; WktText].

(** Trying [order] from the left and stopping at the first call that returns:
    the calls made, and the geometry, or [None] when every call raised. *)
Fixpoint first_success (lib : Shapely) (ewkb : value) (order : list attempt) : decoded :=
  match order with
  | [] => ([], Return VNone)
  | a :: rest =>
      match run_attempt lib a ewkb with
      | Return g => ([a], Return (VGeom g))
      | Raise _ => (a :: (first_success lib ewkb rest).1, (first_success lib ewkb rest).2)
      end
  end.

(** The three interpretations the specification names. *)
Inductive interpretation :=
| RawBinaryWkb
| HexStringWkb
| WellKnownText.

#[global] Instance interpretation_eq_dec : EqDecision interpretation.
Proof. solve_decision. Defined.

(** The order as the specification words it: raw binary WKB first, then
    hex-string WKB in two variants, then WKT. *)
Definition specified_order : list interpretation :=
  [RawBinaryWkb; HexStringWkb; HexStringWkb; WellKnownText].

(** A call classified by the loader it runs: [wkb.loads] without [hex] reads
    raw binary, with [hex=True] a hex string. *)
Definition loader_mode (a : attempt) : interpretation :=
  match a with
  | WkbOfUnhex | WkbRaw => RawBinaryWkb
  | WkbHexOfUnhex | WkbHex => HexStringWkb
  | WktText => WellKnownText
  end.

(** A call classified by what it takes the input itself to be: anything passed
    through [unhexlify] or loaded with [hex=True] is read as a hex string. *)
Definition input_reading (a : attempt) : interpretation :=
  match a with
  | WkbOfUnhex | WkbHexOfUnhex | WkbHex => HexStringWkb
  | WkbRaw => RawBinaryWkb
  | WktText => WellKnownText
  end.

(** The calls made follow the specified order, stopping somewhere in it. *)
Definition follows_specified_order (classify : attempt → interpretation)
    (calls : list attempt) : Prop :=
  (classify <$> calls) `prefix_of` specified_order.

(** A point at (1, 2), with the WKT shapely writes for it (a space follows the
    type name), and a shapely that reads it, and nothing else, in each of the
    formats. *)
Definition point_1_2 : geometry :=
  {| geom_type := "Point"; wkt := "POINT (1 2)"; is_empty := false |}.

Definition point_1_2_hex : string := "0101000000000000000000F03F0000000000000040".

Definition point_1_2_wkb : string :=
  match unhex_pairs point_1_2_hex with
  | Return b => b
  | Raise _ => EmptyString
  end.

Definition tiny_shapely : Shapely := {|
  wkb_loads := λ data hex,
    if hex then
      if bool_decide (data = VStr point_1_2_hex ∨ data = VBytes point_1_2_hex)
      then Return point_1_2
      else Raise (GeometryReadError "Could not create geometry because of errors while reading input.")
    else
      if bool_decide (data = VBytes point_1_2_wkb)
      then Return point_1_2
      else Raise (GeometryReadError "Could not create geometry because of errors while reading input.");
  wkt_loads := λ data,
    if bool_decide (data = VStr "POINT (1 2)")
    then Return point_1_2
    else Raise (GeometryReadError "Could not create geometry because of errors while reading input.")
|}.

(** The cell of [row] under [col]. *)
Definition cell (row : gmap string value) (col : string) : value :=
  default VNone (row !! col).

(** The text of one field: empty for a null or missing value. *)
Definition field_text (v : value) : string :=
  if pd_isnull v then EmptyString else py_format v.

(** The non-geometry columns of [cols], in order, each followed by a pipe. *)
Fixpoint pipe_fields (row : gmap string value) (geom_col : option string)
    (cols : list string) : string :=
  match cols with
  | [] => EmptyString
  | col :: rest =>
      (if bool_decide (Some col = geom_col) then EmptyString
       else field_text (cell row col) +:+ "|")
      +:+ pipe_fields row geom_col rest
  end.

(** The columns the loop looks at: in lon/lat mode the supported geometry
    names are skipped. *)
Definition kept (supported : list string) (with_lonlat : option (string * string))
    (cols : list string) : list string :=
  match with_lonlat with
  | Some _ => filter (λ c, c ∉ supported) cols
  | None => cols
  end.

(** The cell under [target] when [target] is among [cols], else [prev]. *)
Definition picked (prev : value) (row : gmap string value) (target : option string)
    (cols : list string) : value :=
  match target with
  | Some t => if bool_decide (t ∈ cols) then cell row t else prev
  | None => prev
  end.

(** The trailing geometry field for a decoded value. *)
Definition ewkt_field (g : geometry) : string := "SRID=4326;" +:+ wkt g.

(** The trailing field lon/lat mode synthesizes. *)
Definition lonlat_field (lng lat : value) : string :=
  "SRID=4326;POINT(" +:+ py_format lng +:+ " " +:+ py_format lat +:+ ")".

(** The example row of the specification, around a geometry object [g]. *)
Definition example_row (g : geometry) : gmap string value :=
  {[ "id" := VInt 1; "name" := VStr "A"; "the_geom" := VGeom g ]}.

(** A row of a frame that has a longitude and a latitude column only. *)
Definition example_lonlat_row : gmap string value :=
  {[ "lon" := VInt 3; "lat" := VInt 4 ]}.

(** A value for [Column.SUPPORTED_GEOM_COL_NAMES], for the examples. *)
Definition standard_geom_col_names : list string := ["geom"; "the_geom"; "geometry"].

(** An empty point: a geometry object whose truth value is false. *)
Definition empty_point : geometry :=
  {| geom_type := "Point"; wkt := "POINT EMPTY"; is_empty := true |}.

Definition is_NameError (e : exn) : bool :=
  match e with NameError _ => true | _ => false end.

(** A result, or a computation, that raises no [NameError]. *)
Definition raises_no_NameError {A} (r : result A) : Prop :=
  ∀ e, r = Raise e → is_NameError e = false.

Definition never_NameError {W A} (m : M W A) : Prop :=
  ∀ s e s', run m s = (Raise e, s') → is_NameError e = false.

Definition conflict_error {W} (self : Dataset W) : exn :=
  NameError (already_exists_message (table_name self)).

(** A dataframe with one row, the example row around [point_1_2]. *)
Definition example_df : DataFrame := {|
  columns := ["id"; "name"; "the_geom"];
  dtypes := {[ "id" := "int64"; "name" := "object"; "the_geom" := "object" ]};
  _geometry_column_name := None;
  iterrows := [example_row point_1_2]
|}.

Definition example_catalog : sql_result := {|
  fields := [("column_name", "string"); ("data_type", "string")];
  rows := [ {[ "column_name" := "cartodb_id"; "data_type" := "integer" ]};
            {[ "column_name" := "the_geom"; "data_type" := "USER-DEFINED" ]};
            {[ "column_name" := "the_geom_webmercator"; "data_type" := "USER-DEFINED" ]};
            {[ "column_name" := "name"; "data_type" := "text" ]} ]
|}.

(** A service whose state counts the calls it has served.  The table is
    [present] or not, the catalog answers [catalog], every batch job ends with
    [status] and the reason "boom", and the bulk read is rate limited, with
    [retry_after = 2], until two calls have been served. *)
Definition example_cc (present : bool) (catalog : reply sql_result) (status : string)
    : CartoContext nat := {|
  sql_client_send := λ query do_post w,
    (if String.prefix "EXPLAIN" query then
       if present then Ok {| fields := []; rows := [] |}
       else Failed (CartoError "relation does not exist")
     else catalog, S w);
  batch_sql_client_create_and_wait_for_completion := λ sql w,
    (Ok {[ "status" := VStr status; "failed_reason" := VStr "boom" ]}, S w);
  copy_client_copyfrom := λ sql lines w, (Ok (), S w);
  copy_client_copyto_stream := λ query w,
    (if (w <? 2)%nat then Failed (CartoRateLimit "You are over platform's limits" 2)
     else Ok (encode "cartodb_id,name"), S w);
  fetch := λ query decode_geom w, (Return example_df, S w);
  creds_username := "analyst";
  is_org := false
|}.

Definition example_dataset (context : CartoContext nat) : Dataset nat := {|
  cc := context;
  table_name := "places";
  schema := "public";
  df := Some example_df;
  normalized_column_names := Some [("id", "id"); ("name", "name")]
|}.

Definition start : State nat := {| world := 0%nat; trace := [] |}.

Definition example_columns : list Column :=
  [ {| name := "cartodb_id"; pgtype := "integer" |};
    {| name := "the_geom"; pgtype := "USER-DEFINED" |};
    {| name := "the_geom_webmercator"; pgtype := "USER-DEFINED" |};
    {| name := "name"; pgtype := "text" |} ].

(** ** Vocabulary of the further properties *)

Definition is_CopyToStream (ev : event) : bool :=
  match ev with CopyToStream _ => true | _ => false end.

(** The zero-row probe as [get_columns] wraps it. *)
Definition zero_row_probe {W} (self : Dataset W) : string :=
  "SELECT * FROM (" +:+ zero_row_query self +:+ ") _q LIMIT 0".

Definition not_iterable : exn := TypeError "'NoneType' object is not iterable".

(** A frame whose every column has a dtype, as every pandas frame has. *)
Definition well_typed (d : DataFrame) : Prop :=
  ∀ c, c ∈ columns d → is_Some (dtypes d !! c).

(** A service whose bulk read is rate limited on every call. *)
Definition always_limited_cc : CartoContext nat := {|
  sql_client_send := λ query do_post w, (Ok {| fields := []; rows := [] |}, S w);
  batch_sql_client_create_and_wait_for_completion := λ sql w,
    (Ok {[ "status" := VStr "done" ]}, S w);
  copy_client_copyfrom := λ sql lines w, (Ok (), S w);
  copy_client_copyto_stream := λ query w,
    (Failed (CartoRateLimit "You are over platform's limits" 2), S w);
  fetch := λ query decode_geom w, (Return example_df, S w);
  creds_username := "analyst";
  is_org := false
|}.

(** A service reached with the default public key: the catalog is denied,
    every other query answers with the field metadata of the table. *)
Definition public_key_cc : CartoContext nat := {|
  sql_client_send := λ query do_post w,
    (if substring_of "information_schema" query
     then Failed (CartoError "Access denied")
     else Ok {| fields := [("cartodb_id", "number"); ("name", "string")]; rows := [] |},
     S w);
  batch_sql_client_create_and_wait_for_completion := λ sql w,
    (Ok {[ "status" := VStr "done" ]}, S w);
  copy_client_copyfrom := λ sql lines w, (Ok (), S w);
  copy_client_copyto_stream := λ query w, (Ok (encode "cartodb_id,name"), S w);
  fetch := λ query decode_geom w, (Return example_df, S w);
  creds_username := "analyst";
  is_org := false
|}.

(** A value for [Column.RESERVED_COLUMN_NAMES], for the examples. *)
Definition example_reserved : list string :=
  ["cartodb_id"; "the_geom"; "the_geom_webmercator"].

(** A frame as a download returns it, with both geometry columns. *)
Definition example_wide_df : DataFrame := {|
  columns := ["name"; "the_geom"; "the_geom_webmercator"];
  dtypes := {[ "name" := "object"; "the_geom" := "object";
               "the_geom_webmercator" := "object" ]};
  _geometry_column_name := None;
  iterrows := [ {[ "name" := VStr "A"; "the_geom" := VGeom point_1_2;
                   "the_geom_webmercator" := VStr "0101" ]} ]
|}.

(** The Dataset the constructor builds around [example_wide_df]. *)
Definition example_wide_dataset (context : CartoContext nat) : Dataset nat := {|
  cc := context;
  table_name := "places";
  schema := "public";
  df := Some example_wide_df;
  normalized_column_names := Some [("name", "name")]
|}.

(** [example_df] under an unnamed range index. *)
Definition example_indexed : IndexedFrame := {|
  frame := example_df;
  index := {| index_name := None; index_dtype := "int64"; index_labels := [VInt 0] |}
|}.

(** The COPY statement of [_copyfrom] for the normalized column names [cols]:
    it lists [cols], then [the_geom]. *)
Definition copy_statement (table : string) (cols : list string) : string :=
  "COPY " +:+ table +:+ "(" +:+ join "," cols +:+ ",the_geom)" +:+ nl
  +:+ "               FROM stdin WITH (FORMAT csv, DELIMITER '|');".

(** What [_rows] can write after the pipe fields: nothing, the EWKT of the
    geometry column's value, the lon/lat point, or the one after the other. *)
Definition geometry_text (tail : string) : Prop :=
  ∃ a b, tail = a +:+ b
         ∧ (a = EmptyString ∨ ∃ g, a = ewkt_field g)
         ∧ (b = EmptyString ∨ ∃ lng lat, b = lonlat_field lng lat).

(** A line that carries one pipe-terminated field for each column of [cols],
    in order, then a geometry text, then the newline. *)
Definition fields_line (row : gmap string value) (cols : list string)
    (line : list Byte.byte) : Prop :=
  ∃ tail, geometry_text tail
          ∧ line = encode (pipe_fields row None cols +:+ tail +:+ nl).

(** The columns [_rows] writes as pipe fields, of the columns [_copyfrom]
    hands it: those it looks at, the geometry column apart. *)
Definition written_columns (supported : list string)
    (with_lonlat : option (string * string)) (geom_col : option string)
    (d : DataFrame) : list string :=
  filter (λ c, Some c ≠ geom_col)
    (kept supported with_lonlat (filter (λ c, c ≠ "cartodb_id") (columns d))).

(** Every row has a cell for every column of the frame. *)
Definition rectangular (d : DataFrame) : Prop :=
  Forall (λ row : gmap string value, Forall (λ c, is_Some (row !! c)) (columns d))
    (iterrows d).

(** ** Basic facts about the monad *)

Lemma isinstance_CartoException_of_carto e :
  isinstance_CartoException (exn_of_carto e) = true.
Proof. by destruct e. Qed.

Lemma run_bind {W A B} (m : M W A) (f : A → M W B) (s : State W) :
  run (m ≫= f) s
  = match run m s with
    | (Return a, s') => run (f a) s'
    | (Raise e, s') => (Raise e, s')
    end.
Proof. reflexivity. Qed.

Lemma run_ret_bind {W A B} (a : A) (f : A → M W B) (s : State W) :
  run (mret a ≫= f) s = run (f a) s.
Proof. reflexivity. Qed.

Lemma log_log {W} (s : State W) evs evs' :
  log (log s evs) evs' = log s (evs ++ evs').
Proof. unfold log; simpl. by rewrite <- app_assoc. Qed.

Lemma log_after_call {W} (s : State W) ev w evs :
  log (after_call s ev w) evs
  = {| world := w; trace := trace s ++ ev :: evs |}.
Proof. unfold log, after_call; simpl. by rewrite <- app_assoc. Qed.

Lemma count_events_app kind t t' :
  count_events kind (t ++ t') = (count_events kind t + count_events kind t')%nat.
Proof. unfold count_events. by rewrite filter_app, length_app. Qed.

Lemma count_events_cons kind ev t :
  count_events kind (ev :: t)
  = ((if kind ev then 1 else 0) + count_events kind t)%nat.
Proof.
  unfold count_events. rewrite filter_cons.
  destruct (kind ev); [rewrite decide_True by done|rewrite decide_False by done];
    reflexivity.
Qed.

Lemma count_events_nil kind : count_events kind [] = 0%nat.
Proof. reflexivity. Qed.

Lemma count_events_none kind t :
  Forall (λ ev, kind ev = false) t → count_events kind t = 0%nat.
Proof.
  induction 1 as [|ev t Hev _ IH]; [reflexivity|].
  by rewrite count_events_cons, Hev, IH.
Qed.

Ltac tally :=
  unfold log, after_call; cbn [trace world];
  rewrite ?count_events_app, ?count_events_cons, ?count_events_nil; cbn;
  try lia.

(** ** Existence probe *)

Lemma exists_cases {W} (self : Dataset W) (s : State W) :
  match sql_client_send (cc self) (probe_query self) false (world s) with
  | (Ok _, w) =>
      run (exists_ self) s
      = (Return true, after_call s (SqlSend (probe_query self) false) w)
  | (Failed e, w) =>
      run (exists_ self) s
      = (Return false,
         log (after_call s (SqlSend (probe_query self) false) w)
             [DebugPrint (exn_of_carto e)])
  end.
Proof.
  unfold exists_, probe_query. cbn.
  destruct (sql_client_send _ _ _ _) as [[r|e] w]; cbn.
  - reflexivity.
  - by rewrite isinstance_CartoException_of_carto.
Qed.

(** C4. [exists()] sends [EXPLAIN SELECT * FROM "<table>"] once through
    [sql_client.send] with [do_post=False]; it returns true when the probe
    succeeds, and when the probe raises any error of the service, whatever its
    kind or message, it debug-prints the error and returns false without
    raising. *)
Theorem exists_probe_outcomes {W} (self : Dataset W) (s : State W) :
  match sql_client_send (cc self) (probe_query self) false (world s) with
  | (Ok _, w) =>
      run (exists_ self) s
      = (Return true, after_call s (SqlSend (probe_query self) false) w)
  | (Failed e, w) =>
      run (exists_ self) s
      = (Return false,
         log (after_call s (SqlSend (probe_query self) false) w)
             [DebugPrint (exn_of_carto e)])
  end.
Proof. apply exists_cases. Qed.

(** ** Column introspection *)

(** C10. When the catalog query raises a service error whose message is not
    exactly 'Access denied', [get_table_columns] swallows it and returns
    [None]: no column list, no error, and no further query.  When the message
    is exactly 'Access denied' it continues as the zero-row probe
    [get_columns] does. *)
Theorem get_table_columns_swallows_other_errors {W} (self : Dataset W)
    (s : State W) (e : carto_error) (w : W) :
  sql_client_send (cc self) (catalog_query self) true (world s) = (Failed e, w) →
  let s1 := after_call s (SqlSend (catalog_query self) true) w in
  (str_exn (exn_of_carto e) ≠ "Access denied" →
     run (get_table_columns self) s = (Return None, s1))
  ∧ (str_exn (exn_of_carto e) = "Access denied" →
     run (get_table_columns self) s
     = run (cols ← get_columns (cc self) (zero_row_query self); mret (Some cols)) s1).
Proof.
  intros Hsend s1. unfold get_table_columns. cbn. rewrite Hsend. cbn.
  rewrite isinstance_CartoException_of_carto.
  split; intros Hmsg.
  - apply String.eqb_neq in Hmsg. by rewrite Hmsg.
  - apply String.eqb_eq in Hmsg. by rewrite Hmsg.
Qed.

(** ** Read retry *)

Lemma recursive_read_success {W} (context : CartoContext W) query retry_times
    (s : State W) r w :
  copy_client_copyto_stream context query (world s) = (Ok r, w) →
  run (recursive_read context query retry_times) s
  = (Return r, after_call s (CopyToStream query) w).
Proof.
  intros Hcall. rewrite recursive_read_equation_1. cbn. by rewrite Hcall.
Qed.

Lemma recursive_read_retry {W} (context : CartoContext W) query retry_times
    (s : State W) msg retry_after w :
  copy_client_copyto_stream context query (world s)
  = (Failed (CartoRateLimit msg retry_after), w) →
  0 < retry_times →
  run (recursive_read context query retry_times) s
  = run (recursive_read context query (retry_times - 1))
      (log (after_call s (CopyToStream query) w)
         [Warn (rate_limited_warning retry_after); Sleep retry_after;
          Warn "Retrying..."]).
Proof.
  intros Hcall Hpos. rewrite recursive_read_equation_1. cbn. rewrite Hcall. cbn.
  destruct (Z_lt_dec 0 retry_times) as [_|Hn]; [|lia]. cbn.
  by rewrite !log_log.
Qed.

Lemma recursive_read_exhausted {W} (context : CartoContext W) query retry_times
    (s : State W) msg retry_after w :
  copy_client_copyto_stream context query (world s)
  = (Failed (CartoRateLimit msg retry_after), w) →
  retry_times ≤ 0 →
  run (recursive_read context query retry_times) s
  = (Raise (CartoRateLimitException msg retry_after),
     log (after_call s (CopyToStream query) w) [Warn exhausted_warning]).
Proof.
  intros Hcall Hle. rewrite recursive_read_equation_1. cbn. rewrite Hcall. cbn.
  destruct (Z_lt_dec 0 retry_times) as [Hp|_]; [lia|]. reflexivity.
Qed.

(** C3. [recursive_read] returns the transport's result when the bulk read
    succeeds.  On a rate-limit error with attempts remaining it warns, sleeps
    exactly [retry_after], warns again and retries with one attempt less.  With
    no attempt remaining it warns and re-raises the same rate-limit error, and
    sleeps not at all.  Hence, when the transport raises a rate-limit error
    with [retry_after = 2] twice and then succeeds, a read with
    [retry_times = 3] sleeps twice, 2 each time, and returns that success. *)
Theorem recursive_read_retries_on_rate_limit {W} (context : CartoContext W)
    (query : string) (retry_times : Z) (s : State W) :
  let transport := copy_client_copyto_stream context query in
  let called := after_call s (CopyToStream query) (transport (world s)).2 in
  (∀ r, (transport (world s)).1 = Ok r →
     run (recursive_read context query retry_times) s = (Return r, called))
  ∧ (∀ msg retry_after,
       (transport (world s)).1 = Failed (CartoRateLimit msg retry_after) →
       0 < retry_times →
       run (recursive_read context query retry_times) s
       = run (recursive_read context query (retry_times - 1))
           (log called [Warn (rate_limited_warning retry_after); Sleep retry_after;
                        Warn "Retrying..."]))
  ∧ (∀ msg retry_after,
       (transport (world s)).1 = Failed (CartoRateLimit msg retry_after) →
       retry_times = 0 →
       run (recursive_read context query retry_times) s
       = (Raise (CartoRateLimitException msg retry_after),
          log called [Warn exhausted_warning])
       ∧ count_events is_Sleep (trace (log called [Warn exhausted_warning]))
         = count_events is_Sleep (trace s))
  ∧ (∀ msg1 msg2 w1 w2 w3 r,
       transport (world s) = (Failed (CartoRateLimit msg1 2), w1) →
       transport w1 = (Failed (CartoRateLimit msg2 2), w2) →
       transport w2 = (Ok r, w3) →
       run (recursive_read context query 3) s
       = (Return r,
          {| world := w3;
             trace := trace s ++
               [CopyToStream query;
                Warn (rate_limited_warning 2); Sleep 2; Warn "Retrying...";
                CopyToStream query;
                Warn (rate_limited_warning 2); Sleep 2; Warn "Retrying...";
                CopyToStream query] |})).
Proof.
  intros transport called. subst called transport.
  destruct (copy_client_copyto_stream context query (world s)) as [r0 w0] eqn:Hcall.
  cbn [fst snd]. split; [|split; [|split]].
  - intros r ->. by apply recursive_read_success.
  - intros msg ra -> Hpos. by apply (recursive_read_retry _ _ _ _ msg ra w0).
  - intros msg ra -> ->. split.
    + by apply (recursive_read_exhausted _ _ _ _ msg ra w0).
    + tally.
  - intros msg1 msg2 w1 w2 w3 r [= -> ->] H2 H3.
    rewrite (recursive_read_retry _ _ _ _ msg1 2%N w1 Hcall) by lia.
    rewrite log_after_call.
    erewrite recursive_read_retry; [|exact H2|lia].
    rewrite log_after_call. cbn [trace].
    erewrite recursive_read_success; [|exact H3].
    unfold after_call; cbn [trace world]. by rewrite <- !app_assoc.
Qed.

(** ** Table creation *)

Lemma mapM_Return {A B} (f : A → result B) (g : A → B) (l : list A) :
  Forall (λ x, f x = Return (g x)) l → mapM f l = Return (map g l).
Proof.
  induction 1 as [|x l Hx _ IH]; [reflexivity|].
  cbn. rewrite Hx. cbn. fold (mapM f l). by rewrite IH.
Qed.

Lemma mapM_column_definitions {W} (self : Dataset W) d names
    (f : string * string → result string) :
  df self = Some d →
  Forall (λ p : string * string, is_Some (dtypes d !! p.2)) names →
  (∀ p, f p = (d' ← self_df self;
               dtype ← dtypes_getitem d' p.2;
               Return (p.1 +:+ " " +:+ _dtypes2pg dtype))) →
  mapM f names = Return (column_definitions d names).
Proof.
  intros Hdf Hdt Hf. apply mapM_Return. eapply Forall_impl; [exact Hdt|].
  intros p [dt Hp]. rewrite Hf. unfold self_df, dtypes_getitem. rewrite Hdf. cbn.
  by rewrite Hp.
Qed.

(** Geometry-type detection acts on the outside by warnings only. *)
Lemma _get_geom_col_type_effects {W} shapely supported d (s : State W) r s' :
  run (_get_geom_col_type shapely supported d) s = (r, s') →
  s' = s ∨ s' = log s [Warn "Dataset with null geometries"].
Proof.
  unfold _get_geom_col_type.
  destruct (_get_geom_col_name supported d) as [geom_col|]; cbn.
  - destruct (_first_not_null_value d geom_col) as [v|e]; cbn.
    + destruct ((_decode_geom shapely v).2) as [g|e]; cbn.
      * destruct g; cbn; intros [= _ <-]; by left.
      * destruct e; cbn; intros [= _ <-]; first [by left | by right].
    + destruct e; cbn; intros [= _ <-]; first [by left | by right].
  - intros [= _ <-]. by left.
Qed.

Lemma _create_table_query_effects {W} shapely supported (self : Dataset W)
    with_lonlat (s : State W) r s' :
  run (_create_table_query shapely supported self with_lonlat) s = (r, s') →
  s' = s ∨ s' = log s [Warn "Dataset with null geometries"].
Proof.
  unfold _create_table_query. destruct with_lonlat as [lonlat|]; cbn.
  - destruct (self_normalized_column_names self) as [names|e]; cbn;
      [|intros [= _ <-]; by left].
    destruct (mapM _ names); cbn; intros [= _ <-]; by left.
  - destruct (self_df self) as [d|e]; cbn; [|intros [= _ <-]; by left].
    destruct (run (_get_geom_col_type shapely supported d) s) as [[gt|e] s1] eqn:Hg;
      apply _get_geom_col_type_effects in Hg; cbn.
    + destruct (self_normalized_column_names self) as [names|e]; cbn;
        [|by intros [= _ <-]].
      destruct (mapM _ names); cbn; by intros [= _ <-].
    + by intros [= _ <-].
Qed.

(** C7. For a dataframe-backed Dataset whose normalized columns all have a
    dtype, [_create_table_query] builds
    [CREATE TABLE <table> (<col defs>[, the_geom geometry(<type>, 4326)])]: one
    [<normalized name> <db type>] per normalized column in order, joined by
    [", "], the geometry column appended when a geometry type is determined.
    In lon/lat mode the geometry type is 'Point', whatever the frame holds.
    The dtype table is float64/float32 to numeric, int64/int32 to integer,
    object to text, bool to boolean, the two datetime64[ns] dtypes to
    timestamp, and anything else to text. *)
Theorem create_table_query_shape {W} (shapely : import) (supported : list string)
    (self : Dataset W) (d : DataFrame) (names : list (string * string))
    (s : State W) :
  df self = Some d →
  normalized_column_names self = Some names →
  Forall (λ p : string * string, is_Some (dtypes d !! p.2)) names →
  let cols := join ", " (column_definitions d names) in
  (∀ geom_type s',
     run (_get_geom_col_type shapely supported d) s = (Return geom_type, s') →
     run (_create_table_query shapely supported self None) s
     = (Return ("CREATE TABLE " +:+ table_name self +:+ " ("
                +:+ with_geometry_column cols geom_type +:+ ")"), s'))
  ∧ (∀ lonlat,
       run (_create_table_query shapely supported self (Some lonlat)) s
       = (Return ("CREATE TABLE " +:+ table_name self +:+ " ("
                  +:+ (cols +:+ ", the_geom geometry(Point, 4326)") +:+ ")"), s))
  ∧ (_dtypes2pg "float64" = "numeric" ∧ _dtypes2pg "float32" = "numeric"
     ∧ _dtypes2pg "int64" = "integer" ∧ _dtypes2pg "int32" = "integer"
     ∧ _dtypes2pg "object" = "text" ∧ _dtypes2pg "bool" = "boolean"
     ∧ _dtypes2pg "datetime64[ns]" = "timestamp"
     ∧ _dtypes2pg "datetime64[ns, UTC]" = "timestamp"
     ∧ ∀ dtype,
         dtype ∉ ["float64"; "int64"; "float32"; "int32"; "object"; "bool";
                  "datetime64[ns]"; "datetime64[ns, UTC]"] →
         _dtypes2pg dtype = "text").
Proof.
  intros Hdf Hnames Hdt cols. split; [|split].
  - intros geom_type s' Hg.
    assert (Hsd : self_df self = Return d) by (unfold self_df; by rewrite Hdf).
    unfold _create_table_query, self_normalized_column_names.
    rewrite Hsd, Hnames. cbn -[_get_geom_col_type mapM]. rewrite Hg.
    rewrite (mapM_column_definitions self d names _ Hdf Hdt)
      by (intros; by rewrite Hsd).
    by destruct geom_type.
  - intros lonlat. unfold _create_table_query, self_normalized_column_names.
    rewrite Hnames. cbn -[mapM].
    by rewrite (mapM_column_definitions self d names _ Hdf Hdt).
  - repeat (split; [by vm_compute|]).
    intros dtype Hnot. unfold _dtypes2pg, _dtypes2pg_mapping. cbn.
    rewrite !not_elem_of_cons in Hnot. destruct Hnot as (?&?&?&?&?&?&?&?&_).
    rewrite !lookup_insert_ne by congruence. by rewrite lookup_empty.
Qed.

(** X22. Once [_create_table] has built its statement and the batch service
    has answered with a job: a job whose status is not 'done' makes the
    operation raise [CartoException] carrying the job's [failed_reason], a job
    whose status is 'done' makes it return normally, and either way the batch
    was submitted exactly once (no retry). *)
Theorem create_table_job_status {W} (shapely : import) (supported : list string)
    (self : Dataset W) (with_lonlat : option (string * string))
    (s s1 : State W) (create : string) (job : gmap string value) (w : W) :
  run (_create_table_query shapely supported self with_lonlat) s = (Return create, s1) →
  batch_sql_client_create_and_wait_for_completion (cc self)
    (create_table_sql self create) (world s1) = (Ok job, w) →
  let s2 := after_call s1 (BatchSql (create_table_sql self create)) w in
  (∀ status reason,
     job !! "status" = Some status → status ≠ VStr "done" →
     job !! "failed_reason" = Some reason →
     run (_create_table shapely supported self with_lonlat) s
     = (Raise (CartoException ("Cannot create table: " +:+ py_format reason +:+ ".")),
        s2))
  ∧ (job !! "status" = Some (VStr "done") →
     run (_create_table shapely supported self with_lonlat) s = (Return (), s2))
  ∧ count_events is_BatchSql (trace s2) = S (count_events is_BatchSql (trace s)).
Proof.
  intros Hq Hjob s2. split; [|split].
  - intros status reason Hst Hne Hre. unfold _create_table.
    rewrite run_bind, Hq. cbn. fold (create_table_sql self create).
    rewrite Hjob. cbn. unfold job_getitem. rewrite Hst. cbn.
    rewrite bool_decide_true by done. by rewrite Hre.
  - intros Hst. unfold _create_table.
    rewrite run_bind, Hq. cbn. fold (create_table_sql self create).
    rewrite Hjob. cbn. unfold job_getitem. rewrite Hst. cbn.
    by rewrite bool_decide_false by (intros H; by apply H).
  - subst s2.
    destruct (_create_table_query_effects _ _ _ _ _ _ _ Hq) as [->| ->];
      tally.
Qed.

(** ** Reading *)

(** Column introspection sends queries and does nothing else to the outside;
    it sends at least one. *)
Lemma get_table_columns_effects {W} (self : Dataset W) (s : State W) r s1 :
  run (get_table_columns self) s = (r, s1) →
  ∃ evs, trace s1 = trace s ++ SqlSend (catalog_query self) true :: evs
         ∧ Forall (λ ev, is_SqlSend ev = true) evs.
Proof.
  unfold get_table_columns. cbn.
  destruct (sql_client_send (cc self) (catalog_query self) true (world s))
    as [[info|e] w]; cbn.
  - destruct (mapM column_of_row (rows info)) as [cols|e]; cbn.
    + intros [= _ <-]. by exists [].
    + destruct e; cbn; try (intros [= _ <-]; by exists []).
      all: destruct (String.eqb _ _); cbn; try (intros [= _ <-]; by exists []).
      all: destruct (sql_client_send (cc self) _ true w) as [[info'|e'] w']; cbn;
        intros [= _ <-]; cbn; rewrite <- app_assoc; eexists [_]; split; eauto.
  - rewrite isinstance_CartoException_of_carto.
    destruct (String.eqb _ _); cbn.
    + destruct (sql_client_send (cc self) _ true w) as [[info|e'] w']; cbn;
        intros [= _ <-]; cbn; rewrite <- app_assoc; eexists [_]; split; eauto.
    + intros [= _ <-]. by exists [].
Qed.

(** C9 (as the code has it). In [download], the read query is
    [SELECT <cols> FROM "<schema>"."<table>"]: with [limit=None] nothing is
    appended; with a non-negative [int], [ LIMIT <limit>] is appended; with any
    other limit (negative, or not an [int]) a [ValueError] is raised.  The
    error is raised after column introspection has sent its query and before
    the read query is fetched: the state is the one introspection left, which
    holds one more sent query at least and no more fetches than before. *)
Theorem read_query_limit {W} (self : Dataset W) (cols : list Column) (limit : value) :
  (limit = VNone →
     _get_read_query self (Some cols) limit = Return (select_query self cols))
  ∧ (isinstance_int limit = true → 0 ≤ int_value limit →
     _get_read_query self (Some cols) limit
     = Return (select_query self cols +:+ " LIMIT " +:+ py_format limit))
  ∧ (limit ≠ VNone → isinstance_int limit = false ∨ int_value limit < 0 →
     _get_read_query self (Some cols) limit = Raise limit_error
     ∧ ∀ (s s1 : State W) decode_geom,
         run (get_table_columns self) s = (Return (Some cols), s1) →
         run (download self limit decode_geom) s = (Raise limit_error, s1)
         ∧ count_events is_Fetch (trace s1) = count_events is_Fetch (trace s)
         ∧ (count_events is_SqlSend (trace s)
            < count_events is_SqlSend (trace s1))%nat).
Proof.
  assert (Hbad : limit ≠ VNone → isinstance_int limit = false ∨ int_value limit < 0 →
                 _get_read_query self (Some cols) limit = Raise limit_error).
  { intros Hn Hbad. unfold _get_read_query. cbn.
    destruct limit; try done; cbn; destruct Hbad as [Hi|Hneg]; try done; cbn in Hneg.
    - destruct b; cbn in Hneg; lia.
    - destruct (0 <=? z) eqn:Hz; [lia|done]. }
  split; [|split].
  - by intros ->.
  - intros Hint Hpos. unfold _get_read_query. cbn.
    destruct limit; try done; cbn in *.
    + by destruct b.
    + by rewrite (proj2 (Z.leb_le 0 z) Hpos).
  - intros Hn Hinvalid. split; [by apply Hbad|].
    intros s s1 decode_geom Hcols.
    destruct (get_table_columns_effects self s _ s1 Hcols) as (evs & Htr & Hevs).
    split; [|split].
    + unfold download. rewrite run_bind, Hcols, run_bind.
      by rewrite (Hbad Hn Hinvalid).
    + rewrite Htr. tally. rewrite (count_events_none is_Fetch evs); [lia|].
      eapply Forall_impl; [exact Hevs|]. by intros [].
    + rewrite Htr. tally.
Qed.

(** ** Geometry decoding *)

Lemma decode_installed lib ewkb :
  hasattr_geom_type ewkb = false →
  _decode_geom (Installed lib) ewkb
  = if truthy ewkb then first_success lib ewkb decode_order else ([], Return VNone).
Proof.
  intros Hattr. unfold _decode_geom, _encode_decode_decorator, _decode_geom_func.
  rewrite Hattr. destruct (truthy ewkb); [|reflexivity].
  unfold decode_order, first_success, run_attempt, try_return.
  destruct (unhexlify ewkb) as [b|e]; cbn;
    repeat match goal with
           | |- context [wkb_loads lib ?x ?h] => destruct (wkb_loads lib x h); cbn
           | |- context [wkt_loads lib ?x] => destruct (wkt_loads lib x); cbn
           end; reflexivity.
Qed.

Lemma first_success_returns lib ewkb order :
  ∃ v, (first_success lib ewkb order).2 = Return v
       ∧ (v = VNone ∨ ∃ g, v = VGeom g).
Proof.
  induction order as [|a rest IH]; cbn; [eauto|].
  destruct (run_attempt lib a ewkb); cbn; eauto.
Qed.

Lemma first_success_all_raise lib ewkb order :
  Forall (λ a, ∃ e, run_attempt lib a ewkb = Raise e) order →
  first_success lib ewkb order = (order, Return VNone).
Proof.
  induction 1 as [|a rest [e He] _ IH]; cbn; [reflexivity|].
  by rewrite He, IH.
Qed.

Lemma first_success_prefix lib ewkb order :
  (first_success lib ewkb order).1 `prefix_of` order.
Proof.
  induction order as [|a rest IH]; cbn; [done|].
  destruct (run_attempt lib a ewkb); cbn.
  - by exists rest.
  - by apply prefix_cons.
Qed.

(** What [_decode_geom] can raise: the rewrapped [ImportError], when shapely
    cannot be imported and the input is no geometry object. *)
Lemma decode_raises shapely ewkb e :
  (_decode_geom shapely ewkb).2 = Raise e →
  ∃ err, shapely = Missing err ∧ hasattr_geom_type ewkb = false
         ∧ e = ImportError (shapely_missing_message err).
Proof.
  destruct (hasattr_geom_type ewkb) eqn:Hattr.
  - unfold _decode_geom, _encode_decode_decorator, _decode_geom_func.
    by rewrite Hattr.
  - destruct shapely as [lib|err].
    + rewrite decode_installed by done. destruct (truthy ewkb); [|done].
      destruct (first_success_returns lib ewkb decode_order) as (v & -> & _). done.
    + unfold _decode_geom, _encode_decode_decorator, _decode_geom_func.
      rewrite Hattr. cbn. intros [= <-]. eauto.
Qed.

(** What [_decode_geom] returns: the input itself when it is a geometry
    object, else a geometry or [None]. *)
Lemma decode_returns shapely ewkb v :
  (_decode_geom shapely ewkb).2 = Return v →
  v = VNone ∨ ∃ g, v = VGeom g.
Proof.
  destruct (hasattr_geom_type ewkb) eqn:Hattr.
  - unfold _decode_geom, _encode_decode_decorator, _decode_geom_func.
    rewrite Hattr. cbn. intros [= <-]. destruct ewkb; try done. eauto.
  - destruct shapely as [lib|err].
    + rewrite decode_installed by done. destruct (truthy ewkb).
      * destruct (first_success_returns lib ewkb decode_order) as (v' & -> & Hv).
        by intros [= <-].
      * intros [= <-]. by left.
    + unfold _decode_geom, _encode_decode_decorator, _decode_geom_func.
      by rewrite Hattr.
Qed.

(** C5. [_decode_geom] returns its input unchanged when the input carries
    [geom_type].  With shapely importable it never raises, and returns [None]
    for a null or empty input and for any input on which every decode attempt
    raises.  With shapely not importable, and the input no geometry object, it
    raises [ImportError] with a message of its own that names shapely. *)
Theorem decode_geom_outcomes (shapely : import) (ewkb : value) :
  (hasattr_geom_type ewkb = true → (_decode_geom shapely ewkb).2 = Return ewkb)
  ∧ (∀ lib, shapely = Installed lib →
       (∃ v, (_decode_geom shapely ewkb).2 = Return v)
       ∧ (hasattr_geom_type ewkb = false → truthy ewkb = false →
          (_decode_geom shapely ewkb).2 = Return VNone)
       ∧ (hasattr_geom_type ewkb = false →
          Forall (λ a, ∃ e, run_attempt lib a ewkb = Raise e) decode_order →
          (_decode_geom shapely ewkb).2 = Return VNone))
  ∧ (∀ err, shapely = Missing err → hasattr_geom_type ewkb = false →
       (_decode_geom shapely ewkb).2 = Raise (ImportError (shapely_missing_message err))
       ∧ substring_of "shapely" (shapely_missing_message err) = true).
Proof.
  split; [|split].
  - intros Hattr. unfold _decode_geom, _encode_decode_decorator, _decode_geom_func.
    by rewrite Hattr.
  - intros lib ->. split; [|split].
    + destruct ((_decode_geom (Installed lib) ewkb).2) as [v|e] eqn:Hd; [eauto|].
      by destruct (decode_raises _ _ _ Hd) as (err & ? & _).
    + intros Hattr Hfalse. rewrite decode_installed by done. by rewrite Hfalse.
    + intros Hattr Hall. rewrite decode_installed by done.
      destruct (truthy ewkb); [|done].
      by rewrite first_success_all_raise.
  - intros err -> Hattr. split; [|reflexivity].
    unfold _decode_geom, _encode_decode_decorator, _decode_geom_func.
    by rewrite Hattr.
Qed.

(** C5, at inputs: with the one-point shapely installed, [None], the empty
    string and a malformed byte sequence all decode to [None]. *)
Lemma decode_geom_outcomes_witness :
  (_decode_geom (Installed tiny_shapely) VNone).2 = Return VNone
  ∧ (_decode_geom (Installed tiny_shapely) (VStr EmptyString)).2 = Return VNone
  ∧ (_decode_geom (Installed tiny_shapely) (VBytes "0101zz")).2 = Return VNone
  ∧ (_decode_geom (Installed tiny_shapely) (VGeom point_1_2)).2 = Return (VGeom point_1_2)
  ∧ (_decode_geom (Missing "No module named 'shapely'") VNone).2
    = Raise (ImportError (shapely_missing_message "No module named 'shapely'")).
Proof.
  split; [|split; [|split; [|split]]].
  - destruct (decode_geom_outcomes (Installed tiny_shapely) VNone) as (_ & H & _).
    destruct (H tiny_shapely eq_refl) as (_ & Hnull & _). apply Hnull; reflexivity.
  - destruct (decode_geom_outcomes (Installed tiny_shapely) (VStr EmptyString))
      as (_ & H & _).
    destruct (H tiny_shapely eq_refl) as (_ & Hnull & _). apply Hnull; reflexivity.
  - destruct (decode_geom_outcomes (Installed tiny_shapely) (VBytes "0101zz"))
      as (_ & H & _).
    destruct (H tiny_shapely eq_refl) as (_ & _ & Hfail). apply Hfail; [reflexivity|].
    repeat constructor; eexists; vm_compute; reflexivity.
  - destruct (decode_geom_outcomes (Installed tiny_shapely) (VGeom point_1_2))
      as (H & _).
    apply H. reflexivity.
  - destruct (decode_geom_outcomes (Missing "No module named 'shapely'") VNone)
      as (_ & _ & H).
    apply (H _ eq_refl). reflexivity.
Defined.

(** C6 (as the code has it). For an input that is no geometry object and is
    truthy (not null, not empty), [_decode_geom] makes its library calls in the
    order [decode_order] and stops at the first that returns:
    [wkb.loads(unhexlify(x))], [wkb.loads(unhexlify(x), hex=True)],
    [wkb.loads(x, hex=True)], [wkb.loads(x)] (the input as raw binary), then
    [wkt.loads(x)].  For a falsy input it makes no call. *)
Theorem decode_geom_attempt_order (lib : Shapely) (ewkb : value) :
  hasattr_geom_type ewkb = false →
  (truthy ewkb = true →
     _decode_geom (Installed lib) ewkb = first_success lib ewkb decode_order
     ∧ (_decode_geom (Installed lib) ewkb).1 `prefix_of` decode_order)
  ∧ (truthy ewkb = false → _decode_geom (Installed lib) ewkb = ([], Return VNone)).
Proof.
  intros Hattr. rewrite decode_installed by done. split; intros ->; [|done].
  split; [done|]. apply first_success_prefix.
Qed.

(** C6 on the raw binary WKB of a point. *)
Lemma decode_geom_attempt_order_witness :
  _decode_geom (Installed tiny_shapely) (VBytes point_1_2_wkb)
  = first_success tiny_shapely (VBytes point_1_2_wkb) decode_order.
Proof.
  apply (decode_geom_attempt_order tiny_shapely (VBytes point_1_2_wkb)); reflexivity.
Defined.

(** C6 as stated fails: on the raw binary WKB of a point the decoder calls
    three hex-string loads before the raw binary load that succeeds, so
    neither by loader nor by reading of the input do its calls follow
    "raw binary, hex, hex, WKT". *)
Lemma decode_geom_specified_order_counterexample :
  let out := _decode_geom (Installed tiny_shapely) (VBytes point_1_2_wkb) in
  out = ([WkbOfUnhex; WkbHexOfUnhex; WkbHex; WkbRaw], Return (VGeom point_1_2))
  ∧ ¬ follows_specified_order loader_mode out.1
  ∧ ¬ follows_specified_order input_reading out.1.
Proof.
  assert (H : _decode_geom (Installed tiny_shapely) (VBytes point_1_2_wkb)
              = ([WkbOfUnhex; WkbHexOfUnhex; WkbHex; WkbRaw], Return (VGeom point_1_2)))
    by (vm_compute; reflexivity).
  cbv zeta. rewrite H. split; [reflexivity|].
  split; intros [k Hk]; cbn in Hk; discriminate.
Qed.

(** ** Row serialization *)

Lemma append_assoc (a b c : string) : (a +:+ b) +:+ c = a +:+ b +:+ c.
Proof.
  induction a as [|x a IH]; [reflexivity|].
  change (String x ((a +:+ b) +:+ c) = String x (a +:+ b +:+ c)). by rewrite IH.
Qed.

Lemma append_nil_r (a : string) : a +:+ EmptyString = a.
Proof.
  induction a as [|x a IH]; [reflexivity|].
  change (String x (a +:+ EmptyString) = String x a). by rewrite IH.
Qed.

Lemma picked_cons prev row target c rest :
  picked (if bool_decide (Some c = target) then cell row c else prev) row target rest
  = picked prev row target (c :: rest).
Proof.
  unfold picked. destruct target as [t|]; [|by rewrite bool_decide_false].
  destruct (decide (c = t)) as [->|Hne].
  - rewrite (bool_decide_true (Some t = Some t)) by done.
    rewrite (bool_decide_true (t ∈ t :: rest)) by apply list_elem_of_here.
    by case_bool_decide.
  - rewrite (bool_decide_false (Some c = Some t)) by congruence.
    destruct (decide (t ∈ rest)) as [Hin|Hnin].
    + rewrite (bool_decide_true (t ∈ rest)) by done.
      by rewrite (bool_decide_true (t ∈ c :: rest)) by (by apply list_elem_of_further).
    + rewrite (bool_decide_false (t ∈ rest)) by done.
      rewrite (bool_decide_false (t ∈ c :: rest)); [done|].
      rewrite not_elem_of_cons. split; [congruence|done].
Qed.

Lemma field_text_format v :
  py_format (if pd_isnull v || is_None v then VStr EmptyString else v) = field_text v.
Proof. by destruct v. Qed.

(** One column that is looked at. *)
Lemma _rows_col_kept supported row with_lonlat geom_col acc c v :
  row !! c = Some v →
  with_lonlat = None ∨ c ∉ supported →
  _rows_col supported row with_lonlat geom_col acc c
  = Return
      {| csv_row := csv_row acc
                    +:+ (if bool_decide (Some c = geom_col) then EmptyString
                         else field_text v +:+ "|");
         the_geom_val := if bool_decide (Some c = geom_col) then v
                         else the_geom_val acc;
         lng_val := if bool_decide (Some c = fst <$> with_lonlat) then v
                    else lng_val acc;
         lat_val := if bool_decide (Some c = snd <$> with_lonlat) then v
                    else lat_val acc |}.
Proof.
  intros Hv Hkept. unfold _rows_col.
  assert (Hskip : bool_decide (is_Some with_lonlat) && bool_decide (c ∈ supported) = false).
  { destruct Hkept as [->|Hc].
    - rewrite (bool_decide_false (is_Some None)); [done|]. by intros [? ?].
    - rewrite (bool_decide_false (c ∈ supported)) by done. by rewrite andb_false_r. }
  rewrite Hskip. unfold row_getitem. rewrite Hv. cbn [mbind result_bind].
  rewrite field_text_format.
  destruct with_lonlat as [[lo la]|]; cbn [fmap option_fmap option_map fst snd].
  - rewrite (bool_decide_ext (Some c = Some lo) (c = lo)) by (split; congruence).
    rewrite (bool_decide_ext (Some c = Some la) (c = la)) by (split; congruence).
    destruct (bool_decide (Some c = geom_col)); [|reflexivity].
    by rewrite append_nil_r.
  - rewrite (bool_decide_false (Some c = None)) by done.
    destruct (bool_decide (Some c = geom_col)); [|reflexivity].
    by rewrite append_nil_r.
Qed.

(** One column that lon/lat mode skips. *)
Lemma _rows_col_skipped supported row with_lonlat geom_col acc c :
  is_Some with_lonlat → c ∈ supported →
  _rows_col supported row with_lonlat geom_col acc c = Return acc.
Proof.
  intros Hll Hc. unfold _rows_col.
  rewrite (bool_decide_true (is_Some with_lonlat)) by done.
  by rewrite (bool_decide_true (c ∈ supported)) by done.
Qed.

Lemma row_acc_eq a a' b b' c c' d d' :
  a = a' → b = b' → c = c' → d = d' →
  @Return row_acc {| csv_row := a; the_geom_val := b; lng_val := c; lat_val := d |}
  = Return {| csv_row := a'; the_geom_val := b'; lng_val := c'; lat_val := d' |}.
Proof. by intros -> -> -> ->. Qed.

(** The loop over [cols], in closed form. *)
Lemma _rows_cols_closed_form supported row with_lonlat geom_col cols acc :
  Forall (λ c, is_Some (row !! c)) (kept supported with_lonlat cols) →
  _rows_cols supported row with_lonlat geom_col acc cols
  = Return
      {| csv_row := csv_row acc
                    +:+ pipe_fields row geom_col (kept supported with_lonlat cols);
         the_geom_val := picked (the_geom_val acc) row geom_col
                           (kept supported with_lonlat cols);
         lng_val := picked (lng_val acc) row (fst <$> with_lonlat)
                      (kept supported with_lonlat cols);
         lat_val := picked (lat_val acc) row (snd <$> with_lonlat)
                      (kept supported with_lonlat cols) |}.
Proof.
  revert acc. induction cols as [|c rest IH]; intros acc Hrow.
  - destruct acc, with_lonlat as [[lo la]|], geom_col; cbn;
      by rewrite append_nil_r.
  - cbn [_rows_cols].
    assert (Hcase : (kept supported with_lonlat (c :: rest)
                     = c :: kept supported with_lonlat rest
                     ∧ (with_lonlat = None ∨ c ∉ supported))
                    ∨ (kept supported with_lonlat (c :: rest)
                       = kept supported with_lonlat rest
                       ∧ is_Some with_lonlat ∧ c ∈ supported)).
    { destruct with_lonlat as [lonlat|]; cbn [kept]; [|by left; split; [|left]].
      rewrite filter_cons. destruct (decide (c ∈ supported)) as [Hin|Hnin].
      - right. rewrite decide_False by (intros Hn; by apply Hn).
        split; [done|]. split; [eauto|done].
      - left. rewrite decide_True by done. split; [done|by right]. }
    destruct Hcase as [[Hk Hkept]|(Hk & Hll & Hc)]; rewrite Hk in *.
    + apply Forall_cons in Hrow as [[v Hv] Hrest].
      rewrite (_rows_col_kept _ _ _ _ _ _ v Hv Hkept). cbn [mbind result_bind].
      rewrite (IH _ Hrest). cbn [csv_row the_geom_val lng_val lat_val].
      assert (Hcell : cell row c = v) by (unfold cell; by rewrite Hv).
      apply row_acc_eq.
      * cbn [pipe_fields]. rewrite Hcell. by rewrite append_assoc.
      * by rewrite <- picked_cons, Hcell.
      * by rewrite <- picked_cons, Hcell.
      * by rewrite <- picked_cons, Hcell.
    + rewrite (_rows_col_skipped _ _ _ _ _ _ Hll Hc). cbn [mbind result_bind].
      by apply IH.
Qed.

(** The line of one row, in closed form. *)
Lemma _rows_line_closed_form shapely supported row cols with_lonlat geom_col :
  Forall (λ c, is_Some (row !! c)) (kept supported with_lonlat cols) →
  let looked := kept supported with_lonlat cols in
  let fields := pipe_fields row geom_col looked in
  let geom_val := picked VNone row geom_col looked in
  let lng := picked VNone row (fst <$> with_lonlat) looked in
  let lat := picked VNone row (snd <$> with_lonlat) looked in
  _rows_line shapely supported row cols with_lonlat geom_col
  = csv1 ← (if negb (is_None geom_val) then
              geom ← (_decode_geom shapely geom_val).2;
              if truthy geom then
                w ← getattr_wkt geom; Return (fields +:+ "SRID=4326;" +:+ w)
              else Return fields
            else Return fields);
    Return (encode ((if bool_decide (is_Some with_lonlat) && negb (is_None lng)
                        && negb (is_None lat)
                     then csv1 +:+ lonlat_field lng lat else csv1) +:+ nl)).
Proof.
  intros Hrow. cbv zeta. unfold _rows_line.
  rewrite (_rows_cols_closed_form _ _ _ _ _ _ Hrow). reflexivity.
Qed.

Lemma decode_None_not_geometry shapely g :
  (_decode_geom shapely VNone).2 ≠ Return (VGeom g).
Proof. by destruct shapely. Qed.

(** Without lon/lat mode. *)
Lemma rows_line_plain shapely supported row cols geom_col :
  Forall (λ c, is_Some (row !! c)) cols →
  (∀ g, (_decode_geom shapely (picked VNone row geom_col cols)).2 = Return (VGeom g) →
     is_empty g = false →
     _rows_line shapely supported row cols None geom_col
     = Return (encode (pipe_fields row geom_col cols +:+ ewkt_field g +:+ nl)))
  ∧ (picked VNone row geom_col cols = VNone
     ∨ (_decode_geom shapely (picked VNone row geom_col cols)).2 = Return VNone
     ∨ (∃ g, (_decode_geom shapely (picked VNone row geom_col cols)).2
             = Return (VGeom g) ∧ is_empty g = true) →
     _rows_line shapely supported row cols None geom_col
     = Return (encode (pipe_fields row geom_col cols +:+ nl))).
Proof.
  intros Hrow.
  pose proof (_rows_line_closed_form shapely supported row cols None geom_col Hrow)
    as Hline. cbv zeta in Hline. cbn [kept] in Hline. rewrite Hline. clear Hline.
  rewrite (bool_decide_false (is_Some None)) by (by intros [? ?]). cbn [andb].
  split.
  - intros g Hdec Hne.
    destruct (is_None (picked VNone row geom_col cols)) eqn:Hnone.
    { destruct (picked VNone row geom_col cols); try done.
      by destruct (decode_None_not_geometry shapely g). }
    cbn [negb]. rewrite Hdec. cbn [mbind result_bind truthy getattr_wkt].
    rewrite Hne. cbn [negb mbind result_bind]. unfold ewkt_field.
    by rewrite !append_assoc.
  - intros [Hnone|[Hdec|(g & Hdec & Hempty)]].
    + by rewrite Hnone.
    + destruct (is_None _); [done|]. cbn [negb]. by rewrite Hdec.
    + destruct (is_None _); [done|]. cbn [negb]. rewrite Hdec.
      cbn [mbind result_bind truthy]. by rewrite Hempty.
Qed.

(** C1 (as the code has it). Without lon/lat mode, the line of a row is the
    text of its non-geometry columns in column order, each followed by a pipe,
    null and missing values as empty text; then, when the geometry column's
    value decodes to a non-empty geometry, the field [SRID=4326;<WKT>]; then
    one newline; all encoded to bytes.  When the value is [None], decodes to
    [None] or decodes to an empty geometry, no geometry field is written.  The
    WKT is the geometry's own [wkt] text, copied as it is: the row
    [id=1, name="A", the_geom=g] gives [1|A|SRID=4326;<WKT of g>\n], which for
    the point at (1, 2) is [1|A|SRID=4326;POINT (1 2)\n].  In lon/lat mode, a
    row with no geometry column whose lon and lat cells hold 3 and 4 ends in
    the field [SRID=4326;POINT(3 4)] and the newline. *)
Theorem rows_line_format (shapely : import) (supported : list string)
    (row : gmap string value) (cols : list string) (geom_col : option string) :
  (Forall (λ c, is_Some (row !! c)) cols →
   let fields := pipe_fields row geom_col cols in
   let geom_val := picked VNone row geom_col cols in
   (∀ g, (_decode_geom shapely geom_val).2 = Return (VGeom g) → is_empty g = false →
      _rows_line shapely supported row cols None geom_col
      = Return (encode (fields +:+ ewkt_field g +:+ nl)))
   ∧ (geom_val = VNone
      ∨ (_decode_geom shapely geom_val).2 = Return VNone
      ∨ (∃ g, (_decode_geom shapely geom_val).2 = Return (VGeom g)
              ∧ is_empty g = true) →
      _rows_line shapely supported row cols None geom_col
      = Return (encode (fields +:+ nl))))
  ∧ (∀ g, is_empty g = false →
       _rows_line shapely supported (example_row g) ["id"; "name"; "the_geom"]
         None (Some "the_geom")
       = Return (encode ("1|A|SRID=4326;" +:+ wkt g +:+ nl)))
  ∧ _rows_line shapely supported (example_row point_1_2) ["id"; "name"; "the_geom"]
      None (Some "the_geom")
    = Return (encode ("1|A|SRID=4326;POINT (1 2)" +:+ nl))
  ∧ (∀ lon_col lat_col,
       let looked := kept supported (Some (lon_col, lat_col)) cols in
       Forall (λ c, is_Some (row !! c)) looked →
       geom_col = None →
       lon_col ∈ looked → lat_col ∈ looked →
       cell row lon_col = VInt 3 → cell row lat_col = VInt 4 →
       _rows_line shapely supported row cols (Some (lon_col, lat_col)) geom_col
       = Return (encode (pipe_fields row None looked
                         +:+ "SRID=4326;POINT(3 4)" +:+ nl))).
Proof.
  assert (Hexample : ∀ g, is_empty g = false →
            _rows_line shapely supported (example_row g) ["id"; "name"; "the_geom"]
              None (Some "the_geom")
            = Return (encode ("1|A|SRID=4326;" +:+ wkt g +:+ nl))).
  { intros g Hne.
    destruct (rows_line_plain shapely supported (example_row g)
                ["id"; "name"; "the_geom"] (Some "the_geom")) as [Hgeom _].
    { repeat constructor; eexists; reflexivity. }
    by apply Hgeom. }
  split; [apply rows_line_plain|]. split; [exact Hexample|]. split.
  - by rewrite (Hexample point_1_2 eq_refl).
  - intros lon_col lat_col looked Hrow -> Hlon Hlat Hx Hy.
    pose proof (_rows_line_closed_form shapely supported row cols
                  (Some (lon_col, lat_col)) None Hrow) as Hline.
    cbv zeta in Hline. rewrite Hline. clear Hline. fold looked.
    cbn [picked fmap option_fmap option_map fst snd is_None negb mbind result_bind].
    rewrite (bool_decide_true (lon_col ∈ looked)) by done.
    rewrite (bool_decide_true (lat_col ∈ looked)) by done.
    rewrite Hx, Hy. rewrite (bool_decide_true (is_Some _)) by eauto.
    cbn [andb is_None negb]. unfold lonlat_field. by rewrite append_assoc.
Qed.

(** C1 on the specification's two rows, and on a row without geometry value. *)
Lemma rows_line_format_witness :
  _rows_line (Installed tiny_shapely) standard_geom_col_names (example_row point_1_2)
    ["id"; "name"; "the_geom"] None (Some "the_geom")
  = Return (encode ("1|A|SRID=4326;POINT (1 2)" +:+ nl))
  ∧ _rows_line (Installed tiny_shapely) standard_geom_col_names example_lonlat_row
      ["lon"; "lat"] (Some ("lon", "lat")) None
    = Return (encode ("3|4|SRID=4326;POINT(3 4)" +:+ nl))
  ∧ _rows_line (Installed tiny_shapely) standard_geom_col_names
      {[ "id" := VInt 7; "name" := VNaN; "the_geom" := VNone ]}
      ["id"; "name"; "the_geom"] None (Some "the_geom")
    = Return (encode ("7||" +:+ nl)).
Proof.
  split; [|split].
  - destruct (rows_line_format (Installed tiny_shapely) standard_geom_col_names
                (example_row point_1_2) ["id"; "name"; "the_geom"] (Some "the_geom"))
      as (_ & Hexample & _).
    apply (Hexample point_1_2). reflexivity.
  - destruct (rows_line_format (Installed tiny_shapely) standard_geom_col_names
                example_lonlat_row ["lon"; "lat"] None)
      as (_ & _ & _ & Hlonlat).
    apply (Hlonlat "lon" "lat").
    + repeat constructor; eexists; reflexivity.
    + reflexivity.
    + vm_compute. apply list_elem_of_here.
    + vm_compute. apply list_elem_of_further, list_elem_of_here.
    + reflexivity.
    + reflexivity.
  - destruct (rows_line_format (Installed tiny_shapely) standard_geom_col_names
                {[ "id" := VInt 7; "name" := VNaN; "the_geom" := VNone ]}
                ["id"; "name"; "the_geom"] (Some "the_geom"))
      as (Hplain & _ & _).
    destruct Hplain as [_ Hnone].
    + repeat constructor; eexists; reflexivity.
    + apply Hnone. left. reflexivity.
Defined.

(** C1 as stated fails twice.  A geometry column holding an empty point decodes
    to a geometry, yet the line carries no geometry field.  And the row
    [id=1, name="A", the_geom=point at (1, 2)] does not give the line the
    specification quotes: the WKT of the point is [POINT (1 2)], with a space,
    and the line carries it unchanged. *)
Lemma rows_line_format_counterexample :
  let row : gmap string value := {[ "id" := VInt 1; "the_geom" := VGeom empty_point ]} in
  ((_decode_geom (Installed tiny_shapely) (VGeom empty_point)).2
   = Return (VGeom empty_point)
   ∧ _rows_line (Installed tiny_shapely) standard_geom_col_names row
       ["id"; "the_geom"] None (Some "the_geom")
     = Return (encode ("1|" +:+ nl))
   ∧ _rows_line (Installed tiny_shapely) standard_geom_col_names row
       ["id"; "the_geom"] None (Some "the_geom")
     ≠ Return (encode ("1|SRID=4326;POINT EMPTY" +:+ nl)))
  ∧ ((_decode_geom (Installed tiny_shapely) (VStr point_1_2_hex)).2
     = Return (VGeom point_1_2)
     ∧ _rows_line (Installed tiny_shapely) standard_geom_col_names
         (example_row point_1_2) ["id"; "name"; "the_geom"] None (Some "the_geom")
       = Return (encode ("1|A|SRID=4326;POINT (1 2)" +:+ nl))
     ∧ _rows_line (Installed tiny_shapely) standard_geom_col_names
         (example_row point_1_2) ["id"; "name"; "the_geom"] None (Some "the_geom")
       ≠ Return (encode ("1|A|SRID=4326;POINT(1 2)" +:+ nl))).
Proof.
  cbv zeta. split.
  - split; [reflexivity|].
    assert (H : _rows_line (Installed tiny_shapely) standard_geom_col_names
                  {[ "id" := VInt 1; "the_geom" := VGeom empty_point ]}
                  ["id"; "the_geom"] None (Some "the_geom")
                = Return (encode ("1|" +:+ nl))) by (vm_compute; reflexivity).
    split; [exact H|]. rewrite H. vm_compute. discriminate.
  - split; [vm_compute; reflexivity|].
    assert (H : _rows_line (Installed tiny_shapely) standard_geom_col_names
                  (example_row point_1_2) ["id"; "name"; "the_geom"] None
                  (Some "the_geom")
                = Return (encode ("1|A|SRID=4326;POINT (1 2)" +:+ nl)))
      by (vm_compute; reflexivity).
    split; [exact H|]. rewrite H. vm_compute. discriminate.
Qed.

(** ** Upload *)

Lemma raises_no_NameError_bind {A B} (r : result A) (f : A → result B) :
  raises_no_NameError r → (∀ a, raises_no_NameError (f a)) →
  raises_no_NameError (r ≫= f).
Proof.
  intros Hr Hf e. destruct r as [a|e']; cbn; [apply Hf|].
  intros [= <-]. by apply Hr.
Qed.

Lemma raises_no_NameError_Return {A} (a : A) : raises_no_NameError (Return a).
Proof. by intros e. Qed.

Lemma raises_no_NameError_mapM {A B} (f : A → result B) (l : list A) :
  (∀ x, raises_no_NameError (f x)) → raises_no_NameError (mapM f l).
Proof.
  intros Hf. induction l as [|x l IH]; [apply raises_no_NameError_Return|].
  change (mapM f (x :: l)) with (y ← f x; k ← mapM f l; mret (y :: k)).
  apply raises_no_NameError_bind; [apply Hf|]. intros y.
  apply raises_no_NameError_bind; [apply IH|]. intros k.
  apply raises_no_NameError_Return.
Qed.

Lemma never_NameError_bind {W A B} (m : M W A) (f : A → M W B) :
  never_NameError m → (∀ a, never_NameError (f a)) → never_NameError (m ≫= f).
Proof.
  intros Hm Hf s e s'. rewrite run_bind.
  destruct (run m s) as [[a|e'] s1] eqn:Hrun.
  - apply Hf.
  - intros [= <- <-]. by apply (Hm _ _ _ Hrun).
Qed.

Lemma never_NameError_ret {W A} (a : A) : never_NameError (mret a : M W A).
Proof. by intros s e s'. Qed.

Lemma never_NameError_lift {W A} (r : result A) :
  raises_no_NameError r → never_NameError (lift r : M W A).
Proof. intros Hr s e s'. cbn. intros [= -> _]. by apply Hr. Qed.

Lemma never_NameError_raise {W A} (e : exn) :
  is_NameError e = false → never_NameError (raise e : M W A).
Proof. intros He s e' s'. cbn. by intros [= <- _]. Qed.

Lemma never_NameError_emit {W} ev : never_NameError (emit ev : M W unit).
Proof. by intros s e s'. Qed.

Lemma never_NameError_call {W A} ev (f : W → reply A * W) :
  never_NameError (call ev f).
Proof.
  intros s e s'. cbn. destruct (f (world s)) as [[a|ce] w]; cbn; [done|].
  intros [= <- _]. by destruct ce.
Qed.

Lemma never_NameError_try_catch {W A} (body : M W A) catches handler :
  never_NameError body → (∀ e, never_NameError (handler e)) →
  never_NameError (try_catch body catches handler).
Proof.
  intros Hb Hh s e s'. cbn. destruct (run body s) as [[a|e'] s1] eqn:Hrun; [done|].
  destruct (catches e').
  - apply Hh.
  - intros [= <- <-]. by apply (Hb _ _ _ Hrun).
Qed.

Lemma decode_no_NameError shapely v :
  raises_no_NameError (_decode_geom shapely v).2.
Proof.
  intros e He. by destruct (decode_raises _ _ _ He) as (err & _ & _ & ->).
Qed.

Lemma row_getitem_no_NameError row col : raises_no_NameError (row_getitem row col).
Proof. unfold row_getitem. destruct (row !! col); by intros e [= <-]. Qed.

Lemma _rows_cols_no_NameError supported row with_lonlat geom_col cols acc :
  raises_no_NameError (_rows_cols supported row with_lonlat geom_col acc cols).
Proof.
  revert acc. induction cols as [|c rest IH]; intros acc;
    [apply raises_no_NameError_Return|].
  cbn [_rows_cols]. apply raises_no_NameError_bind; [|intros acc'; apply IH].
  unfold _rows_col. destruct (_ && _); [apply raises_no_NameError_Return|].
  apply raises_no_NameError_bind; [apply row_getitem_no_NameError|].
  intros v. destruct (bool_decide _); apply raises_no_NameError_Return.
Qed.

Lemma _rows_line_no_NameError shapely supported row cols with_lonlat geom_col :
  raises_no_NameError (_rows_line shapely supported row cols with_lonlat geom_col).
Proof.
  unfold _rows_line.
  apply raises_no_NameError_bind; [apply _rows_cols_no_NameError|]. intros acc.
  apply raises_no_NameError_bind; [|intros; apply raises_no_NameError_Return].
  destruct (negb _); [|apply raises_no_NameError_Return].
  apply raises_no_NameError_bind; [apply decode_no_NameError|]. intros geom.
  destruct (truthy geom); [|apply raises_no_NameError_Return].
  apply raises_no_NameError_bind; [|intros; apply raises_no_NameError_Return].
  destruct geom; by intros e [= <-].
Qed.

Lemma first_raise_no_NameError {A} (gen : list (result A)) e :
  Forall raises_no_NameError gen → first_raise gen = Some e → is_NameError e = false.
Proof.
  induction 1 as [|r gen Hr _ IH]; [done|].
  destruct r as [a|e']; cbn; [done|]. intros [= <-]. by apply Hr.
Qed.

Lemma copyfrom_no_NameError {W} (context : CartoContext W) sql gen :
  Forall raises_no_NameError gen → never_NameError (copyfrom context sql gen).
Proof.
  intros Hgen s e s'. cbn.
  destruct (copy_client_copyfrom context sql (yielded gen) (world s)) as [r w].
  destruct (first_raise gen) as [e'|] eqn:Hfirst.
  - intros [= <- _]. by apply (first_raise_no_NameError gen).
  - destruct r as [a|ce]; cbn; [done|]. intros [= <- _]. by destruct ce.
Qed.

Lemma _copyfrom_no_NameError {W} shapely supported (self : Dataset W) with_lonlat :
  never_NameError (_copyfrom shapely supported self with_lonlat).
Proof.
  unfold _copyfrom.
  apply never_NameError_bind.
  { apply never_NameError_lift. unfold self_df. destruct (df self); by intros e [= <-]. }
  intros d. apply never_NameError_bind.
  { apply never_NameError_lift. unfold self_normalized_column_names.
    destruct (normalized_column_names self); by intros e [= <-]. }
  intros names. apply copyfrom_no_NameError. unfold _rows.
  apply Forall_map, Forall_forall. intros row _. apply _rows_line_no_NameError.
Qed.

Lemma _get_geom_col_type_no_NameError {W} shapely supported d :
  never_NameError (_get_geom_col_type shapely supported d : M W (option string)).
Proof.
  unfold _get_geom_col_type.
  destruct (_get_geom_col_name supported d) as [geom_col|];
    [|apply never_NameError_ret].
  apply never_NameError_bind.
  - apply never_NameError_try_catch.
    + apply never_NameError_bind.
      * apply never_NameError_lift. unfold _first_not_null_value.
        apply raises_no_NameError_bind.
        -- unfold df_getitem. destruct (bool_decide _); [|by intros e [= <-]].
           apply raises_no_NameError_mapM. intros row. apply row_getitem_no_NameError.
        -- intros series. destruct (filter _ series); by intros e [= <-].
      * intros v. apply never_NameError_lift, decode_no_NameError.
    + intros e. apply never_NameError_bind; [apply never_NameError_emit|].
      intros _. apply never_NameError_ret.
  - intros geom. destruct geom;
      first [apply never_NameError_ret | by apply never_NameError_raise].
Qed.

Lemma _create_table_no_NameError {W} shapely supported (self : Dataset W) with_lonlat :
  never_NameError (_create_table shapely supported self with_lonlat).
Proof.
  unfold _create_table. apply never_NameError_bind.
  - unfold _create_table_query. apply never_NameError_bind.
    + destruct with_lonlat; [apply never_NameError_ret|].
      apply never_NameError_bind.
      * apply never_NameError_lift. unfold self_df.
        destruct (df self); by intros e [= <-].
      * intros d. apply _get_geom_col_type_no_NameError.
    + intros geom_type. apply never_NameError_bind.
      { apply never_NameError_lift. unfold self_normalized_column_names.
        destruct (normalized_column_names self); by intros e [= <-]. }
      intros names. apply never_NameError_bind; [|intros; apply never_NameError_ret].
      apply never_NameError_lift, raises_no_NameError_mapM. intros p.
      apply raises_no_NameError_bind.
      { unfold self_df. destruct (df self); by intros e [= <-]. }
      intros d. apply raises_no_NameError_bind; [|intros; apply raises_no_NameError_Return].
      unfold dtypes_getitem. destruct (dtypes d !! p.2); by intros e [= <-].
  - intros create. apply never_NameError_bind; [apply never_NameError_call|].
    intros job. apply never_NameError_bind.
    { apply never_NameError_lift. unfold job_getitem.
      destruct (job !! "status"); by intros e [= <-]. }
    intros status. destruct (bool_decide _); [|apply never_NameError_ret].
    apply never_NameError_bind; [|intros; by apply never_NameError_raise].
    apply never_NameError_lift. unfold job_getitem.
    destruct (job !! "failed_reason"); by intros e [= <-].
Qed.

Lemma exists_returns {W} (self : Dataset W) (s : State W) :
  ∃ present, (run (exists_ self) s).1 = Return present
             ∧ count_events is_CopyFrom (trace (run (exists_ self) s).2)
               = count_events is_CopyFrom (trace s)
             ∧ count_events is_BatchSql (trace (run (exists_ self) s).2)
               = count_events is_BatchSql (trace s).
Proof.
  pose proof (exists_cases self s) as H.
  destruct (sql_client_send _ _ _ _) as [[r|e] w]; rewrite H; cbn [fst snd];
    eexists; (split; [reflexivity|]); split; tally.
Qed.

(** What [upload] does once the probe has answered. *)
Lemma upload_after_probe {W} shapely supported (self : Dataset W) d with_lonlat
    if_exists (s : State W) present s1 :
  df self = Some d →
  run (exists_ self) s = (Return present, s1) →
  run (upload shapely supported self with_lonlat if_exists) s
  = run ((if negb present then _create_table shapely supported self with_lonlat
          else if String.eqb if_exists FAIL then raise (conflict_error self)
          else if String.eqb if_exists REPLACE
               then _create_table shapely supported self with_lonlat
          else mret ());;
         _copyfrom shapely supported self with_lonlat;;
         mret self) s1.
Proof.
  intros Hdf Hprobe. unfold upload. rewrite Hdf. by rewrite run_bind, Hprobe.
Qed.

(** [_copyfrom] on a dataframe-backed Dataset calls the bulk-copy transport
    exactly once. *)
Lemma _copyfrom_calls_transport {W} shapely supported (self : Dataset W) d names
    with_lonlat (s : State W) :
  df self = Some d → normalized_column_names self = Some names →
  count_events is_CopyFrom
    (trace (run (_copyfrom shapely supported self with_lonlat) s).2)
  = S (count_events is_CopyFrom (trace s)).
Proof.
  intros Hdf Hnames. unfold _copyfrom, self_df, self_normalized_column_names.
  rewrite Hdf, Hnames. cbn.
  destruct (copy_client_copyfrom _ _ _ _) as [r w].
  destruct (first_raise _); cbn; tally.
Qed.

(** C2 (as the code has it). For a Dataset with a dataframe, [upload] raises
    a [NameError] if and only if the probe finds the table and [if_exists] is
    'fail'; the error then names the table and is raised right after the
    probe, with no batch submitted and no bulk-copy call made.  On an existing
    table, any policy other than 'fail' and 'replace' goes straight to the
    bulk copy, and 'replace' goes to it after re-creating the table, so the
    rows are streamed unless that re-creation fails. *)
Theorem upload_conflict_policy {W} (shapely : import) (supported : list string)
    (self : Dataset W) (d : DataFrame) (with_lonlat : option (string * string))
    (if_exists : string) (s : State W) :
  df self = Some d →
  let probed := run (exists_ self) s in
  let uploaded := run (upload shapely supported self with_lonlat if_exists) s in
  ((∃ msg, uploaded.1 = Raise (NameError msg))
   ↔ probed.1 = Return true ∧ if_exists = FAIL)
  ∧ (probed.1 = Return true → if_exists = FAIL →
     uploaded = (Raise (conflict_error self), probed.2)
     ∧ count_events is_CopyFrom (trace uploaded.2) = count_events is_CopyFrom (trace s)
     ∧ count_events is_BatchSql (trace uploaded.2) = count_events is_BatchSql (trace s))
  ∧ (probed.1 = Return true → if_exists ≠ FAIL → if_exists ≠ REPLACE →
     uploaded = run (_copyfrom shapely supported self with_lonlat;; mret self) probed.2
     ∧ (∀ names, normalized_column_names self = Some names →
        count_events is_CopyFrom (trace uploaded.2)
        = S (count_events is_CopyFrom (trace s))))
  ∧ (probed.1 = Return true → if_exists = REPLACE →
     uploaded = run (_create_table shapely supported self with_lonlat;;
                     _copyfrom shapely supported self with_lonlat;;
                     mret self) probed.2).
Proof.
  intros Hdf probed uploaded. subst probed uploaded.
  destruct (exists_returns self s) as (present & Hpresent & Hcopy & Hbatch).
  destruct (run (exists_ self) s) as [r s1] eqn:Hprobe. cbn [fst snd] in *. subst r.
  rewrite (upload_after_probe _ _ _ d _ _ _ present s1 Hdf Hprobe).
  split; [|split; [|split]].
  - split.
    + intros [msg Hraise]. destruct present; cbn [negb] in Hraise.
      * destruct (String.eqb if_exists FAIL) eqn:Hfail;
          [by apply String.eqb_eq in Hfail|].
        exfalso.
        assert (Hnever : never_NameError
                  ((if String.eqb if_exists REPLACE
                    then _create_table shapely supported self with_lonlat
                    else mret ());;
                   _copyfrom shapely supported self with_lonlat;; mret self)).
        { apply never_NameError_bind.
          - destruct (String.eqb if_exists REPLACE);
              [apply _create_table_no_NameError|apply never_NameError_ret].
          - intros _. apply never_NameError_bind;
              [apply _copyfrom_no_NameError|intros; apply never_NameError_ret]. }
        destruct (run _ s1) as [r' s'] eqn:Hrun. cbn in Hraise. subst r'.
        by specialize (Hnever _ _ _ Hrun).
      * exfalso.
        assert (Hnever : never_NameError
                  (_create_table shapely supported self with_lonlat;;
                   _copyfrom shapely supported self with_lonlat;; mret self)).
        { apply never_NameError_bind; [apply _create_table_no_NameError|].
          intros _. apply never_NameError_bind;
            [apply _copyfrom_no_NameError|intros; apply never_NameError_ret]. }
        destruct (run _ s1) as [r' s'] eqn:Hrun. cbn in Hraise. subst r'.
        by specialize (Hnever _ _ _ Hrun).
    + intros [[= ->] ->]. cbn. eauto.
  - intros [= ->] ->. cbn. by rewrite Hcopy, Hbatch.
  - intros [= ->] Hfail Hreplace. cbn [negb].
    apply String.eqb_neq in Hfail, Hreplace. rewrite Hfail, Hreplace.
    split; [reflexivity|]. intros names Hnames.
    rewrite run_ret_bind.
    pose proof (_copyfrom_calls_transport shapely supported self d names
                  with_lonlat s1 Hdf Hnames) as Hcalls.
    rewrite run_bind.
    destruct (run (_copyfrom shapely supported self with_lonlat) s1) as [[u|e] s2];
      cbn in *; by rewrite Hcalls, Hcopy.
  - intros [= ->] ->. reflexivity.
Qed.

(** ** The statements on the worked service *)

(** C7 on the example Dataset: the statement built in lon/lat mode and the one
    built from the detected geometry type. *)
Lemma create_table_query_shape_witness :
  run (_create_table_query (Installed tiny_shapely) standard_geom_col_names
         (example_dataset (example_cc false (Ok example_catalog) "done"))
         (Some ("lon", "lat"))) start
  = (Return "CREATE TABLE places (id integer, name text, the_geom geometry(Point, 4326))",
     start)
  ∧ run (_create_table_query (Installed tiny_shapely) standard_geom_col_names
           (example_dataset (example_cc false (Ok example_catalog) "done")) None) start
    = (Return "CREATE TABLE places (id integer, name text, the_geom geometry(Point, 4326))",
       start).
Proof.
  destruct (create_table_query_shape (Installed tiny_shapely) standard_geom_col_names
              (example_dataset (example_cc false (Ok example_catalog) "done"))
              example_df [("id", "id"); ("name", "name")] start)
    as (Hdetected & Hlonlat & _).
  - reflexivity.
  - reflexivity.
  - repeat constructor; eexists; reflexivity.
  - split.
    + apply (Hlonlat ("lon", "lat")).
    + apply (Hdetected (Some "Point") start). vm_compute. reflexivity.
Defined.

(** C8 on the example Dataset, with a service whose jobs end as 'failed', and
    with one whose jobs end as 'done'. *)
Lemma create_table_job_status_witness :
  run (_create_table (Installed tiny_shapely) standard_geom_col_names
         (example_dataset (example_cc false (Ok example_catalog) "failed")) None) start
  = (Raise (CartoException "Cannot create table: boom."),
     {| world := 1%nat;
        trace := [BatchSql
          ("BEGIN; DROP TABLE IF EXISTS places; "
           +:+ "CREATE TABLE places (id integer, name text, the_geom geometry(Point, 4326)); "
           +:+ "SELECT CDB_CartodbfyTable('public', 'places'); COMMIT;")] |})
  ∧ (run (_create_table (Installed tiny_shapely) standard_geom_col_names
            (example_dataset (example_cc false (Ok example_catalog) "done")) None) start).1
    = Return ().
Proof.
  split.
  - destruct (create_table_job_status (Installed tiny_shapely) standard_geom_col_names
                (example_dataset (example_cc false (Ok example_catalog) "failed")) None
                start start
                "CREATE TABLE places (id integer, name text, the_geom geometry(Point, 4326))"
                {[ "status" := VStr "failed"; "failed_reason" := VStr "boom" ]} 1%nat)
      as (Hfailed & _ & _).
    + vm_compute. reflexivity.
    + reflexivity.
    + apply (Hfailed (VStr "failed") (VStr "boom"));
        [reflexivity|discriminate|reflexivity].
  - destruct (create_table_job_status (Installed tiny_shapely) standard_geom_col_names
                (example_dataset (example_cc false (Ok example_catalog) "done")) None
                start start
                "CREATE TABLE places (id integer, name text, the_geom geometry(Point, 4326))"
                {[ "status" := VStr "done"; "failed_reason" := VStr "boom" ]} 1%nat)
      as (_ & Hdone & _).
    + vm_compute. reflexivity.
    + reflexivity.
    + rewrite Hdone; reflexivity.
Defined.

(** C8 (a defect of the code). Table creation has a second path,
    [create_from_query], and it never looks at the job: against a service
    whose batch jobs end with the status 'failed' and the reason 'boom' it
    submits its batch and returns the Dataset as if the table had been
    created, where [_create_table] against the same service raises
    [CartoException] with 'Cannot create table: boom.'. *)
Lemma create_from_query_failed_job :
  let context := example_cc false (Ok example_catalog) "failed" in
  let sql := "BEGIN; DROP TABLE IF EXISTS places; "
             +:+ "CREATE TABLE places AS (SELECT * FROM source); "
             +:+ "SELECT CDB_CartodbfyTable('public', 'places'); COMMIT;" in
  batch_sql_client_create_and_wait_for_completion context sql 0%nat
  = (Ok {[ "status" := VStr "failed"; "failed_reason" := VStr "boom" ]}, 1%nat)
  ∧ run (create_from_query lower (map lower) example_reserved context
           "SELECT * FROM source" "places") start
    = (Return {| cc := context; table_name := "places"; schema := "public";
                 df := None; normalized_column_names := None |},
       {| world := 1%nat; trace := [BatchSql sql] |})
  ∧ (run (_create_table (Installed tiny_shapely) standard_geom_col_names
            (example_dataset context) None) start).1
    = Raise (CartoException "Cannot create table: boom.").
Proof.
  cbv zeta. split; [reflexivity|]. split; [reflexivity|]. vm_compute. reflexivity.
Qed.

(** C3 on a transport that is rate limited twice and then answers: with three
    attempts the read succeeds after two sleeps, with none it re-raises. *)
Lemma recursive_read_retries_on_rate_limit_witness :
  run (recursive_read (example_cc true (Ok example_catalog) "done") "SELECT 1" 3) start
  = (Return (encode "cartodb_id,name"),
     {| world := 3%nat;
        trace := [CopyToStream "SELECT 1";
                  Warn "Read call rate limited. Waiting 2 seconds"; Sleep 2;
                  Warn "Retrying...";
                  CopyToStream "SELECT 1";
                  Warn "Read call rate limited. Waiting 2 seconds"; Sleep 2;
                  Warn "Retrying...";
                  CopyToStream "SELECT 1"] |})
  ∧ run (recursive_read (example_cc true (Ok example_catalog) "done") "SELECT 1" 0) start
    = (Raise (CartoRateLimitException "You are over platform's limits" 2),
       {| world := 1%nat;
          trace := [CopyToStream "SELECT 1"; Warn exhausted_warning] |}).
Proof.
  split.
  - destruct (recursive_read_retries_on_rate_limit
                (example_cc true (Ok example_catalog) "done") "SELECT 1" 3 start)
      as (_ & _ & _ & Hscenario).
    apply (Hscenario "You are over platform's limits" "You are over platform's limits"
             1%nat 2%nat 3%nat); reflexivity.
  - destruct (recursive_read_retries_on_rate_limit
                (example_cc true (Ok example_catalog) "done") "SELECT 1" 0 start)
      as (_ & _ & Hzero & _).
    apply (Hzero "You are over platform's limits" 2%N); reflexivity.
Defined.

(** C10 on a catalog query that fails with a timeout. *)
Lemma get_table_columns_swallows_other_errors_witness :
  run (get_table_columns
         (example_dataset (example_cc true (Failed (CartoError "statement timeout")) "done")))
    start
  = (Return None,
     after_call start
       (SqlSend (catalog_query
                   (example_dataset
                      (example_cc true (Failed (CartoError "statement timeout")) "done")))
          true) 1%nat).
Proof.
  destruct (get_table_columns_swallows_other_errors
              (example_dataset
                 (example_cc true (Failed (CartoError "statement timeout")) "done"))
              start (CartoError "statement timeout") 1%nat) as [Hother _].
  - reflexivity.
  - apply Hother. discriminate.
Defined.

(** C9 on the example Dataset: a limit of 10, and a float limit, alone and
    inside [download]. *)
Lemma read_query_limit_witness :
  _get_read_query (example_dataset (example_cc true (Ok example_catalog) "done"))
    (Some example_columns) (VInt 10)
  = Return ("SELECT cartodb_id, the_geom, name FROM " +:+ dquote +:+ "public" +:+ dquote
            +:+ "." +:+ dquote +:+ "places" +:+ dquote +:+ " LIMIT 10")
  ∧ _get_read_query (example_dataset (example_cc true (Ok example_catalog) "done"))
      (Some example_columns) (VFloat "2.5" true)
    = Raise limit_error
  ∧ (run (download (example_dataset (example_cc true (Ok example_catalog) "done"))
            (VFloat "2.5" true) false) start).1
    = Raise limit_error.
Proof.
  split; [|split].
  - destruct (read_query_limit (example_dataset (example_cc true (Ok example_catalog) "done"))
                example_columns (VInt 10)) as (_ & Hint & _).
    apply Hint; [reflexivity|cbn; lia].
  - destruct (read_query_limit (example_dataset (example_cc true (Ok example_catalog) "done"))
                example_columns (VFloat "2.5" true)) as (_ & _ & Hbad).
    apply Hbad; [discriminate|by left].
  - destruct (read_query_limit (example_dataset (example_cc true (Ok example_catalog) "done"))
                example_columns (VFloat "2.5" true)) as (_ & _ & Hbad).
    destruct Hbad as [_ Hdownload]; [discriminate|by left|].
    destruct (Hdownload start
                (after_call start
                   (SqlSend (catalog_query
                               (example_dataset (example_cc true (Ok example_catalog) "done")))
                      true) 1%nat) false) as (Hrun & _).
    + vm_compute. reflexivity.
    + by rewrite Hrun.
Defined.

(** C9 as stated fails: [download] with [limit=-1] raises the input error only
    after the catalog query has been sent. *)
Lemma download_limit_counterexample :
  let self := example_dataset (example_cc true (Ok example_catalog) "done") in
  run (download self (VInt (-1)) false) start
  = (Raise limit_error, after_call start (SqlSend (catalog_query self) true) 1%nat)
  ∧ count_events is_SqlSend
      (trace (run (download self (VInt (-1)) false) start).2) = 1%nat.
Proof. cbv zeta. split; vm_compute; reflexivity. Qed.

(** C2 on the example Dataset, the table present: the policy 'fail' raises
    right after the probe, the policy 'append' streams the rows. *)
Lemma upload_conflict_policy_witness :
  run (upload (Installed tiny_shapely) standard_geom_col_names
         (example_dataset (example_cc true (Ok example_catalog) "done")) None "fail") start
  = (Raise (NameError
       ("Table with name places already exists in CARTO."
        +:+ " Please choose a different `table_name` or use if_exists="
        +:+ dquote +:+ "replace" +:+ dquote +:+ " to overwrite it")),
     after_call start
       (SqlSend ("EXPLAIN SELECT * FROM " +:+ dquote +:+ "places" +:+ dquote) false) 1%nat)
  ∧ count_events is_CopyFrom
      (trace (run (upload (Installed tiny_shapely) standard_geom_col_names
                     (example_dataset (example_cc true (Ok example_catalog) "done"))
                     None "append") start).2)
    = 1%nat.
Proof.
  split.
  - destruct (upload_conflict_policy (Installed tiny_shapely) standard_geom_col_names
                (example_dataset (example_cc true (Ok example_catalog) "done"))
                example_df None "fail" start eq_refl) as (_ & Hfail & _).
    apply Hfail; reflexivity.
  - destruct (upload_conflict_policy (Installed tiny_shapely) standard_geom_col_names
                (example_dataset (example_cc true (Ok example_catalog) "done"))
                example_df None "append" start eq_refl) as (_ & _ & Hother & _).
    destruct Hother as [_ Hstream]; [reflexivity|discriminate|discriminate|].
    apply (Hstream [("id", "id"); ("name", "name")]). reflexivity.
Defined.

(** C2 as stated fails: on an existing table with [if_exists='replace'], when
    the re-creation job fails no conflict error is raised and yet no row is
    streamed. *)
Lemma upload_replace_counterexample :
  let self := example_dataset (example_cc true (Ok example_catalog) "failed") in
  let uploaded := run (upload (Installed tiny_shapely) standard_geom_col_names
                         self None "replace") start in
  (run (exists_ self) start).1 = Return true
  ∧ uploaded.1 = Raise (CartoException "Cannot create table: boom.")
  ∧ count_events is_CopyFrom (trace uploaded.2) = 0%nat.
Proof. cbv zeta. repeat split; vm_compute; reflexivity. Qed.


(** * Further properties *)

(** ** Read retry: bounds *)

Ltac tally_run := cbn [fst snd]; tally.

Lemma recursive_read_other_error {W} (context : CartoContext W) query retry_times
    (s : State W) msg w :
  copy_client_copyto_stream context query (world s) = (Failed (CartoError msg), w) →
  run (recursive_read context query retry_times) s
  = (Raise (CartoException msg), after_call s (CopyToStream query) w).
Proof.
  intros Hcall. rewrite recursive_read_equation_1. cbn. by rewrite Hcall.
Qed.

(** X1. Whatever the transport does, [recursive_read] sleeps at most
    [retry_times] times (never, when [retry_times] is zero or negative) and
    calls the transport once more than it sleeps.  A service error that is not
    a rate limit is raised at once, after that one call, with no warning and
    no retry. *)
Theorem recursive_read_bounded {W} (context : CartoContext W) (query : string)
    (retry_times : Z) (s : State W) :
  (∃ sleeps : nat,
     (sleeps ≤ Z.to_nat retry_times)%nat
     ∧ count_events is_Sleep (trace (run (recursive_read context query retry_times) s).2)
       = (count_events is_Sleep (trace s) + sleeps)%nat
     ∧ count_events is_CopyToStream
         (trace (run (recursive_read context query retry_times) s).2)
       = (count_events is_CopyToStream (trace s) + sleeps + 1)%nat)
  ∧ (∀ msg,
       (copy_client_copyto_stream context query (world s)).1 = Failed (CartoError msg) →
       run (recursive_read context query retry_times) s
       = (Raise (CartoException msg),
          after_call s (CopyToStream query)
            (copy_client_copyto_stream context query (world s)).2)).
Proof.
  split.
  - remember (Z.to_nat retry_times) as n eqn:Hn.
    revert retry_times s Hn. induction n as [|n IH]; intros retry_times s Hn.
    + destruct (copy_client_copyto_stream context query (world s))
        as [[r|[msg|msg ra]] w] eqn:Hcall.
      * rewrite (recursive_read_success _ _ _ _ r w Hcall). exists 0%nat.
        split; [lia|]. split; tally_run.
      * rewrite (recursive_read_other_error _ _ _ _ msg w Hcall). exists 0%nat.
        split; [lia|]. split; tally_run.
      * rewrite (recursive_read_exhausted _ _ _ _ msg ra w Hcall) by lia.
        exists 0%nat. split; [lia|]. split; tally_run.
    + destruct (copy_client_copyto_stream context query (world s))
        as [[r|[msg|msg ra]] w] eqn:Hcall.
      * rewrite (recursive_read_success _ _ _ _ r w Hcall). exists 0%nat.
        split; [lia|]. split; tally_run.
      * rewrite (recursive_read_other_error _ _ _ _ msg w Hcall). exists 0%nat.
        split; [lia|]. split; tally_run.
      * rewrite (recursive_read_retry _ _ _ _ msg ra w Hcall) by lia.
        destruct (IH (retry_times - 1) 
                    (log (after_call s (CopyToStream query) w)
                       [Warn (rate_limited_warning ra); Sleep ra; Warn "Retrying..."]))
          as (k & Hk & Hsleep & Hcalls); [lia|].
        exists (S k). split; [lia|]. rewrite Hsleep, Hcalls. split; tally_run.
  - intros msg Hfail.
    destruct (copy_client_copyto_stream context query (world s)) as [r w] eqn:Hcall.
    cbn in Hfail. subst r. by apply recursive_read_other_error.
Qed.

(** X2. Against a transport that rate-limits every call, a read with
    [retry_times >= 0] gives up after exactly [retry_times] sleeps and
    [retry_times + 1] calls, raising a rate-limit error. *)
Theorem recursive_read_gives_up {W} (context : CartoContext W) (query : string)
    (retry_times : Z) (s : State W) :
  (∀ w, ∃ msg retry_after w',
     copy_client_copyto_stream context query w
     = (Failed (CartoRateLimit msg retry_after), w')) →
  0 ≤ retry_times →
  (∃ msg retry_after,
     (run (recursive_read context query retry_times) s).1
     = Raise (CartoRateLimitException msg retry_after))
  ∧ count_events is_Sleep (trace (run (recursive_read context query retry_times) s).2)
    = (count_events is_Sleep (trace s) + Z.to_nat retry_times)%nat
  ∧ count_events is_CopyToStream
      (trace (run (recursive_read context query retry_times) s).2)
    = (count_events is_CopyToStream (trace s) + Z.to_nat retry_times + 1)%nat.
Proof.
  intros Hlimited Hpos.
  remember (Z.to_nat retry_times) as n eqn:Hn.
  revert retry_times s Hn Hpos. induction n as [|n IH]; intros retry_times s Hn Hpos.
  - destruct (Hlimited (world s)) as (msg & ra & w & Hcall).
    rewrite (recursive_read_exhausted _ _ _ _ msg ra w Hcall) by lia.
    split; [eauto|]. split; tally_run.
  - destruct (Hlimited (world s)) as (msg & ra & w & Hcall).
    rewrite (recursive_read_retry _ _ _ _ msg ra w Hcall) by lia.
    destruct (IH (retry_times - 1)
                (log (after_call s (CopyToStream query) w)
                   [Warn (rate_limited_warning ra); Sleep ra; Warn "Retrying..."]))
      as (Hraise & Hsleep & Hcalls); [lia..|].
    split; [exact Hraise|]. rewrite Hsleep, Hcalls. split; tally_run.
Qed.

Lemma recursive_read_gives_up_witness :
  (∃ msg retry_after,
     (run (recursive_read always_limited_cc "SELECT 1" 3) start).1
     = Raise (CartoRateLimitException msg retry_after))
  ∧ count_events is_Sleep (trace (run (recursive_read always_limited_cc "SELECT 1" 3) start).2)
    = 3%nat
  ∧ count_events is_CopyToStream
      (trace (run (recursive_read always_limited_cc "SELECT 1" 3) start).2)
    = 4%nat.
Proof.
  apply (recursive_read_gives_up always_limited_cc "SELECT 1" 3 start).
  - intros w. by eexists _, _, _.
  - lia.
Defined.

(** ** Introspection and download: the remaining paths *)

(** X3. When the catalog query fails with the message 'Access denied',
    [get_table_columns] sends the zero-row probe as a second query: if the
    probe answers, the columns are those of its field metadata, in order; if
    the probe fails, that error is raised (only the first is handled). *)
Theorem get_table_columns_access_denied {W} (self : Dataset W) (s : State W)
    (e : carto_error) (w1 : W) :
  sql_client_send (cc self) (catalog_query self) true (world s) = (Failed e, w1) →
  str_exn (exn_of_carto e) = "Access denied" →
  let s1 := after_call s (SqlSend (catalog_query self) true) w1 in
  match sql_client_send (cc self) (zero_row_probe self) true w1 with
  | (Ok info, w2) =>
      run (get_table_columns self) s
      = (Return (Some (from_sql_api_fields (fields info))),
         after_call s1 (SqlSend (zero_row_probe self) true) w2)
  | (Failed e2, w2) =>
      run (get_table_columns self) s
      = (Raise (exn_of_carto e2), after_call s1 (SqlSend (zero_row_probe self) true) w2)
  end.
Proof.
  intros Hsend Hmsg s1. unfold get_table_columns. cbn. rewrite Hsend. cbn.
  rewrite isinstance_CartoException_of_carto.
  apply String.eqb_eq in Hmsg. rewrite Hmsg. cbn. unfold zero_row_probe.
  by destruct (sql_client_send (cc self) _ true w1) as [[info|e2] w2].
Qed.

Lemma get_table_columns_access_denied_witness :
  run (get_table_columns (example_dataset public_key_cc)) start
  = (Return (Some [ {| name := "cartodb_id"; pgtype := "number" |};
                    {| name := "name"; pgtype := "string" |} ]),
     after_call
       (after_call start (SqlSend (catalog_query (example_dataset public_key_cc)) true)
          1%nat)
       (SqlSend (zero_row_probe (example_dataset public_key_cc)) true) 2%nat).
Proof.
  apply (get_table_columns_access_denied (example_dataset public_key_cc) start
           (CartoError "Access denied") 1%nat); reflexivity.
Defined.

(** X4. When the catalog query fails with any other message, so that
    [get_table_columns] returns [None], [download] raises [TypeError] whatever
    its [limit] is, valid or not, and fetches nothing. *)
Theorem download_after_swallowed_error {W} (self : Dataset W) (s : State W)
    (e : carto_error) (w1 : W) (limit : value) (decode_geom : bool) :
  sql_client_send (cc self) (catalog_query self) true (world s) = (Failed e, w1) →
  str_exn (exn_of_carto e) ≠ "Access denied" →
  run (download self limit decode_geom) s
  = (Raise not_iterable, after_call s (SqlSend (catalog_query self) true) w1).
Proof.
  intros Hsend Hmsg. unfold download. rewrite run_bind.
  assert (Hcols : run (get_table_columns self) s
                  = (Return None, after_call s (SqlSend (catalog_query self) true) w1)).
  { unfold get_table_columns. cbn. rewrite Hsend. cbn.
    rewrite isinstance_CartoException_of_carto.
    apply String.eqb_neq in Hmsg. by rewrite Hmsg. }
  by rewrite Hcols.
Qed.

Lemma download_after_swallowed_error_witness :
  run (download
         (example_dataset (example_cc true (Failed (CartoError "statement timeout")) "done"))
         (VInt (-1)) false) start
  = (Raise not_iterable,
     after_call start
       (SqlSend (catalog_query
                   (example_dataset
                      (example_cc true (Failed (CartoError "statement timeout")) "done")))
          true) 1%nat).
Proof.
  apply (download_after_swallowed_error
           (example_dataset
              (example_cc true (Failed (CartoError "statement timeout")) "done"))
           start (CartoError "statement timeout") 1%nat (VInt (-1)) false).
  - reflexivity.
  - discriminate.
Defined.

Lemma get_table_column_names_run {W} (self : Dataset W) (s s1 : State W) cols exclude :
  run (get_table_columns self) s = (Return (Some cols), s1) →
  run (get_table_column_names self exclude) s
  = (Return match exclude with
            | Some (x :: l) =>
                elements ((list_to_set (name <$> cols) : gset string)
                          ∖ list_to_set (x :: l))
            | _ => name <$> cols
            end, s1).
Proof.
  intros Hcols. unfold get_table_column_names. rewrite run_bind, Hcols.
  by destruct exclude as [[|x l]|].
Qed.

(** X5. [get_table_column_names]: without [exclude] (or with an empty list) the
    names come in catalog order; with a non-empty list the result holds each
    name that is a column and is not excluded, once, and nothing else; when
    introspection returned [None] it raises [TypeError]. *)
Theorem get_table_column_names_spec {W} (self : Dataset W) (s s1 : State W)
    (table_columns : option (list Column)) :
  run (get_table_columns self) s = (Return table_columns, s1) →
  (table_columns = None →
     ∀ exclude, run (get_table_column_names self exclude) s = (Raise not_iterable, s1))
  ∧ (∀ cols, table_columns = Some cols →
       run (get_table_column_names self None) s = (Return (name <$> cols), s1)
       ∧ run (get_table_column_names self (Some [])) s = (Return (name <$> cols), s1)
       ∧ ∀ x l, ∃ names,
           run (get_table_column_names self (Some (x :: l))) s = (Return names, s1)
           ∧ NoDup names
           ∧ ∀ n, n ∈ names ↔ n ∈ name <$> cols ∧ n ∉ x :: l).
Proof.
  intros Hcols. split.
  - intros -> exclude. unfold get_table_column_names. by rewrite run_bind, Hcols.
  - intros cols ->. rewrite !(get_table_column_names_run self s s1 cols) by done.
    split; [done|]. split; [done|]. intros x l.
    rewrite (get_table_column_names_run self s s1 cols) by done.
    eexists. split; [reflexivity|].
    split; [apply NoDup_elements|]. intros n.
    rewrite elem_of_elements, elem_of_difference, !elem_of_list_to_set. done.
Qed.

Lemma get_table_column_names_spec_witness :
  run (get_table_column_names
         (example_dataset (example_cc true (Ok example_catalog) "done")) None) start
  = (Return ["cartodb_id"; "the_geom"; "the_geom_webmercator"; "name"],
     after_call start
       (SqlSend (catalog_query
                   (example_dataset (example_cc true (Ok example_catalog) "done")))
          true) 1%nat)
  ∧ ∃ names,
      run (get_table_column_names
             (example_dataset (example_cc true (Ok example_catalog) "done"))
             (Some ["the_geom"; "the_geom_webmercator"])) start
      = (Return names,
         after_call start
           (SqlSend (catalog_query
                       (example_dataset (example_cc true (Ok example_catalog) "done")))
              true) 1%nat)
      ∧ NoDup names
      ∧ ∀ n, n ∈ names
             ↔ n ∈ ["cartodb_id"; "the_geom"; "the_geom_webmercator"; "name"]
               ∧ n ∉ ["the_geom"; "the_geom_webmercator"].
Proof.
  destruct (get_table_column_names_spec
              (example_dataset (example_cc true (Ok example_catalog) "done")) start
              (after_call start
                 (SqlSend (catalog_query
                             (example_dataset
                                (example_cc true (Ok example_catalog) "done")))
                    true) 1%nat)
              (Some example_columns)) as [_ Hsome].
  - reflexivity.
  - destruct (Hsome example_columns eq_refl) as (Hall & _ & Hexcl).
    split; [exact Hall|]. apply (Hexcl "the_geom" ["the_geom_webmercator"]).
Defined.

(** ** Delete, create-from-query and the effects of upload *)

(** X6. [delete]: when the probe fails, for whatever reason, it returns false
    and sends no DROP; when the probe succeeds it sends
    [DROP TABLE  <table>] (without IF EXISTS), returns true when that
    succeeds, and raises the service's error when it fails. *)
Theorem delete_outcomes {W} (self : Dataset W) (s : State W) :
  match sql_client_send (cc self) (probe_query self) false (world s) with
  | (Failed e, w) =>
      run (delete self) s
      = (Return false,
         log (after_call s (SqlSend (probe_query self) false) w)
             [DebugPrint (exn_of_carto e)])
  | (Ok _, w) =>
      let s1 := after_call s (SqlSend (probe_query self) false) w in
      let drop := "DROP TABLE  " +:+ table_name self in
      match sql_client_send (cc self) drop true w with
      | (Ok _, w2) =>
          run (delete self) s = (Return true, after_call s1 (SqlSend drop true) w2)
      | (Failed e, w2) =>
          run (delete self) s
          = (Raise (exn_of_carto e), after_call s1 (SqlSend drop true) w2)
      end
  end.
Proof.
  unfold delete. rewrite run_bind. pose proof (exists_cases self s) as Hprobe.
  destruct (sql_client_send (cc self) (probe_query self) false (world s))
    as [[info|e] w]; rewrite Hprobe; [|reflexivity].
  cbn. unfold _drop_table_query. cbn.
  by destruct (sql_client_send (cc self) _ true w) as [[info'|e] w2].
Qed.

(** X7. [create_from_query] never looks at the job: whatever the batch job
    reports, a failed status included, it returns the Dataset, named by the
    normalized table name, after one batch submission (and a warning when
    normalization changed the name). *)
Theorem create_from_query_ignores_status {W} (normalize_name : string → string)
    (normalize_names : list string → list string) (reserved : list string)
    (context : CartoContext W) (query table : string) (s : State W)
    (job : gmap string value) (w : W) :
  let dataset := {| cc := context; table_name := normalize_name table;
                    schema := "public"; df := None;
                    normalized_column_names := None |} in
  let sql := "BEGIN; " +:+ _drop_table_query dataset true +:+ "; "
             +:+ _create_table_from_query dataset query
             +:+ "; " +:+ _cartodbfy_query dataset +:+ "; COMMIT;" in
  let warned := if bool_decide (normalize_name table ≠ table)
                then log s [Warn ("Table will be named `" +:+ table +:+ "`")]
                else s in
  batch_sql_client_create_and_wait_for_completion context sql (world s) = (Ok job, w) →
  run (create_from_query normalize_name normalize_names reserved context query table) s
  = (Return dataset, after_call warned (BatchSql sql) w).
Proof.
  intros dataset sql warned Hjob. unfold create_from_query, __init__. cbn.
  subst warned. destruct (bool_decide (normalize_name table ≠ table)); cbn;
    fold dataset; fold sql; by rewrite Hjob.
Qed.

Lemma create_from_query_ignores_status_witness :
  run (create_from_query lower (map lower) example_reserved
         (example_cc false (Ok example_catalog) "failed")
         "SELECT * FROM source" "Places") start
  = (Return {| cc := example_cc false (Ok example_catalog) "failed";
               table_name := "places"; schema := "public"; df := None;
               normalized_column_names := None |},
     after_call (log start [Warn "Table will be named `Places`"])
       (BatchSql ("BEGIN; DROP TABLE IF EXISTS places; "
                  +:+ "CREATE TABLE places AS (SELECT * FROM source); "
                  +:+ "SELECT CDB_CartodbfyTable('public', 'places'); COMMIT;"))
       1%nat).
Proof.
  apply (create_from_query_ignores_status lower (map lower) example_reserved
           (example_cc false (Ok example_catalog) "failed")
           "SELECT * FROM source" "Places" start
           {[ "status" := VStr "failed"; "failed_reason" := VStr "boom" ]} 1%nat).
  reflexivity.
Defined.

Lemma exists_effects {W} (self : Dataset W) (s : State W) :
  ∃ present,
    (run (exists_ self) s).1 = Return present
    ∧ count_events is_SqlSend (trace (run (exists_ self) s).2)
      = S (count_events is_SqlSend (trace s))
    ∧ count_events is_CopyFrom (trace (run (exists_ self) s).2)
      = count_events is_CopyFrom (trace s)
    ∧ count_events is_BatchSql (trace (run (exists_ self) s).2)
      = count_events is_BatchSql (trace s).
Proof.
  pose proof (exists_cases self s) as H.
  destruct (sql_client_send _ _ _ _) as [[r|e] w]; rewrite H; cbn [fst snd];
    eexists; (split; [reflexivity|]); repeat split; tally.
Qed.

Lemma _create_table_effect_counts {W} shapely supported (self : Dataset W)
    with_lonlat (s : State W) r s1 :
  run (_create_table shapely supported self with_lonlat) s = (r, s1) →
  count_events is_SqlSend (trace s1) = count_events is_SqlSend (trace s)
  ∧ count_events is_CopyFrom (trace s1) = count_events is_CopyFrom (trace s)
  ∧ (count_events is_BatchSql (trace s1) ≤ S (count_events is_BatchSql (trace s)))%nat
  ∧ (∀ u, r = Return u →
       count_events is_BatchSql (trace s1) = S (count_events is_BatchSql (trace s))).
Proof.
  unfold _create_table. rewrite run_bind.
  destruct (run (_create_table_query shapely supported self with_lonlat) s)
    as [[create|e] s0] eqn:Hq;
    destruct (_create_table_query_effects _ _ _ _ _ _ _ Hq) as [->| ->].
  1,2: cbn;
    destruct (batch_sql_client_create_and_wait_for_completion _ _ _) as [[job|ce] w];
    cbn; [|intros [= <- <-]; repeat split; try done; tally];
    destruct (job_getitem job "status") as [status|e]; cbn;
      [|intros [= <- <-]; repeat split; try done; tally];
    destruct (bool_decide (status ≠ VStr "done")); cbn;
      [|intros [= <- <-]; repeat split; try done; tally];
    destruct (job_getitem job "failed_reason"); cbn;
      intros [= <- <-]; repeat split; try done; tally.
  1,2: intros [= <- <-]; repeat split; try done; tally.
Qed.

Lemma _copyfrom_effect_counts {W} shapely supported (self : Dataset W)
    with_lonlat (s : State W) r s1 :
  run (_copyfrom shapely supported self with_lonlat) s = (r, s1) →
  count_events is_SqlSend (trace s1) = count_events is_SqlSend (trace s)
  ∧ count_events is_BatchSql (trace s1) = count_events is_BatchSql (trace s)
  ∧ (count_events is_CopyFrom (trace s1) ≤ S (count_events is_CopyFrom (trace s)))%nat
  ∧ (∀ u, r = Return u →
       count_events is_CopyFrom (trace s1) = S (count_events is_CopyFrom (trace s))).
Proof.
  unfold _copyfrom, self_df, self_normalized_column_names.
  destruct (df self) as [d|]; cbn;
    [|intros [= <- <-]; repeat split; try done; lia].
  destruct (normalized_column_names self) as [names|]; cbn;
    [|intros [= <- <-]; repeat split; try done; lia].
  destruct (copy_client_copyfrom _ _ _ _) as [reply w].
  destruct (first_raise _); cbn; intros [= <- <-]; repeat split; try done; tally.
Qed.

(** X8. The effects of [upload], on every path: without a dataframe it raises
    [ValueError] and does nothing; with one it sends exactly one query (the
    probe), submits at most one batch and calls the bulk copy at most once;
    and when it returns, it returns the Dataset itself, after exactly one bulk
    copy call. *)
Theorem upload_effects {W} (shapely : import) (supported : list string)
    (self : Dataset W) (with_lonlat : option (string * string)) (if_exists : string)
    (s : State W) :
  let out := run (upload shapely supported self with_lonlat if_exists) s in
  (df self = None →
     out = (Raise (ValueError
              "You have to create a `Dataset` with a pandas DataFrame in order to upload it to CARTO"),
            s))
  ∧ (df self ≠ None →
     count_events is_SqlSend (trace out.2) = S (count_events is_SqlSend (trace s)))
  ∧ (count_events is_BatchSql (trace out.2) ≤ S (count_events is_BatchSql (trace s)))%nat
  ∧ (count_events is_CopyFrom (trace out.2) ≤ S (count_events is_CopyFrom (trace s)))%nat
  ∧ (∀ x, out.1 = Return x →
       x = self
       ∧ count_events is_CopyFrom (trace out.2) = S (count_events is_CopyFrom (trace s))).
Proof.
  cbv zeta. destruct (df self) as [d|] eqn:Hdf.
  2:{ unfold upload. rewrite Hdf. cbn. repeat split; try done; lia. }
  destruct (exists_effects self s) as (present & Hpresent & Hsend & Hcopy & Hbatch).
  destruct (run (exists_ self) s) as [r0 s1] eqn:Hprobe. cbn [fst snd] in *. subst r0.
  rewrite (upload_after_probe _ _ _ d _ _ _ present s1 Hdf Hprobe).
  rewrite run_bind.
  assert (Hfirst : ∀ r s2,
    run (if negb present then _create_table shapely supported self with_lonlat
         else if String.eqb if_exists FAIL then raise (conflict_error self)
         else if String.eqb if_exists REPLACE
              then _create_table shapely supported self with_lonlat
         else mret ()) s1 = (r, s2) →
    count_events is_SqlSend (trace s2) = count_events is_SqlSend (trace s1)
    ∧ count_events is_CopyFrom (trace s2) = count_events is_CopyFrom (trace s1)
    ∧ (count_events is_BatchSql (trace s2) ≤ S (count_events is_BatchSql (trace s1)))%nat).
  { intros r s2. destruct present; cbn [negb].
    - destruct (String.eqb if_exists FAIL); [intros [= <- <-]; repeat split; lia|].
      destruct (String.eqb if_exists REPLACE); [|intros [= <- <-]; repeat split; lia].
      intros Hrun. apply _create_table_effect_counts in Hrun. tauto.
    - intros Hrun. apply _create_table_effect_counts in Hrun. tauto. }
  destruct (run (if negb present then _ else _) s1) as [[u|e] s2] eqn:Hbranch;
    destruct (Hfirst _ _ eq_refl) as (Hs2 & Hc2 & Hb2).
  - rewrite run_bind.
    destruct (run (_copyfrom shapely supported self with_lonlat) s2) as [[u'|e] s3]
      eqn:Hcopyrun;
      destruct (_copyfrom_effect_counts _ _ _ _ _ _ _ Hcopyrun)
        as (Hs3 & Hb3 & Hc3 & Hret); cbn [fst snd run mret M_ret].
    + specialize (Hret u' eq_refl). cbn.
      split; [done|]. split; [intros _; lia|]. split; [lia|]. split; [lia|].
      intros x [= <-]. split; [done|lia].
    + split; [done|]. split; [intros _; lia|]. split; [lia|]. split; [lia|]. done.
  - cbn [fst snd]. split; [done|]. split; [intros _; lia|]. split; [lia|].
    split; [lia|]. done.
Qed.

(** X9. When the probe does not find the table, [if_exists] plays no part:
    [upload] does the same under any two policies ('fail' included). *)
Theorem upload_absent_ignores_policy {W} (shapely : import) (supported : list string)
    (self : Dataset W) (with_lonlat : option (string * string))
    (if_exists if_exists' : string) (s : State W) :
  (run (exists_ self) s).1 = Return false →
  run (upload shapely supported self with_lonlat if_exists) s
  = run (upload shapely supported self with_lonlat if_exists') s.
Proof.
  intros Hprobe. unfold upload. destruct (df self); [|reflexivity].
  rewrite !run_bind. destruct (run (exists_ self) s) as [r s1].
  cbn in Hprobe. by subst r.
Qed.

Lemma upload_absent_ignores_policy_witness :
  run (upload (Installed tiny_shapely) standard_geom_col_names
         (example_dataset (example_cc false (Ok example_catalog) "done")) None "fail")
    start
  = run (upload (Installed tiny_shapely) standard_geom_col_names
           (example_dataset (example_cc false (Ok example_catalog) "done")) None
           "append") start.
Proof.
  apply (upload_absent_ignores_policy (Installed tiny_shapely) standard_geom_col_names
           (example_dataset (example_cc false (Ok example_catalog) "done")) None
           "fail" "append" start).
  reflexivity.
Defined.

(** ** Geometry decoding and detection *)

(** X10. Decoding is idempotent: whatever [_decode_geom] returns, decoding that
    again returns it unchanged, with no library call. *)
Theorem decode_geom_idempotent (shapely : import) (ewkb r : value) :
  (_decode_geom shapely ewkb).2 = Return r →
  _decode_geom shapely r = ([], Return r).
Proof.
  intros Hdec. destruct (hasattr_geom_type ewkb) eqn:Hattr.
  - unfold _decode_geom, _encode_decode_decorator, _decode_geom_func in Hdec.
    rewrite Hattr in Hdec. cbn in Hdec. injection Hdec as <-.
    unfold _decode_geom, _encode_decode_decorator, _decode_geom_func.
    by rewrite Hattr.
  - destruct shapely as [lib|err].
    + destruct (decode_returns _ _ _ Hdec) as [->|[g ->]]; reflexivity.
    + unfold _decode_geom, _encode_decode_decorator, _decode_geom_func in Hdec.
      by rewrite Hattr in Hdec.
Qed.

Lemma decode_geom_idempotent_witness :
  _decode_geom (Installed tiny_shapely) (VGeom point_1_2)
  = ([], Return (VGeom point_1_2)).
Proof.
  apply (decode_geom_idempotent (Installed tiny_shapely) (VStr point_1_2_hex)).
  vm_compute. reflexivity.
Defined.

Lemma first_success_None lib ewkb order :
  (first_success lib ewkb order).2 = Return VNone →
  Forall (λ a, ∃ e, run_attempt lib a ewkb = Raise e) order.
Proof.
  induction order as [|a rest IH]; cbn [first_success]; [intros _; constructor|].
  destruct (run_attempt lib a ewkb) as [g|e] eqn:Ha; cbn [fst snd]; [done|].
  intros Hrest. constructor; [by exists e|by apply IH].
Qed.

Lemma first_success_geometry lib ewkb order g :
  (first_success lib ewkb order).2 = Return (VGeom g) →
  ∃ failed a,
    (first_success lib ewkb order).1 = failed ++ [a]
    ∧ run_attempt lib a ewkb = Return g
    ∧ Forall (λ b, ∃ e, run_attempt lib b ewkb = Raise e) failed.
Proof.
  induction order as [|a rest IH]; cbn [first_success]; [done|].
  destruct (run_attempt lib a ewkb) as [g'|e] eqn:Ha; cbn [fst snd].
  - intros [= ->]. by exists [], a.
  - intros Hrest. destruct (IH Hrest) as (failed & b & Hcalls & Hb & Hfailed).
    exists (a :: failed), b. rewrite Hcalls. split; [done|]. split; [done|].
    constructor; eauto.
Qed.

(** X11. For a truthy input that is no geometry object, with shapely
    installed: [_decode_geom] returns [None] exactly when all five attempts
    raise; and a geometry it returns is the one produced by the last call it
    made, every call before that one having raised. *)
Theorem decode_geom_result_sound (lib : Shapely) (ewkb : value) :
  hasattr_geom_type ewkb = false → truthy ewkb = true →
  ((_decode_geom (Installed lib) ewkb).2 = Return VNone
   ↔ Forall (λ a, ∃ e, run_attempt lib a ewkb = Raise e) decode_order)
  ∧ (∀ g, (_decode_geom (Installed lib) ewkb).2 = Return (VGeom g) →
       ∃ failed a,
         (_decode_geom (Installed lib) ewkb).1 = failed ++ [a]
         ∧ run_attempt lib a ewkb = Return g
         ∧ Forall (λ b, ∃ e, run_attempt lib b ewkb = Raise e) failed).
Proof.
  intros Hattr Htruthy. rewrite decode_installed by done. rewrite Htruthy.
  split; [split|].
  - apply first_success_None.
  - intros Hall. by rewrite first_success_all_raise.
  - intros g. apply first_success_geometry.
Qed.

Lemma decode_geom_result_sound_witness :
  ∃ failed a,
    (_decode_geom (Installed tiny_shapely) (VStr "POINT (1 2)")).1 = failed ++ [a]
    ∧ run_attempt tiny_shapely a (VStr "POINT (1 2)") = Return point_1_2
    ∧ Forall (λ b, ∃ e, run_attempt tiny_shapely b (VStr "POINT (1 2)") = Raise e) failed.
Proof.
  destruct (decode_geom_result_sound tiny_shapely (VStr "POINT (1 2)")) as [_ Hgeom].
  - reflexivity.
  - reflexivity.
  - apply (Hgeom point_1_2). vm_compute. reflexivity.
Defined.

(** X12. [_get_geom_col_name]: a [_geometry_column_name] attribute wins, column
    or not; without it the result is the first column whose lower-cased name
    is a supported geometry name, and [None] when there is none. *)
Theorem get_geom_col_name_spec (supported : list string) (d : DataFrame) :
  (∀ g, _geometry_column_name d = Some g → _get_geom_col_name supported d = Some g)
  ∧ (_geometry_column_name d = None →
     (∀ c, _get_geom_col_name supported d = Some c
           ↔ ∃ before after,
               columns d = before ++ c :: after
               ∧ lower c ∈ supported
               ∧ Forall (λ x, lower x ∉ supported) before)
     ∧ (_get_geom_col_name supported d = None
        ↔ Forall (λ x, lower x ∉ supported) (columns d))).
Proof.
  split; [by intros g Hg; unfold _get_geom_col_name; rewrite Hg|].
  intros Hattr. unfold _get_geom_col_name. rewrite Hattr.
  generalize (columns d). intros cols.
  assert (Hfirst : ∀ c, head (filter (λ x, lower x ∈ supported) cols) = Some c
            ↔ ∃ before after, cols = before ++ c :: after ∧ lower c ∈ supported
                              ∧ Forall (λ x, lower x ∉ supported) before).
  { intros c. induction cols as [|x cols IH].
    - split; [done|]. intros (before & after & Hnil & _). by destruct before.
    - rewrite filter_cons. destruct (decide (lower x ∈ supported)) as [Hin|Hnin].
      + cbn. split.
        * intros [= ->]. by exists [], cols.
        * intros (before & after & Heq & Hc & Hbefore). destruct before as [|y before].
          -- by injection Heq as -> _.
          -- injection Heq as -> _. by apply Forall_cons in Hbefore as [Hy _].
      + rewrite IH. split.
        * intros (before & after & -> & Hc & Hbefore).
          exists (x :: before), after. split; [done|]. split; [done|].
          by constructor.
        * intros (before & after & Heq & Hc & Hbefore). destruct before as [|y before].
          -- injection Heq as -> _. done.
          -- injection Heq as -> ->. apply Forall_cons in Hbefore as [_ Hbefore].
             by exists before, after. }
  split; [exact Hfirst|].
  split.
  - intros Hnone. apply Forall_forall. intros x Hx Hin.
    apply list_elem_of_split in Hx as (l1 & l2 & ->).
    assert (Hsome : filter (λ x, lower x ∈ supported) (l1 ++ x :: l2) ≠ []).
    { rewrite filter_app, filter_cons, decide_True by done.
      by destruct (filter _ l1). }
    by destruct (filter _ (l1 ++ x :: l2)).
  - intros Hall. induction Hall as [|x cols Hx _ IH]; [done|].
    rewrite filter_cons, decide_False by done. apply IH.
    intros c. specialize (Hfirst c). rewrite filter_cons, decide_False in Hfirst by done.
    rewrite Hfirst. split.
    + intros (before & after & Heq & Hc & Hbefore). destruct before as [|y before].
      * injection Heq as -> _. done.
      * injection Heq as -> ->. apply Forall_cons in Hbefore as [_ Hbefore].
        by exists before, after.
    + intros (before & after & -> & Hc & Hbefore).
      exists (x :: before), after. split; [done|]. split; [done|]. by constructor.
Qed.

Lemma df_getitem_cells d col :
  col ∈ columns d →
  Forall (λ row : gmap string value, is_Some (row !! col)) (iterrows d) →
  df_getitem d col = Return ((λ row, cell row col) <$> iterrows d).
Proof.
  intros Hcol Hrows. unfold df_getitem. rewrite bool_decide_true by done.
  apply mapM_Return. eapply Forall_impl; [exact Hrows|].
  intros row [v Hv]. unfold row_getitem, cell. by rewrite Hv.
Qed.

Lemma filter_not_null_all_null (cells : list value) :
  Forall (λ v, pd_isnull v = true) cells →
  filter (λ v, pd_isnull v = false) cells = [].
Proof.
  induction 1 as [|v cells Hv _ IH]; [done|].
  rewrite filter_cons, decide_False; [done|]. by rewrite Hv.
Qed.

Lemma filter_not_null_first (before after : list value) v :
  Forall (λ v, pd_isnull v = true) before → pd_isnull v = false →
  filter (λ v, pd_isnull v = false) (before ++ v :: after)
  = v :: filter (λ v, pd_isnull v = false) after.
Proof.
  intros Hbefore Hv. rewrite filter_app, filter_not_null_all_null by done.
  by rewrite filter_cons, decide_True.
Qed.

Lemma _first_not_null_value_all_null (d : DataFrame) (col : string) :
  col ∈ columns d →
  Forall (λ row : gmap string value, is_Some (row !! col)) (iterrows d) →
  Forall (λ v, pd_isnull v = true) ((λ row, cell row col) <$> iterrows d) →
  _first_not_null_value d col
  = Raise (IndexError "single positional indexer is out-of-bounds").
Proof.
  intros Hcol Hrows Hnull. unfold _first_not_null_value.
  rewrite (df_getitem_cells d col Hcol Hrows). cbn [mbind result_bind].
  by rewrite filter_not_null_all_null.
Qed.

Lemma _first_not_null_value_first (d : DataFrame) (col : string) before v after :
  col ∈ columns d →
  Forall (λ row : gmap string value, is_Some (row !! col)) (iterrows d) →
  (λ row, cell row col) <$> iterrows d = before ++ v :: after →
  Forall (λ v, pd_isnull v = true) before → pd_isnull v = false →
  _first_not_null_value d col = Return v.
Proof.
  intros Hcol Hrows Hcells Hbefore Hv. unfold _first_not_null_value.
  rewrite (df_getitem_cells d col Hcol Hrows). cbn [mbind result_bind].
  by rewrite Hcells, filter_not_null_first.
Qed.

(** X13. [_first_not_null_value(df, col)], for a column of the frame: it
    returns the first cell of the column that is not null, and raises
    [IndexError] when every cell is null (an empty frame included).  For a
    label that is no column it raises [KeyError]. *)
Theorem first_not_null_value_spec (d : DataFrame) (col : string) :
  (col ∉ columns d → _first_not_null_value d col = Raise (KeyError col))
  ∧ (col ∈ columns d →
     Forall (λ row : gmap string value, is_Some (row !! col)) (iterrows d) →
     let cells := (λ row, cell row col) <$> iterrows d in
     (Forall (λ v, pd_isnull v = true) cells →
        _first_not_null_value d col
        = Raise (IndexError "single positional indexer is out-of-bounds"))
     ∧ (∀ before v after,
          cells = before ++ v :: after →
          Forall (λ v, pd_isnull v = true) before → pd_isnull v = false →
          _first_not_null_value d col = Return v)).
Proof.
  split.
  - intros Hcol. unfold _first_not_null_value, df_getitem.
    by rewrite bool_decide_false.
  - intros Hcol Hrows cells. split.
    + by apply _first_not_null_value_all_null.
    + intros before v after. by apply _first_not_null_value_first.
Qed.

(** X14. [_get_geom_col_type]: with no geometry column it returns [None]
    silently; with a geometry column whose cells are all null it returns
    [None] after the warning 'Dataset with null geometries' (the [IndexError]
    is not raised); otherwise the first non-null cell alone decides: a
    geometry object gives its [geom_type], a value that decodes to [None]
    gives [None] without warning, and a decode error is raised.  The service
    is never called. *)
Theorem get_geom_col_type_cases {W} (shapely : import) (supported : list string)
    (d : DataFrame) (s : State W) :
  (_get_geom_col_name supported d = None →
     run (_get_geom_col_type shapely supported d) s = (Return None, s))
  ∧ (∀ geom_col,
       _get_geom_col_name supported d = Some geom_col →
       geom_col ∈ columns d →
       Forall (λ row : gmap string value, is_Some (row !! geom_col)) (iterrows d) →
       let cells := (λ row, cell row geom_col) <$> iterrows d in
       (Forall (λ v, pd_isnull v = true) cells →
          run (_get_geom_col_type shapely supported d) s
          = (Return None, log s [Warn "Dataset with null geometries"]))
       ∧ (∀ before v after,
            cells = before ++ v :: after →
            Forall (λ v, pd_isnull v = true) before → pd_isnull v = false →
            (∀ g, v = VGeom g →
               run (_get_geom_col_type shapely supported d) s
               = (Return (Some (geom_type g)), s))
            ∧ (∀ g, (_decode_geom shapely v).2 = Return (VGeom g) →
                 run (_get_geom_col_type shapely supported d) s
                 = (Return (Some (geom_type g)), s))
            ∧ ((_decode_geom shapely v).2 = Return VNone →
               run (_get_geom_col_type shapely supported d) s = (Return None, s))
            ∧ (∀ e, (_decode_geom shapely v).2 = Raise e →
                 run (_get_geom_col_type shapely supported d) s = (Raise e, s)))).
Proof.
  split.
  - intros Hnone. unfold _get_geom_col_type. by rewrite Hnone.
  - intros geom_col Hcol Hin Hrows cells.
    pose proof (_first_not_null_value_all_null d geom_col Hin Hrows) as Hnull.
    pose proof (λ before v after,
                  _first_not_null_value_first d geom_col before v after Hin Hrows)
      as Hfirst.
    fold cells in Hnull, Hfirst. split.
    + intros Hall. unfold _get_geom_col_type. rewrite Hcol. cbn.
      by rewrite (Hnull Hall).
    + intros before v after Hcells Hbefore Hv.
      assert (Hrun : ∀ r, (_decode_geom shapely v).2 = r →
                run (_get_geom_col_type shapely supported d) s
                = match r with
                  | Return VNone => (Return None, s)
                  | Return (VGeom g) => (Return (Some (geom_type g)), s)
                  | Return _ => (Raise (AttributeError "geom_type"), s)
                  | Raise e => (Raise e, s)
                  end).
      { intros r Hr. unfold _get_geom_col_type. rewrite Hcol. cbn.
        rewrite (Hfirst before v after Hcells Hbefore Hv). cbn. rewrite Hr.
        destruct r as [[]|e]; cbn; try reflexivity.
        destruct (decode_raises _ _ _ Hr) as (err & _ & _ & ->). reflexivity. }
      split; [|split; [|split]].
      * intros g ->. by rewrite (Hrun _ eq_refl).
      * intros g Hg. by rewrite (Hrun _ Hg).
      * intros Hg. by rewrite (Hrun _ Hg).
      * intros e He. by rewrite (Hrun _ He).
Qed.

(** ** Row serialization: lon/lat mode, and the COPY column list *)

Lemma pipe_fields_filter row geom_col cols :
  pipe_fields row geom_col cols
  = pipe_fields row None (filter (λ c, Some c ≠ geom_col) cols).
Proof.
  induction cols as [|c cols IH]; [reflexivity|].
  cbn [pipe_fields]. rewrite filter_cons.
  destruct (decide (Some c = geom_col)) as [Heq|Hne].
  - rewrite bool_decide_true, decide_False by (done || by intros H; apply H).
    by rewrite IH.
  - rewrite bool_decide_false, decide_True by done. cbn [pipe_fields].
    rewrite (bool_decide_false (Some c = None)) by done. by rewrite IH.
Qed.

Lemma filter_all {A} (P : A → Prop) `{∀ x, Decision (P x)} (l : list A) :
  Forall P l → filter P l = l.
Proof.
  induction 1 as [|x l Hx _ IH]; [done|]. by rewrite filter_cons, decide_True, IH.
Qed.

(** X15. In lon/lat mode, for a row whose geometry column (if any) bears a
    supported geometry name: the columns with supported geometry names are
    not written at all, whatever they hold; the other columns are written in
    order; and the point field [SRID=4326;POINT(<lon> <lat>)] follows exactly
    when both the lon and the lat column are among the columns looked at and
    neither cell is [None].  A NaN cell counts as present and is written as
    [nan]. *)
Theorem rows_line_lonlat (shapely : import) (supported : list string)
    (row : gmap string value) (cols : list string) (lon_col lat_col : string)
    (geom_col : option string) :
  let looked := kept supported (Some (lon_col, lat_col)) cols in
  let lng := picked VNone row (Some lon_col) looked in
  let lat := picked VNone row (Some lat_col) looked in
  Forall (λ c, is_Some (row !! c)) looked →
  (geom_col = None ∨ ∃ g, geom_col = Some g ∧ g ∈ supported) →
  _rows_line shapely supported row cols (Some (lon_col, lat_col)) geom_col
  = Return (encode (pipe_fields row None looked
                    +:+ (if negb (is_None lng) && negb (is_None lat)
                         then lonlat_field lng lat else EmptyString)
                    +:+ nl))
  ∧ Forall (λ c, c ∉ supported) looked
  ∧ (lon_col ∉ looked → lng = VNone)
  ∧ (lat_col ∉ looked → lat = VNone)
  ∧ (lon_col ∈ looked → lng = cell row lon_col)
  ∧ (lat_col ∈ looked → lat = cell row lat_col).
Proof.
  intros looked lng lat Hrow Hgeom.
  assert (Hlooked : Forall (λ c, c ∉ supported) looked).
  { subst looked. cbn [kept]. apply Forall_forall. intros c Hc.
    by apply list_elem_of_filter in Hc as [Hc _]. }
  split; [|split; [done|]].
  - pose proof (_rows_line_closed_form shapely supported row cols
                  (Some (lon_col, lat_col)) geom_col Hrow) as Hline.
    cbv zeta in Hline. rewrite Hline. clear Hline. fold looked.
    assert (Hpicked : picked VNone row geom_col looked = VNone).
    { destruct Hgeom as [->|(g & -> & Hg)]; [done|]. cbn [picked].
      rewrite bool_decide_false; [done|]. intros Hin.
      by apply (proj1 (Forall_forall _ _) Hlooked g Hin). }
    rewrite Hpicked. cbn [is_None negb mbind result_bind fmap option_fmap option_map fst snd].
    fold lng lat. rewrite (bool_decide_true (is_Some _)) by eauto. cbn [andb].
    assert (Hfields : pipe_fields row geom_col looked = pipe_fields row None looked).
    { rewrite pipe_fields_filter. f_equal. apply filter_all.
      eapply Forall_impl; [exact Hlooked|]. intros c Hc.
      destruct Hgeom as [->|(g & -> & Hg)]; [done|]. intros [= ->]. done. }
    rewrite Hfields.
    destruct (negb (is_None lng) && negb (is_None lat));
      by rewrite ?append_assoc.
  - subst lng lat. cbn [picked].
    split; [intros H; by rewrite bool_decide_false|].
    split; [intros H; by rewrite bool_decide_false|].
    split; intros H; by rewrite bool_decide_true.
Qed.

Lemma rows_line_lonlat_witness :
  _rows_line (Installed tiny_shapely) standard_geom_col_names example_lonlat_row
    ["lon"; "lat"] (Some ("lon", "lat")) None
  = Return (encode ("3|4|SRID=4326;POINT(3 4)" +:+ nl)).
Proof.
  destruct (rows_line_lonlat (Installed tiny_shapely) standard_geom_col_names
              example_lonlat_row ["lon"; "lat"] "lon" "lat" None) as [Hline _].
  - repeat constructor; eexists; reflexivity.
  - by left.
  - exact Hline.
Defined.

Lemma zip_with_snd_fst (origs norms : list string) :
  length norms = length origs →
  (zip_with (λ orig norm : string, (norm, orig)) origs norms).*2 = origs
  ∧ (zip_with (λ orig norm : string, (norm, orig)) origs norms).*1 = norms.
Proof.
  revert norms. induction origs as [|o origs IH]; intros [|n norms] Hlen;
    try done. cbn in *. destruct (IH norms) as [-> ->]; [lia|done].
Qed.

Lemma zip_with_originals (origs norms : list string) :
  Forall (λ p : string * string, p.2 ∈ origs)
    (zip_with (λ orig norm : string, (norm, orig)) origs norms).
Proof.
  revert norms. induction origs as [|o origs IH]; intros [|n norms]; cbn;
    try constructor.
  - cbn. apply list_elem_of_here.
  - eapply Forall_impl; [apply IH|]. intros p Hp. by apply list_elem_of_further.
Qed.

Lemma filter_length_lt {A} (P Q : A → Prop) `{∀ x, Decision (P x)}
    `{∀ x, Decision (Q x)} (l : list A) x :
  (∀ y, P y → Q y) → x ∈ l → Q x → ¬ P x →
  (length (filter P l) < length (filter Q l))%nat.
Proof.
  intros HPQ Hin HQ HnP.
  assert (Hle : ∀ l', (length (filter P l') ≤ length (filter Q l'))%nat).
  { induction l' as [|y l' IH]; [done|]. rewrite !filter_cons.
    destruct (decide (P y)) as [HP|HP].
    - rewrite decide_True by auto. cbn. lia.
    - destruct (decide (Q y)); cbn; lia. }
  induction l as [|y l IH]; [by apply elem_of_nil in Hin|].
  rewrite !filter_cons. apply elem_of_cons in Hin as [<-|Hin].
  - rewrite decide_False, decide_True by done. cbn. specialize (Hle l). lia.
  - specialize (IH Hin). destruct (decide (P y)) as [HP|HP].
    + rewrite decide_True by auto. cbn. lia.
    + destruct (decide (Q y)); cbn; lia.
Qed.


Lemma _rows_line_shape shapely supported row cols with_lonlat geom_col :
  Forall (λ c, is_Some (row !! c)) (kept supported with_lonlat cols) →
  (∃ e err, _rows_line shapely supported row cols with_lonlat geom_col = Raise e
            ∧ shapely = Missing err)
  ∨ ∃ line,
      _rows_line shapely supported row cols with_lonlat geom_col = Return line
      ∧ fields_line row
          (filter (λ c, Some c ≠ geom_col) (kept supported with_lonlat cols)) line.
Proof.
  intros Hrow.
  pose proof (_rows_line_closed_form shapely supported row cols with_lonlat geom_col
                Hrow) as Hline.
  cbv zeta in Hline. rewrite Hline. clear Hline.
  rewrite pipe_fields_filter.
  set (fields := pipe_fields row None _).
  set (geom_val := picked VNone row geom_col _).
  set (lng := picked VNone row (fst <$> with_lonlat) _).
  set (lat := picked VNone row (snd <$> with_lonlat) _).
  set (cond := bool_decide (is_Some with_lonlat) && negb (is_None lng)
               && negb (is_None lat)).
  assert (Hshape : ∀ a, a = EmptyString ∨ (∃ g, a = ewkt_field g) →
            ∃ line,
              Return (encode ((if cond then (fields +:+ a) +:+ lonlat_field lng lat
                               else fields +:+ a) +:+ nl)) = Return line
              ∧ fields_line row
                  (filter (λ c, Some c ≠ geom_col) (kept supported with_lonlat cols))
                  line).
  { intros a Ha. eexists. split; [reflexivity|]. fold fields.
    exists (a +:+ (if cond then lonlat_field lng lat else EmptyString)).
    split.
    - exists a, (if cond then lonlat_field lng lat else EmptyString).
      split; [done|]. split; [done|]. destruct cond; [right; by eexists _, _|by left].
    - destruct cond; [by rewrite !append_assoc|by rewrite append_nil_r, append_assoc]. }
  assert (Hplain : ∃ line,
            Return (encode ((if cond then fields +:+ lonlat_field lng lat
                             else fields) +:+ nl)) = Return line
            ∧ fields_line row
                (filter (λ c, Some c ≠ geom_col) (kept supported with_lonlat cols))
                line).
  { destruct (Hshape EmptyString (or_introl eq_refl)) as (line & Hl & Hf).
    rewrite append_nil_r in Hl. by exists line. }
  destruct (is_None geom_val); cbn [negb]; [by right|].
  destruct ((_decode_geom shapely geom_val).2) as [v|e] eqn:Hdec.
  - cbn [mbind result_bind].
    destruct (decode_returns _ _ _ Hdec) as [->|[g ->]]; cbn [truthy];
      [by right|].
    destruct (is_empty g); cbn [negb mbind result_bind getattr_wkt]; [by right|].
    right. exact (Hshape (ewkt_field g) (or_intror (ex_intro _ g eq_refl))).
  - left. destruct (decode_raises _ _ _ Hdec) as (err & -> & _ & ->).
    by eexists _, _.
Qed.

Lemma yielded_lines {A B} (f : A → result B) (P : A → B → Prop) (l : list A) :
  Forall (λ x, ∀ y, f x = Return y → P x y) l →
  Forall2 P (take (length (yielded (map f l))) l) (yielded (map f l)).
Proof.
  induction 1 as [|x l Hx _ IH]; [constructor|].
  cbn [map yielded]. destruct (f x) as [y|e] eqn:Hfx; [|constructor].
  cbn [length take]. constructor; [by apply Hx|exact IH].
Qed.

Lemma yielded_all {A B} (f : A → result B) (l : list A) :
  Forall (λ x, ∃ y, f x = Return y) l →
  length (yielded (map f l)) = length l.
Proof.
  induction 1 as [|x l [y Hx] _ IH]; [done|].
  cbn [map yielded]. rewrite Hx. cbn [length]. by rewrite IH.
Qed.

(** What [_copyfrom] hands to the transport. *)
Lemma _copyfrom_sends {W} shapely supported (self : Dataset W) d names with_lonlat
    (s : State W) :
  df self = Some d → normalized_column_names self = Some names → rectangular d →
  ∃ lines,
    trace (run (_copyfrom shapely supported self with_lonlat) s).2
    = trace s ++ [CopyFrom (copy_statement (table_name self) names.*1) lines]
    ∧ Forall2
        (λ row line,
           fields_line row
             (written_columns supported with_lonlat (_get_geom_col_name supported d) d)
             line)
        (take (length lines) (iterrows d)) lines
    ∧ (∀ lib, shapely = Installed lib → length lines = length (iterrows d)).
Proof.
  intros Hdf Hnames Hrect.
  set (cols := filter (λ c, c ≠ "cartodb_id") (columns d)).
  set (geom_col := _get_geom_col_name supported d).
  assert (Hrows : Forall (λ row : gmap string value,
                     Forall (λ c, is_Some (row !! c)) (kept supported with_lonlat cols))
                    (iterrows d)).
  { eapply Forall_impl; [exact Hrect|]. intros row Hrow. apply Forall_forall.
    intros c Hc. apply (proj1 (Forall_forall _ _) Hrow).
    assert (c ∈ cols) as Hin.
    { destruct with_lonlat; cbn [kept] in Hc; [|done].
      by apply list_elem_of_filter in Hc as [_ Hc]. }
    subst cols. by apply list_elem_of_filter in Hin as [_ Hin]. }
  exists (yielded (_rows shapely supported d cols with_lonlat geom_col)).
  split; [|split].
  - unfold _copyfrom, self_df, self_normalized_column_names.
    rewrite Hdf, Hnames. cbn. fold cols geom_col.
    destruct (copy_client_copyfrom _ _ _ _) as [r w].
    by destruct (first_raise _).
  - unfold _rows. apply yielded_lines.
    eapply Forall_impl; [exact Hrows|]. intros row Hrow line Hline.
    destruct (_rows_line_shape shapely supported row cols with_lonlat geom_col Hrow)
      as [(e & err & He & _)|(line' & Hl & Hfields)]; [congruence|].
    rewrite Hl in Hline. by injection Hline as <-.
  - intros lib ->. unfold _rows. apply yielded_all.
    eapply Forall_impl; [exact Hrows|]. intros row Hrow.
    destruct (_rows_line_shape (Installed lib) supported row cols with_lonlat geom_col
                Hrow) as [(e & err & _ & Hmissing)|(line & Hl & _)]; [done|].
    by exists line.
Qed.



Lemma filter_serialized_and (geom_col : option string) (l : list string) :
  filter (λ c, Some c ≠ geom_col) (filter (λ c, c ≠ "cartodb_id") l)
  = filter (λ c, c ≠ "cartodb_id" ∧ Some c ≠ geom_col) l.
Proof.
  induction l as [|c l IH]; [done|].
  rewrite (filter_cons (λ c, c ≠ "cartodb_id")),
    (filter_cons (λ c, c ≠ "cartodb_id" ∧ Some c ≠ geom_col)).
  destruct (decide (c ≠ "cartodb_id")) as [Hc|Hc].
  - rewrite filter_cons. destruct (decide (Some c ≠ geom_col)) as [Hg|Hg].
    + rewrite decide_True by done. by rewrite IH.
    + rewrite decide_False by tauto. done.
  - rewrite decide_False by tauto. done.
Qed.



(** X17. A frame that carries one more reserved-name column (a
    [the_geom_webmercator] column, say) is sent, without lon/lat mode, with
    more fields per line than the COPY statement names columns: the statement
    lists the normalized names and [the_geom], one column more than there are
    normalized names, while every line carries a pipe-terminated field for
    each column [_rows] writes, the extra column among them, and then the
    geometry text, one field more than there are written columns; and the
    written columns outnumber the normalized names. *)
Theorem copy_columns_fewer_than_fields {W} (shapely : import) (supported : list string)
    (normalize_names : list string → list string) (reserved : list string)
    (self : Dataset W) (d : DataFrame) (extra : string) (s : State W) :
  let names := (_normalize_column_names normalize_names reserved d).1 in
  let geom_col := _get_geom_col_name supported d in
  let written := written_columns supported None geom_col d in
  df self = Some d →
  normalized_column_names self = Some names →
  rectangular d →
  "cartodb_id" ∈ reserved →
  (∀ g, geom_col = Some g → g ∈ reserved) →
  extra ∈ columns d → extra ∈ reserved →
  extra ≠ "cartodb_id" → Some extra ≠ geom_col →
  ∃ lines,
    trace (run (_copyfrom shapely supported self None) s).2
    = trace s ++ [CopyFrom (copy_statement (table_name self) names.*1) lines]
    ∧ Forall2 (λ row line, fields_line row written line)
        (take (length lines) (iterrows d)) lines
    ∧ (∀ lib, shapely = Installed lib → length lines = length (iterrows d))
    ∧ extra ∈ written
    ∧ (length names.*1 + 1 < length written + 1)%nat.
Proof.
  intros names geom_col written Hdf Hnames Hrect Hid Hgeom Hin Hres Hne Hng.
  destruct (_copyfrom_sends shapely supported self d names None s Hdf Hnames Hrect)
    as (lines & Htrace & Hlines & Hall).
  exists lines. split; [exact Htrace|]. split; [exact Hlines|]. split; [exact Hall|].
  subst written. unfold written_columns. cbn [kept]. split.
  - apply list_elem_of_filter. split; [done|]. by apply list_elem_of_filter.
  - rewrite length_fmap. subst names. unfold _normalize_column_names. cbn [fst].
    rewrite length_zip_with, filter_serialized_and.
    pose proof (filter_length_lt (λ c, c ∉ reserved)
                  (λ c, c ≠ "cartodb_id" ∧ Some c ≠ geom_col) (columns d) extra) as Hlt.
    specialize (Hlt ltac:(intros y Hy; split;
                            [intros ->; done
                            |intros Heq; apply Hy, (Hgeom y); by symmetry])
                  Hin (conj Hne Hng) ltac:(intros Hn; by apply Hn)).
    lia.
Qed.

Lemma copy_columns_fewer_than_fields_witness :
  ∃ lines,
    trace (run (_copyfrom (Installed tiny_shapely) standard_geom_col_names
                  (example_wide_dataset (example_cc false (Ok example_catalog) "done"))
                  None) start).2
    = [CopyFrom (copy_statement "places" ["name"]) lines]
    ∧ Forall2 (λ row line, fields_line row ["name"; "the_geom_webmercator"] line)
        (take (length lines) (iterrows example_wide_df)) lines
    ∧ lines = [encode ("A|0101|SRID=4326;POINT (1 2)" +:+ nl)].
Proof.
  destruct (copy_columns_fewer_than_fields (Installed tiny_shapely)
              standard_geom_col_names (map lower) example_reserved
              (example_wide_dataset (example_cc false (Ok example_catalog) "done"))
              example_wide_df "the_geom_webmercator" start)
    as (lines & Htrace & Hlines & Hall & _ & _).
  - reflexivity.
  - reflexivity.
  - unfold rectangular. repeat constructor; eexists; reflexivity.
  - by apply (bool_decide_unpack _).
  - intros g [= <-]. by apply (bool_decide_unpack _).
  - by apply (bool_decide_unpack _).
  - by apply (bool_decide_unpack _).
  - discriminate.
  - discriminate.
  - exists lines. split; [exact Htrace|]. split; [exact Hlines|].
    vm_compute in Htrace. by injection Htrace as <-.
Defined.

(** ** Construction *)

Lemma mapM_cons {A B} (f : A → result B) (x : A) (l : list A) :
  mapM f (x :: l) = (y ← f x; k ← mapM f l; mret (y :: k)).
Proof. reflexivity. Qed.

Lemma row_getitem_inserted (row : gmap string value) (label : string) (v : value) :
  row_getitem (<[label := v]> row) label = Return v.
Proof. unfold row_getitem. by rewrite lookup_insert_eq. Qed.

Lemma row_getitem_other (row : gmap string value) (label col : string) (v : value) :
  label ≠ col → row_getitem (<[label := v]> row) col = row_getitem row col.
Proof. intros Hne. unfold row_getitem. by rewrite lookup_insert_ne. Qed.

Lemma mapM_getitem_inserted (label : string) (labels : list value)
    (rows_ : list (gmap string value)) :
  length labels = length rows_ →
  mapM (λ row, row_getitem row label)
    (zip_with (λ l row, <[label := l]> row) labels rows_)
  = Return labels.
Proof.
  revert rows_. induction labels as [|l labels IH]; intros [|row rows_] Hlen;
    try done.
  cbn [zip_with]. rewrite mapM_cons, row_getitem_inserted.
  rewrite IH by (cbn in Hlen; lia). reflexivity.
Qed.

Lemma mapM_getitem_inserted_returns (label : string) (labels : list value)
    (rows_ : list (gmap string value)) :
  ∃ cells,
    mapM (λ row, row_getitem row label)
      (zip_with (λ l row, <[label := l]> row) labels rows_)
    = Return cells.
Proof.
  revert rows_. induction labels as [|l labels IH]; intros [|row rows_];
    try (by eexists).
  cbn [zip_with]. rewrite mapM_cons, row_getitem_inserted.
  destruct (IH rows_) as [cells ->]. by eexists.
Qed.

Lemma mapM_getitem_other (label col : string) (labels : list value)
    (rows_ : list (gmap string value)) :
  label ≠ col → length labels = length rows_ →
  mapM (λ row, row_getitem row col)
    (zip_with (λ l row, <[label := l]> row) labels rows_)
  = mapM (λ row, row_getitem row col) rows_.
Proof.
  intros Hne. revert rows_. induction labels as [|l labels IH]; intros [|row rows_] Hlen;
    try done.
  cbn [zip_with]. rewrite !mapM_cons, row_getitem_other by done.
  rewrite IH by (cbn in Hlen; lia). reflexivity.
Qed.

(** X18. [_save_index_as_column] never raises.  It leaves the frame alone when
    the index has no name or its name is already a column.  Otherwise, on a
    frame with one index label per row, the index name becomes the first
    column, the index itself is unchanged, the new column holds the index
    labels (so they can be read both ways), and every other column reads as
    before.  A second call changes nothing. *)
Theorem save_index_as_column_spec (f : IndexedFrame) :
  ∃ f',
    _save_index_as_column f = Return f'
    ∧ _save_index_as_column f' = Return f'
    ∧ (index_name (index f) = None → f' = f)
    ∧ (∀ n, index_name (index f) = Some n → n ∈ columns (frame f) → f' = f)
    ∧ (∀ n, index_name (index f) = Some n → n ∉ columns (frame f) →
         length (index_labels (index f)) = length (iterrows (frame f)) →
         columns (frame f') = n :: columns (frame f)
         ∧ index f' = index f
         ∧ df_getitem (frame f') n = Return (index_labels (index f))
         ∧ ∀ c, c ∈ columns (frame f) →
             df_getitem (frame f') c = df_getitem (frame f) c).
Proof.
  destruct f as [d [iname idtype labels]]. unfold _save_index_as_column. cbn.
  destruct iname as [n|]; [|eexists; repeat split; try done].
  destruct (decide (n ∈ columns d)) as [Hin|Hnin].
  { rewrite bool_decide_false by (intros Hn; by apply Hn).
    exists {| frame := d; index := {| index_name := Some n; index_dtype := idtype;
                                      index_labels := labels |} |}.
    cbn. rewrite bool_decide_false by (intros Hn; by apply Hn).
    split; [done|]. split; [done|]. split; [done|]. split; [done|].
    intros n' [= <-] Hn. by destruct Hn. }
  rewrite bool_decide_true by done. unfold reset_index. cbn.
  rewrite bool_decide_false by done. cbn. unfold set_index, df_getitem, dtypes_getitem.
  cbn. rewrite (bool_decide_true (n ∈ n :: columns d)) by apply list_elem_of_here.
  rewrite lookup_insert_eq.
  destruct (mapM_getitem_inserted_returns n labels (iterrows d)) as [cells Hcells].
  rewrite Hcells.
  cbn. eexists. split; [reflexivity|]. cbn.
  rewrite (bool_decide_false (n ∉ n :: columns d))
    by (intros Hn; apply Hn, list_elem_of_here).
  split; [reflexivity|]. split; [done|].
  split; [intros n' [= <-] Hn; by destruct Hnin|].
  intros n' [= <-] _ Hlen.
  rewrite (mapM_getitem_inserted n labels (iterrows d) Hlen) in Hcells.
  injection Hcells as <-. split; [done|]. split; [done|].
  rewrite (bool_decide_true (n ∈ n :: columns d)) by apply list_elem_of_here.
  split; [by rewrite (mapM_getitem_inserted n labels (iterrows d) Hlen)|].
  intros c Hc. rewrite (bool_decide_true (c ∈ n :: columns d))
    by (by apply list_elem_of_further).
  rewrite (bool_decide_true (c ∈ columns d)) by done.
  apply mapM_getitem_other; [|done]. by intros ->.
Qed.

Lemma _save_index_as_column_cases (f : IndexedFrame) :
  _save_index_as_column f = Return f
  ∨ ∃ n cells,
      index_name (index f) = Some n ∧ (n ∉ columns (frame f))
      ∧ _save_index_as_column f
        = Return {| frame :=
                      {| columns := n :: columns (frame f);
                         dtypes := <[n := index_dtype (index f)]> (dtypes (frame f));
                         _geometry_column_name := _geometry_column_name (frame f);
                         iterrows := zip_with (λ l row, <[n := l]> row)
                                       (index_labels (index f)) (iterrows (frame f)) |};
                    index := {| index_name := Some n;
                                index_dtype := index_dtype (index f);
                                index_labels := cells |} |}.
Proof.
  unfold _save_index_as_column. destruct (index_name (index f)) as [n|] eqn:Hn;
    [|by left].
  case_bool_decide as Hnin; [|by left]. right.
  destruct (mapM_getitem_inserted_returns n (index_labels (index f))
              (iterrows (frame f))) as [cells Hcells].
  exists n, cells. split; [done|]. split; [done|].
  unfold reset_index. rewrite bool_decide_false by done. cbn.
  unfold set_index, df_getitem, dtypes_getitem. cbn.
  rewrite (bool_decide_true (n ∈ n :: columns (frame f))) by apply list_elem_of_here.
  rewrite Hcells, lookup_insert_eq. reflexivity.
Qed.

Lemma _save_index_as_column_well_typed (f f' : IndexedFrame) :
  well_typed (frame f) → _save_index_as_column f = Return f' →
  well_typed (frame f').
Proof.
  intros Hwt Hsave.
  destruct (_save_index_as_column_cases f) as [Hsame|(n & cells & _ & _ & Hnew)].
  - rewrite Hsame in Hsave. by injection Hsave as <-.
  - rewrite Hnew in Hsave. injection Hsave as <-. intros c Hc. cbn in *.
    destruct (decide (n = c)) as [->|Hne].
    + rewrite lookup_insert_eq. by eexists.
    + rewrite lookup_insert_ne by done. apply Hwt.
      apply elem_of_cons in Hc as [->|Hc]; done.
Qed.

Lemma changed_cols_nonempty (l : list (string * string)) :
  l ≠ [] → String.eqb (join nl (changed_col <$> l)) EmptyString = false.
Proof.
  destruct l as [|p l]; [done|]. intros _. cbn [fmap list_fmap]. unfold join.
  cbn [String.concat]. destruct (changed_col <$> l); reflexivity.
Qed.

Lemma _normalize_column_names_originals (normalize_names : list string → list string)
    (reserved : list string) (d : DataFrame) (p : string * string) :
  p ∈ (_normalize_column_names normalize_names reserved d).1 →
  p.2 ∈ columns d ∧ p.2 ∉ reserved.
Proof.
  unfold _normalize_column_names. cbn [fst]. intros Hp.
  pose proof (zip_with_originals (filter (λ c, c ∉ reserved) (columns d))
                (normalize_names (filter (λ c, c ∉ reserved) (columns d)))) as Hall.
  rewrite Forall_forall in Hall. apply Hall in Hp.
  apply list_elem_of_filter in Hp as [? ?]. done.
Qed.

(** X19. [_normalize_column_names] pairs each normalized name with the
    original it stands for: every original is a column of the frame that is
    not reserved; when [normalize_names] gives one name per name, the
    originals are exactly the non-reserved columns in the frame's order and
    the normalized names are what [normalize_names] returned for them; and
    the renaming report is written exactly when some name was changed. *)
Theorem normalize_column_names_spec (normalize_names : list string → list string)
    (reserved : list string) (d : DataFrame) :
  let column_names := filter (λ c, c ∉ reserved) (columns d) in
  let out := _normalize_column_names normalize_names reserved d in
  (∀ p, p ∈ out.1 → p.2 ∈ columns d ∧ p.2 ∉ reserved)
  ∧ (length (normalize_names column_names) = length column_names →
     out.1.*2 = column_names ∧ out.1.*1 = normalize_names column_names)
  ∧ (out.2 = None ↔ ∀ p, p ∈ out.1 → p.1 = p.2).
Proof.
  intros column_names out. split; [|split].
  - intros p. apply _normalize_column_names_originals.
  - intros Hlen. subst out. unfold _normalize_column_names. cbn [fst].
    by apply zip_with_snd_fst.
  - subst out. unfold _normalize_column_names. cbn [fst snd]. fold column_names.
    set (tuples := zip_with _ column_names _).
    destruct (filter (λ p : string * string, p.1 ≠ p.2) tuples) as [|q l] eqn:Hf.
    + cbn. split; [|done]. intros _ p Hp.
      destruct (decide (p.1 = p.2)) as [|Hne]; [done|].
      by destruct (filter_nil_not_elem_of _ _ p Hf Hne).
    + rewrite changed_cols_nonempty by done. cbn. split; [done|]. intros Hall.
      assert (q ∈ filter (λ p : string * string, p.1 ≠ p.2) tuples) as Hq
        by (rewrite Hf; apply list_elem_of_here).
      apply list_elem_of_filter in Hq as [Hne Hq]. by destruct (Hne (Hall q Hq)).
Qed.

(** X21. A [Dataset] built from a frame whose columns all have a dtype can
    always state its table: with longitude and latitude columns given,
    [_create_table_query] returns a CREATE TABLE statement for the normalized
    table name, with one definition per normalized column name and the point
    geometry column, and it neither warns nor contacts the service. *)
Theorem init_then_create_table_query {W} (shapely : import) (supported : list string)
    (normalize_name : string → string)
    (normalize_names : list string → list string) (reserved : list string)
    (context : CartoContext W) (table schema_ : string)
    (f : IndexedFrame) (lonlat : string * string) (s s1 : State W)
    (self : Dataset W) (report : option string) :
  well_typed (frame f) →
  run (__init__ normalize_name normalize_names reserved context table schema_ (Some f)) s
  = (Return (self, report), s1) →
  ∃ d names,
    df self = Some d ∧ normalized_column_names self = Some names
    ∧ run (_create_table_query shapely supported self (Some lonlat)) s1
      = (Return ("CREATE TABLE " +:+ normalize_name table +:+ " ("
                 +:+ (join ", " (column_definitions d names)
                      +:+ ", the_geom geometry(Point, 4326)") +:+ ")"), s1).
Proof.
  intros Hwt. unfold __init__.
  destruct (_save_index_as_column f) as [f'|e] eqn:Hsave.
  2:{ destruct (_save_index_as_column_cases f) as [?|(n & cells & _ & _ & ?)];
        congruence. }
  pose proof (_save_index_as_column_well_typed f f' Hwt Hsave) as Hwt'.
  cbn -[_normalize_column_names].
  assert (Forall (λ p : string * string, is_Some (dtypes (frame f') !! p.2))
            (_normalize_column_names normalize_names reserved (frame f')).1) as Hall.
  { apply Forall_forall. intros p Hp.
    apply _normalize_column_names_originals in Hp as [Hp _]. by apply Hwt'. }
  assert (∀ s2, (Return ({| cc := context; table_name := normalize_name table;
                             schema := schema_; df := Some (frame f');
                             normalized_column_names :=
                               Some (_normalize_column_names normalize_names
                                       reserved (frame f')).1 |},
                          (_normalize_column_names normalize_names reserved
                             (frame f')).2), s2)
                 = (Return (self, report), s1) →
               ∃ d names,
                 df self = Some d ∧ normalized_column_names self = Some names
                 ∧ run (_create_table_query shapely supported self (Some lonlat)) s1
                   = (Return ("CREATE TABLE " +:+ normalize_name table +:+ " ("
                              +:+ (join ", " (column_definitions d names)
                                   +:+ ", the_geom geometry(Point, 4326)") +:+ ")"),
                      s1)) as Hbuilt.
  { intros s2 Hrun. injection Hrun as Hself _ _.
    assert (df self = Some (frame f')) as Hdf by (by subst self).
    assert (normalized_column_names self
            = Some (_normalize_column_names normalize_names reserved (frame f')).1)
      as Hnames by (by subst self).
    assert (table_name self = normalize_name table) as Htab by (by subst self).
    clear Hself. eexists _, _. split; [exact Hdf|]. split; [exact Hnames|].
    unfold _create_table_query, self_normalized_column_names.
    rewrite Hnames, Htab. cbn -[mapM _normalize_column_names].
    by rewrite (mapM_column_definitions self (frame f') _ _ Hdf Hall). }
  destruct (bool_decide (normalize_name table ≠ table)); apply Hbuilt.
Qed.

Lemma init_then_create_table_query_witness :
  ∃ d names,
    df (example_dataset (example_cc false (Ok example_catalog) "done")) = Some d
    ∧ normalized_column_names (example_dataset (example_cc false (Ok example_catalog) "done"))
      = Some names
    ∧ run (_create_table_query (Installed tiny_shapely) standard_geom_col_names
             (example_dataset (example_cc false (Ok example_catalog) "done"))
             (Some ("lon", "lat"))) start
      = (Return ("CREATE TABLE " +:+ lower "places" +:+ " ("
                 +:+ (join ", " (column_definitions d names)
                      +:+ ", the_geom geometry(Point, 4326)") +:+ ")"), start).
Proof.
  apply (init_then_create_table_query (Installed tiny_shapely) standard_geom_col_names
           lower (map lower) example_reserved
           (example_cc false (Ok example_catalog) "done") "places" "public"
           example_indexed ("lon", "lat") start start
           (example_dataset (example_cc false (Ok example_catalog) "done")) None).
  - intros c Hc. change (columns (frame example_indexed)) with ["id"; "name"; "the_geom"] in Hc.
    rewrite !elem_of_cons, elem_of_nil in Hc.
    destruct Hc as [->|[->|[->|[]]]]; eexists; reflexivity.
  - reflexivity.
Defined.
